(** * Payment transaction and subscription dunning engine

    A shallow embedding of the payment and subscription tasks of the LMS
    (payments/tasks.py, subscriptions/tasks.py, payments/models.py,
    subscriptions/models.py, payments/providers/mpesa.py and airtel.py),
    followed by the properties of the engine's specification.

    Conventions of the embedding:
    - a [datetime] is a number of microseconds (counted from 1970-01-01
      UTC), a [timedelta] a difference of two of them; [timedelta.days] is
      the floor division by one day;
    - a [str] is the byte string of its UTF-8 encoding;
    - a database table is the list of its rows, newest first; a primary key
      (a random UUID in the code) is the number of rows the table held when
      the row was inserted;
    - status columns are the strings the code writes and compares;
    - Decimal amounts with two decimal places are integers (cents);
    - a Python exception is a value of [exn]; code that can raise lives in
      the [Exc] monad; a Celery [delay] appends a message to a task queue. *)

From Stdlib Require Import ZArith List String Ascii Bool Lia.
From Stdlib Require Import Floats.SpecFloat.
From stdpp Require Import base option list gmap strings pretty.

Set Warnings "-register-all".
Local Open Scope Z_scope.
Local Open Scope string_scope.

(** ** Python exceptions and the error monad *)

Inductive exn : Type :=
| AttributeError (msg : string)
| TypeError (msg : string)
| NameError (msg : string)
| KeyError (msg : string)
| InvalidOperation (msg : string)
| DoesNotExist (msg : string)
| IntegrityError (msg : string)
| ValueError (msg : string)
| OverflowError (msg : string)
| GenericException (msg : string)
| KeyboardInterrupt.

(** [isinstance(e, Exception)]: what [except Exception] catches. *)
Definition is_Exception (e : exn) : bool :=
  match e with
  | KeyboardInterrupt => false
  | _ => true
  end.

(** [str(e)] *)
Definition exn_str (e : exn) : string :=
  match e with
  | AttributeError m | TypeError m | NameError m | KeyError m | InvalidOperation m
  | DoesNotExist m | IntegrityError m | ValueError m | OverflowError m
  | GenericException m => m
  | KeyboardInterrupt => ""
  end.

Inductive Exc (A : Type) : Type :=
| Ok (a : A)
| Raise (e : exn).
Arguments Ok {A} a.
Arguments Raise {A} e.

Definition bind {A B : Type} (m : Exc A) (k : A -> Exc B) : Exc B :=
  match m with
  | Ok a => k a
  | Raise e => Raise e
  end.

Notation "'let*' x ':=' m 'in' k" := (bind m (fun x => k))
  (at level 10, x name, m at level 100, k at level 200).

(** [try: body  except Exception as e: handler(e)] *)
Definition try_except {A : Type} (body : Exc A) (handler : exn -> Exc A) : Exc A :=
  match body with
  | Ok a => Ok a
  | Raise e => if is_Exception e then handler e else Raise e
  end.

(** ** JSON payloads as Python values *)

Inductive json : Type :=
| JNull
| JBool (b : bool)
| JInt (z : Z)
| JFloat (f : spec_float)
| JStr (s : string)
| JArr (items : list json)
| JObj (fields : list (string * json)).

(** [decimal.Decimal] values. *)
Inductive Decimal : Type :=
| Dec (sign : bool) (coefficient : N) (exponent : Z)
| DecInfinity (sign : bool)
| DecNaN.

(** Values stored in the dictionaries the adapters return. *)
Inductive pyval : Type :=
| PJson (j : json)
| PDecimal (d : Decimal).

Definition type_name (j : json) : string :=
  match j with
  | JNull => "NoneType"
  | JBool _ => "bool"
  | JInt _ => "int"
  | JFloat _ => "float"
  | JStr _ => "str"
  | JArr _ => "list"
  | JObj _ => "dict"
  end.

Fixpoint assoc (k : string) (d : list (string * json)) : option json :=
  match d with
  | [] => None
  | (k', v) :: d' => if String.eqb k k' then Some v else assoc k d'
  end.

(** [obj.get(key, default)]: only a dict has the method. *)
Definition py_get (obj : json) (key : string) (dflt : json) : Exc json :=
  match obj with
  | JObj d => Ok (default dflt (assoc key d))
  | _ => Raise (AttributeError
           ("'" +:+ type_name obj +:+ "' object has no attribute 'get'"))
  end.

(** [for item in obj]: a list yields its items, a dict its keys, a string its
    characters; nothing else is iterable. *)
Definition py_iter (obj : json) : Exc (list json) :=
  match obj with
  | JArr l => Ok l
  | JObj d => Ok (map (fun kv => JStr (fst kv)) d)
  | JStr s => Ok (map (fun c => JStr (String c EmptyString)) (list_ascii_of_string s))
  | _ => Raise (TypeError ("'" +:+ type_name obj +:+ "' object is not iterable"))
  end.

(** [x == 0] for a JSON value [x] ([False == 0] and [0.0 == 0] hold). *)
Definition eq_zero (x : json) : bool :=
  match x with
  | JInt z => Z.eqb z 0
  | JBool b => negb b
  | JFloat (S754_zero _) => true
  | _ => false
  end.

(** [x == s] for a string literal [s]. *)
Definition eq_str (x : json) (s : string) : bool :=
  match x with
  | JStr t => String.eqb t s
  | _ => false
  end.

(** [if x:] *)
Definition truthy (x : json) : bool :=
  match x with
  | JNull => false
  | JBool b => b
  | JInt z => negb (Z.eqb z 0)
  | JFloat (S754_zero _) => false
  | JFloat _ => true
  | JStr s => negb (String.eqb s "")
  | JArr l => negb (Nat.eqb (List.length l) 0)
  | JObj d => negb (Nat.eqb (List.length d) 0)
  end.

(** [s.startswith(p)] and [s[n:]] *)
Definition startswith (s p : string) : bool := String.prefix p s.

Definition str_from (n : nat) (s : string) : string :=
  String.substring n (String.length s - n) s.

(** A Python str is held as the bytes of its UTF-8 encoding. A character is
    a byte that is not a continuation byte (10xxxxxx) together with the
    continuation bytes that follow it. *)
Definition is_continuation (c : ascii) : bool :=
  (128 <=? nat_of_ascii c)%nat && (nat_of_ascii c <=? 191)%nat.

(** [len(s)]: the number of characters. *)
Fixpoint str_len (s : string) : nat :=
  match s with
  | EmptyString => O
  | String c rest => if is_continuation c then str_len rest else S (str_len rest)
  end.

(** [s[:n]]: the first [n] characters. *)
Fixpoint str_upto (n : nat) (s : string) : string :=
  match s with
  | EmptyString => EmptyString
  | String c rest =>
      if is_continuation c then String c (str_upto n rest)
      else match n with
           | O => EmptyString
           | S m => String c (str_upto m rest)
           end
  end.

(** Whether a string starts at the first byte of a character. *)
Definition at_boundary (s : string) : bool :=
  match s with
  | EmptyString => true
  | String c _ => negb (is_continuation c)
  end.

(** [Decimal(str(v))] on the value of a payload field, when [v] is an int
    (str of an int is its decimal numeral, which Decimal accepts). Other
    values are left to the conversion the adapters are given. *)
Definition Decimal_of_int (z : Z) : Decimal := Dec (Z.ltb z 0) (Z.abs_N z) 0.

(** The format the adapters' docstrings and the PaymentMethod model name
    for a payer's number: 254 followed by nine digits. *)
Definition is_digit (c : ascii) : bool :=
  (48 <=? nat_of_ascii c)%nat && (nat_of_ascii c <=? 57)%nat.

Definition is_254_format (s : string) : bool :=
  startswith s "254" && Nat.eqb (String.length s) 12
  && forallb is_digit (list_ascii_of_string s).

(** ** Provider adapters *)

Module MPesaProvider.

(** The JSON body of the STK push request. *)
Record stk_payload : Type := {
  BusinessShortCode : string;
  Password : string;
  Timestamp : string;
  TransactionType : string;
  Amount : Z;
  PartyA : string;
  PartyB : string;
  PhoneNumber : string;
  CallBackURL : string;
  AccountReference : string;
  TransactionDesc : string
}.

(** Lines 121-125 of initiate_stk_push. *)
Definition normalize_phone (phone_number : string) : string :=
  if startswith phone_number "0" then "254" +:+ str_from 1 phone_number
  else if startswith phone_number "+" then str_from 1 phone_number
  else phone_number.

(** The payload initiate_stk_push posts. [amount] is in cents;
    [int(Decimal(str(amount)))] truncates it to whole shillings. The
    password and timestamp come from generate_password. *)
Definition initiate_stk_push_payload (shortcode password timestamp : string)
    (phone_number : string) (amount : Z)
    (account_reference transaction_desc callback_url : string) : stk_payload :=
  let phone_number := normalize_phone phone_number in
  let amount := Z.quot amount 100 in
  {| BusinessShortCode := shortcode;
     Password := password;
     Timestamp := timestamp;
     TransactionType := "CustomerPayBillOnline";
     Amount := amount;
     PartyA := phone_number;
     PartyB := shortcode;
     PhoneNumber := phone_number;
     CallBackURL := callback_url;
     AccountReference := str_upto 12 account_reference;
     TransactionDesc := str_upto 13 transaction_desc |}.

Section ParseCallback.

(** [Decimal(str(value))]: [None] when Decimal raises InvalidOperation. *)
Variable Decimal_str : json -> option Decimal.

Definition to_Decimal (value : json) : Exc Decimal :=
  match Decimal_str value with
  | Some d => Ok d
  | None => Raise (InvalidOperation "[<class 'decimal.ConversionSyntax'>]")
  end.

(** One iteration of the loop over the callback metadata items. *)
Definition parse_item (parsed : gmap string pyval) (item : json)
  : Exc (gmap string pyval) :=
  let* name := py_get item "Name" JNull in
  let* value := py_get item "Value" JNull in
  if eq_str name "Amount" then
    let* d := to_Decimal value in
    Ok (<["amount" := PDecimal d]> parsed)
  else if eq_str name "MpesaReceiptNumber" then
    Ok (<["receipt_number" := PJson value]> parsed)
  else if eq_str name "TransactionDate" then
    Ok (<["transaction_date" := PJson value]> parsed)
  else if eq_str name "PhoneNumber" then
    Ok (<["phone_number" := PJson value]> parsed)
  else Ok parsed.

Fixpoint parse_items (parsed : gmap string pyval) (items : list json)
  : Exc (gmap string pyval) :=
  match items with
  | [] => Ok parsed
  | item :: rest =>
      let* parsed := parse_item parsed item in
      parse_items parsed rest
  end.

(** The body of the [try] block of parse_callback. *)
Definition parse_callback_body (callback_data : json) : Exc (gmap string pyval) :=
  let* body := py_get callback_data "Body" (JObj []) in
  let* stk_callback := py_get body "stkCallback" (JObj []) in
  let* result_code := py_get stk_callback "ResultCode" JNull in
  let* result_desc := py_get stk_callback "ResultDesc" JNull in
  let* merchant_request_id := py_get stk_callback "MerchantRequestID" JNull in
  let* checkout_request_id := py_get stk_callback "CheckoutRequestID" JNull in
  let parsed : gmap string pyval :=
    <["success" := PJson (JBool (eq_zero result_code))]>
    (<["checkout_request_id" := PJson checkout_request_id]>
    (<["merchant_request_id" := PJson merchant_request_id]>
    (<["result_desc" := PJson result_desc]>
    (<["result_code" := PJson result_code]> ∅)))) in
  if eq_zero result_code then
    let* callback_metadata := py_get stk_callback "CallbackMetadata" (JObj []) in
    let* items := py_get callback_metadata "Item" (JArr []) in
    let* items := py_iter items in
    parse_items parsed items
  else Ok parsed.

Definition parse_callback (callback_data : json) : Exc (gmap string pyval) :=
  try_except (parse_callback_body callback_data)
    (fun e => Ok (<["error" := PJson (JStr (exn_str e))]>
                  (<["success" := PJson (JBool false)]> ∅))).

End ParseCallback.

End MPesaProvider.

Module AirtelProvider.

(** The JSON body of the collect request. *)
Record collect_payload : Type := {
  reference : string;
  subscriber_country : string;
  subscriber_currency : string;
  subscriber_msisdn : string;
  transaction_amount : Z;
  transaction_country : string;
  transaction_currency : string;
  transaction_id : string
}.

(** Lines 110-114 of initiate_collect. *)
Definition normalize_phone (phone_number : string) : string :=
  if startswith phone_number "254" then "0" +:+ str_from 3 phone_number
  else if startswith phone_number "+254" then "0" +:+ str_from 4 phone_number
  else phone_number.

(** The payload initiate_collect posts ([amount] in cents). *)
Definition initiate_collect_payload (phone_number : string) (amount : Z)
    (ref callback_url : string) : collect_payload :=
  let phone_number := normalize_phone phone_number in
  {| reference := ref;
     subscriber_country := "KE";
     subscriber_currency := "KES";
     subscriber_msisdn := phone_number;
     transaction_amount := amount;
     transaction_country := "KE";
     transaction_currency := "KES";
     transaction_id := ref |}.

Section ParseCallback.

Variable Decimal_str : json -> option Decimal.

Definition to_Decimal (value : json) : Exc Decimal :=
  match Decimal_str value with
  | Some d => Ok d
  | None => Raise (InvalidOperation "[<class 'decimal.ConversionSyntax'>]")
  end.

(** [key in obj] and [obj[key]] for a string [key]. *)
Definition contains (obj : json) (key : string) : Exc bool :=
  match obj with
  | JObj d => Ok (bool_decide (is_Some (assoc key d)))
  | JStr s => Ok (bool_decide (is_Some (String.index 0 key s)))
  | JArr l => Ok (existsb (fun x => eq_str x key) l)
  | _ => Raise (TypeError
           ("argument of type '" +:+ type_name obj +:+ "' is not iterable"))
  end.

Definition subscript (obj : json) (key : string) : Exc json :=
  match obj with
  | JObj d =>
      match assoc key d with
      | Some v => Ok v
      | None => Raise (KeyError ("'" +:+ key +:+ "'"))
      end
  | JStr _ => Raise (TypeError "string indices must be integers, not 'str'")
  | JArr _ => Raise (TypeError "list indices must be integers or slices, not str")
  | _ => Raise (TypeError
           ("'" +:+ type_name obj +:+ "' object is not subscriptable"))
  end.

(** The body of the [try] block of parse_callback. *)
Definition parse_callback_body (callback_data : json) : Exc (gmap string pyval) :=
  let* transaction := py_get callback_data "transaction" (JObj []) in
  let* status := py_get transaction "status" JNull in
  let* transaction_id := py_get transaction "id" JNull in
  let* airtel_money_id := py_get transaction "airtel_money_id" JNull in
  let parsed : gmap string pyval :=
    <["success" := PJson (JBool (eq_str status "TS" || eq_str status "SUCCESS"))]>
    (<["airtel_money_id" := PJson airtel_money_id]>
    (<["transaction_id" := PJson transaction_id]>
    (<["status" := PJson status]> ∅))) in
  let* has_amount := contains transaction "amount" in
  let* parsed :=
    if has_amount then
      let* amount := subscript transaction "amount" in
      let* d := to_Decimal amount in
      Ok (<["amount" := PDecimal d]> parsed)
    else Ok parsed in
  let* has_currency := contains transaction "currency" in
  let* parsed :=
    if has_currency then
      let* currency := subscript transaction "currency" in
      Ok (<["currency" := PJson currency]> parsed)
    else Ok parsed in
  let* subscriber := py_get callback_data "subscriber" (JObj []) in
  if truthy subscriber then
    let* msisdn := py_get subscriber "msisdn" JNull in
    let* country := py_get subscriber "country" JNull in
    Ok (<["country" := PJson country]> (<["phone_number" := PJson msisdn]> parsed))
  else Ok parsed.

Definition parse_callback (callback_data : json) : Exc (gmap string pyval) :=
  try_except (parse_callback_body callback_data)
    (fun e => Ok (<["error" := PJson (JStr (exn_str e))]>
                  (<["success" := PJson (JBool false)]> ∅))).

End ParseCallback.

End AirtelProvider.

(** ** Time *)

Definition datetime : Type := Z.

Definition microsecond : Z := 1.
Definition hour : Z := 3600000000.
Definition day : Z := 24 * hour.

(** [timedelta.days] of a difference of two datetimes. *)
Definition days (delta : Z) : Z := delta / day.

(** ** The stored records (payments, subscriptions and commerce models)

    A table lists its rows in the model's default ordering, which is
    [-created_at] for every model below: the newest row is first, [create]
    puts the new row in front, [first()] is the head of the filtered list. *)

Record Price : Type := {
  price_id : nat;
  price_amount : Z
}.

Record Order : Type := {
  order_id : nat;
  order_user : nat;
  order_status : string;
  order_subtotal : Z;
  order_tax_amount : Z;
  order_total : Z
}.

Record LineItem : Type := {
  li_order : nat;
  li_product : nat;
  li_price : nat;
  li_quantity : Z;
  li_unit_price : Z;
  li_total_price : Z
}.

Record PaymentMethod : Type := {
  pm_id : nat;
  pm_user : nat;
  pm_method_type : string;
  pm_phone_number : string;
  pm_is_default : bool;
  pm_is_active : bool
}.

Record PaymentIntent : Type := {
  pi_id : nat;
  pi_order : nat;
  pi_user : nat;
  pi_amount : Z;
  pi_currency : string;
  pi_provider : string;
  pi_payment_method : option nat;
  pi_status : string;
  pi_next_action : string;
  pi_idempotency_key : string;
  pi_provider_transaction_id : string;
  pi_checkout_request_id : string;
  pi_merchant_request_id : string;
  pi_error_message : string;
  pi_expires_at : datetime
}.

Record Payment : Type := {
  pay_id : nat;
  pay_payment_intent : nat;
  pay_order : nat;
  pay_user : nat;
  pay_amount : Z;
  pay_provider : string;
  pay_provider_transaction_id : string;
  pay_created_at : datetime
}.

Record WebhookEvent : Type := {
  we_id : nat;
  we_provider : string;
  we_provider_event_id : string;
  we_event_type : string;
  we_status : string;
  we_error_message : string;
  we_payment_intent : option nat;
  we_payment : option nat
}.

Record LedgerEntry : Type := {
  le_payment : option nat;
  le_order : option nat;
  le_refund : option nat;
  le_entry_type : string;
  le_account_type : string;
  le_amount : Z;
  le_currency : string;
  le_description : string
}.

Record Subscription : Type := {
  sub_id : nat;
  sub_user : nat;
  sub_product : nat;
  sub_price : nat;
  sub_status : string;
  sub_current_period_start : datetime;
  sub_current_period_end : datetime;
  sub_grace_until : option datetime;
  sub_ended_at : option datetime
}.

Record SubscriptionRenewalAttempt : Type := {
  ra_id : nat;
  ra_subscription : nat;
  ra_attempt_number : nat;
  ra_status : string;
  ra_payment_intent : option nat;
  ra_order : option nat;
  ra_error_message : string;
  ra_scheduled_at : datetime;
  ra_created_at : datetime
}.

(** [retry_schedule] is a JSON field: [Some l] when it holds a list (of day
    numbers), [None] when it holds anything else. The table of schedules is
    listed in its own default ordering ([-is_default], [name]). *)
Record DunningSchedule : Type := {
  ds_name : string;
  ds_retry_schedule : option (list Z);
  ds_grace_period_days : Z;
  ds_cancel_subscription : bool;
  ds_downgrade_to_free : bool;
  ds_is_active : bool;
  ds_is_default : bool
}.

(** Messages put on the Celery queue by [task.delay(...)]. *)
Inductive task : Type :=
| initiate_subscription_payment_msg (renewal_attempt_id : nat)
| send_dunning_notification_msg (subscription_id : nat) (attempt_number : nat)
| send_admin_alert_msg (subject message : string).

Record db : Type := {
  prices : list Price;
  orders : list Order;
  line_items : list LineItem;
  payment_methods : list PaymentMethod;
  payment_intents : list PaymentIntent;
  payments : list Payment;
  webhook_events : list WebhookEvent;
  ledger_entries : list LedgerEntry;
  subscriptions : list Subscription;
  renewal_attempts : list SubscriptionRenewalAttempt;
  dunning_schedules : list DunningSchedule;
  queue : list task
}.


Definition set_orders (v : list Order) (s : db) : db :=
  {| prices := prices s; orders := v; line_items := line_items s;
     payment_methods := payment_methods s; payment_intents := payment_intents s;
     payments := payments s; webhook_events := webhook_events s;
     ledger_entries := ledger_entries s; subscriptions := subscriptions s;
     renewal_attempts := renewal_attempts s;
     dunning_schedules := dunning_schedules s; queue := queue s |}.

Definition set_line_items (v : list LineItem) (s : db) : db :=
  {| prices := prices s; orders := orders s; line_items := v;
     payment_methods := payment_methods s; payment_intents := payment_intents s;
     payments := payments s; webhook_events := webhook_events s;
     ledger_entries := ledger_entries s; subscriptions := subscriptions s;
     renewal_attempts := renewal_attempts s;
     dunning_schedules := dunning_schedules s; queue := queue s |}.

Definition set_payment_intents (v : list PaymentIntent) (s : db) : db :=
  {| prices := prices s; orders := orders s; line_items := line_items s;
     payment_methods := payment_methods s; payment_intents := v;
     payments := payments s; webhook_events := webhook_events s;
     ledger_entries := ledger_entries s; subscriptions := subscriptions s;
     renewal_attempts := renewal_attempts s;
     dunning_schedules := dunning_schedules s; queue := queue s |}.

Definition set_payments (v : list Payment) (s : db) : db :=
  {| prices := prices s; orders := orders s; line_items := line_items s;
     payment_methods := payment_methods s; payment_intents := payment_intents s;
     payments := v; webhook_events := webhook_events s;
     ledger_entries := ledger_entries s; subscriptions := subscriptions s;
     renewal_attempts := renewal_attempts s;
     dunning_schedules := dunning_schedules s; queue := queue s |}.

Definition set_webhook_events (v : list WebhookEvent) (s : db) : db :=
  {| prices := prices s; orders := orders s; line_items := line_items s;
     payment_methods := payment_methods s; payment_intents := payment_intents s;
     payments := payments s; webhook_events := v;
     ledger_entries := ledger_entries s; subscriptions := subscriptions s;
     renewal_attempts := renewal_attempts s;
     dunning_schedules := dunning_schedules s; queue := queue s |}.

Definition set_ledger_entries (v : list LedgerEntry) (s : db) : db :=
  {| prices := prices s; orders := orders s; line_items := line_items s;
     payment_methods := payment_methods s; payment_intents := payment_intents s;
     payments := payments s; webhook_events := webhook_events s;
     ledger_entries := v; subscriptions := subscriptions s;
     renewal_attempts := renewal_attempts s;
     dunning_schedules := dunning_schedules s; queue := queue s |}.

Definition set_subscriptions (v : list Subscription) (s : db) : db :=
  {| prices := prices s; orders := orders s; line_items := line_items s;
     payment_methods := payment_methods s; payment_intents := payment_intents s;
     payments := payments s; webhook_events := webhook_events s;
     ledger_entries := ledger_entries s; subscriptions := v;
     renewal_attempts := renewal_attempts s;
     dunning_schedules := dunning_schedules s; queue := queue s |}.

Definition set_renewal_attempts (v : list SubscriptionRenewalAttempt) (s : db) : db :=
  {| prices := prices s; orders := orders s; line_items := line_items s;
     payment_methods := payment_methods s; payment_intents := payment_intents s;
     payments := payments s; webhook_events := webhook_events s;
     ledger_entries := ledger_entries s; subscriptions := subscriptions s;
     renewal_attempts := v;
     dunning_schedules := dunning_schedules s; queue := queue s |}.

Definition set_queue (v : list task) (s : db) : db :=
  {| prices := prices s; orders := orders s; line_items := line_items s;
     payment_methods := payment_methods s; payment_intents := payment_intents s;
     payments := payments s; webhook_events := webhook_events s;
     ledger_entries := ledger_entries s; subscriptions := subscriptions s;
     renewal_attempts := renewal_attempts s;
     dunning_schedules := dunning_schedules s; queue := v |}.

(** ** Database tasks: state that survives a raised exception *)

Definition M (A : Type) : Type := db -> Exc A * db.

Definition ret {A : Type} (a : A) : M A := fun s => (Ok a, s).

Definition raise {A : Type} (e : exn) : M A := fun s => (Raise e, s).

Definition bindM {A B : Type} (m : M A) (k : A -> M B) : M B :=
  fun s =>
    match m s with
    | (Ok a, s') => k a s'
    | (Raise e, s') => (Raise e, s')
    end.

Notation "'let!' x ':=' m 'in' k" := (bindM m (fun x => k))
  (at level 10, x name, m at level 100, k at level 200).

Definition gets {A : Type} (f : db -> A) : M A := fun s => (Ok (f s), s).

Definition modify (f : db -> db) : M unit := fun s => (Ok tt, f s).

Definition lift {A : Type} (e : Exc A) : M A := fun s => (e, s).

(** [try: body  except Exception as e: handler(e)]: the writes the body made
    before it raised stay (autocommit, no transaction). *)
Definition try_exceptM {A : Type} (body : M A) (handler : exn -> M A) : M A :=
  fun s =>
    match body s with
    | (Ok a, s') => (Ok a, s')
    | (Raise e, s') => if is_Exception e then handler e s' else (Raise e, s')
    end.

(** [task.delay(...)]: the message goes to the back of the queue. *)
Definition delay (t : task) : M unit :=
  modify (fun s => set_queue (queue s ++ [t])%list s).

(** [status in [a, b]] *)
Definition status_in (status : string) (l : list string) : bool :=
  existsb (String.eqb status) l.

(** ** Row access shared by the tasks *)

(** [Model.objects.get(id=...)] *)
Definition get_attempt (id : nat) : M SubscriptionRenewalAttempt :=
  fun s =>
    match List.find (fun a => Nat.eqb (ra_id a) id) (renewal_attempts s) with
    | Some a => (Ok a, s)
    | None => (Raise (DoesNotExist
        "SubscriptionRenewalAttempt matching query does not exist."), s)
    end.

Definition get_subscription (id : nat) : M Subscription :=
  fun s =>
    match List.find (fun a => Nat.eqb (sub_id a) id) (subscriptions s) with
    | Some a => (Ok a, s)
    | None => (Raise (DoesNotExist "Subscription matching query does not exist."), s)
    end.

Definition get_order (id : nat) : M Order :=
  fun s =>
    match List.find (fun a => Nat.eqb (order_id a) id) (orders s) with
    | Some a => (Ok a, s)
    | None => (Raise (DoesNotExist "Order matching query does not exist."), s)
    end.

Definition get_price (id : nat) : M Price :=
  fun s =>
    match List.find (fun a => Nat.eqb (price_id a) id) (prices s) with
    | Some a => (Ok a, s)
    | None => (Raise (DoesNotExist "Price matching query does not exist."), s)
    end.

(** A nullable foreign key: [None] when the column is null. *)
Definition get_order_opt (id : option nat) : M (option Order) :=
  match id with
  | None => ret None
  | Some i => let! o := get_order i in ret (Some o)
  end.

(** [obj.save()] writes the in-memory object over the row with its key. *)
Definition save_attempt (a : SubscriptionRenewalAttempt) : M unit :=
  modify (fun s => set_renewal_attempts
    (map (fun r => if Nat.eqb (ra_id r) (ra_id a) then a else r) (renewal_attempts s)) s).

Definition save_subscription (a : Subscription) : M unit :=
  modify (fun s => set_subscriptions
    (map (fun r => if Nat.eqb (sub_id r) (sub_id a) then a else r) (subscriptions s)) s).

Definition save_intent (a : PaymentIntent) : M unit :=
  modify (fun s => set_payment_intents
    (map (fun r => if Nat.eqb (pi_id r) (pi_id a) then a else r) (payment_intents s)) s).

(** Attribute assignments on in-memory objects. *)
Definition attempt_with (status : string) (error_message : string)
    (payment_intent : option nat) (a : SubscriptionRenewalAttempt)
  : SubscriptionRenewalAttempt :=
  {| ra_id := ra_id a; ra_subscription := ra_subscription a;
     ra_attempt_number := ra_attempt_number a; ra_status := status;
     ra_payment_intent := payment_intent; ra_order := ra_order a;
     ra_error_message := error_message; ra_scheduled_at := ra_scheduled_at a;
     ra_created_at := ra_created_at a |}.

Definition subscription_with (status : string) (ended_at : option datetime)
    (a : Subscription) : Subscription :=
  {| sub_id := sub_id a; sub_user := sub_user a; sub_product := sub_product a;
     sub_price := sub_price a; sub_status := status;
     sub_current_period_start := sub_current_period_start a;
     sub_current_period_end := sub_current_period_end a;
     sub_grace_until := sub_grace_until a; sub_ended_at := ended_at |}.

Definition intent_with (status error_message provider_transaction_id
    checkout_request_id merchant_request_id : string) (a : PaymentIntent)
  : PaymentIntent :=
  {| pi_id := pi_id a; pi_order := pi_order a; pi_user := pi_user a;
     pi_amount := pi_amount a; pi_currency := pi_currency a;
     pi_provider := pi_provider a; pi_payment_method := pi_payment_method a;
     pi_status := status; pi_next_action := pi_next_action a;
     pi_idempotency_key := pi_idempotency_key a;
     pi_provider_transaction_id := provider_transaction_id;
     pi_checkout_request_id := checkout_request_id;
     pi_merchant_request_id := merchant_request_id;
     pi_error_message := error_message; pi_expires_at := pi_expires_at a |}.

(** ** payments/tasks.py *)

(** [PaymentIntent.objects.create(...)]: the column [idempotency_key] is
    declared unique, so the insert of a used key raises IntegrityError. The
    new row's key is the next free index. *)
Definition PaymentIntent_create (new : nat -> PaymentIntent) : M PaymentIntent :=
  fun s =>
    let p := new (List.length (payment_intents s)) in
    if existsb (fun q => String.eqb (pi_idempotency_key q) (pi_idempotency_key p))
         (payment_intents s)
    then (Raise (IntegrityError
           "UNIQUE constraint failed: payments_paymentintent.idempotency_key"), s)
    else (Ok p, set_payment_intents (p :: payment_intents s) s).

(** What the outbound provider call of one run does: it raises (the
    adapters raise a failed request again as a plain Exception), or returns
    the JSON body of the provider's response, whatever it is. [str] is
    Python's [str] on the values of that response. *)
Inductive provider_outcome : Type :=
| provider_raises (msg : string)
| provider_returns (response : json) (str : json -> string).

Definition call_provider (o : provider_outcome) : M (json * (json -> string)) :=
  match o with
  | provider_raises msg => raise (GenericException msg)
  | provider_returns response str => ret (response, str)
  end.

(** What [save()] writes to a text column declared without [null=True] for
    the value held by the field: a str as it is, any other value but None
    as its [str] (CharField.to_python); the database refuses None. Text
    columns hold any string: the length limits of the columns are not part
    of the embedding. *)
Definition CharField (column : string) (str : json -> string) (value : json)
  : Exc string :=
  match value with
  | JNull => Raise (IntegrityError
               ("null value in column " +:+ column
                  +:+ " violates not-null constraint"))
  | JStr text => Ok text
  | _ => Ok (str value)
  end.

(** [f'sub_{subscription.id}_{attempt.attempt_number}_{uuid.uuid4().hex[:8]}'] *)
Definition idempotency_key_of (subscription_id attempt_number : nat)
    (uuid_hex8 : string) : string :=
  "sub_" +:+ pretty subscription_id +:+ "_" +:+ pretty attempt_number
    +:+ "_" +:+ uuid_hex8.

(** The [if]/[elif] on the method type at the end of the [try] block of
    initiate_subscription_payment: the provider call, the references read
    from its response with [.get], and [payment_intent.save()]. *)
Definition initiate_with_provider (method_type : string)
    (provider : provider_outcome) (payment_intent : PaymentIntent) : M unit :=
  if String.eqb method_type "mpesa" then
    let! response := call_provider provider in
    let! checkout_request_id :=
      lift (py_get (fst response) "CheckoutRequestID" JNull) in
    let! merchant_request_id :=
      lift (py_get (fst response) "MerchantRequestID" JNull) in
    let! checkout_request_id :=
      lift (CharField "checkout_request_id" (snd response) checkout_request_id) in
    let! merchant_request_id :=
      lift (CharField "merchant_request_id" (snd response) merchant_request_id) in
    save_intent (intent_with "requires_action"
      (pi_error_message payment_intent)
      (pi_provider_transaction_id payment_intent)
      checkout_request_id merchant_request_id payment_intent)
  else if String.eqb method_type "airtel" then
    let! response := call_provider provider in
    let! data := lift (py_get (fst response) "data" (JObj [])) in
    let! provider_transaction_id := lift (py_get data "id" (JStr "")) in
    let! provider_transaction_id :=
      lift (CharField "provider_transaction_id" (snd response)
              provider_transaction_id) in
    save_intent (intent_with "requires_action"
      (pi_error_message payment_intent)
      provider_transaction_id
      (pi_checkout_request_id payment_intent)
      (pi_merchant_request_id payment_intent) payment_intent)
  else ret tt.

(** The [try] block of initiate_subscription_payment. [uuid_hex8] is the
    random suffix drawn by this run, [provider] what its provider call does. *)
Definition initiate_subscription_payment_body (renewal_attempt_id : nat)
    (now : datetime) (uuid_hex8 : string) (provider : provider_outcome) : M unit :=
  let! attempt := get_attempt renewal_attempt_id in
  let! subscription := get_subscription (ra_subscription attempt) in
  let! order := get_order_opt (ra_order attempt) in
  let! payment_method := gets (fun s => head (List.filter
      (fun m => Nat.eqb (pm_user m) (sub_user subscription)
                && pm_is_default m && pm_is_active m) (payment_methods s))) in
  match payment_method with
  | None =>
      let attempt := attempt_with "failed" "No default payment method"
                       (ra_payment_intent attempt) attempt in
      let! _ := save_attempt attempt in
      let subscription := subscription_with "past_due" (sub_ended_at subscription)
                            subscription in
      save_subscription subscription
  | Some payment_method =>
      let idempotency_key :=
        idempotency_key_of (sub_id subscription) (ra_attempt_number attempt)
          uuid_hex8 in
      let! order := lift (match order with
        | Some o => Ok o
        | None => Raise (AttributeError
                    "'NoneType' object has no attribute 'total'")
        end) in
      let method_type := pm_method_type payment_method in
      let! payment_intent := PaymentIntent_create (fun id =>
        {| pi_id := id; pi_order := order_id order;
           pi_user := sub_user subscription; pi_amount := order_total order;
           pi_currency := "KES";
           pi_provider := if status_in method_type ["mpesa"; "airtel"]
                          then method_type else "mpesa";
           pi_payment_method := Some (pm_id payment_method);
           pi_status := "created";
           pi_next_action := if String.eqb method_type "mpesa"
                             then "stk_push" else "collect";
           pi_idempotency_key := idempotency_key;
           pi_provider_transaction_id := "";
           pi_checkout_request_id := "";
           pi_merchant_request_id := "";
           pi_error_message := "";
           pi_expires_at := now + 1 * hour |}) in
      let attempt := attempt_with "processing" (ra_error_message attempt)
                       (Some (pi_id payment_intent)) attempt in
      let! _ := save_attempt attempt in
      initiate_with_provider method_type provider payment_intent
  end.

(** The [except Exception as e] block: mark the attempt failed (ignoring any
    failure to do so), then re-raise. *)
Definition initiate_subscription_payment_handler (renewal_attempt_id : nat)
    (e : exn) : M unit :=
  fun s =>
    let s' :=
      match get_attempt renewal_attempt_id s with
      | (Ok attempt, s1) =>
          snd (save_attempt (attempt_with "failed" (exn_str e)
                               (ra_payment_intent attempt) attempt) s1)
      | (Raise _, s1) => s1
      end in
    (Raise e, s').

Definition initiate_subscription_payment (renewal_attempt_id : nat)
    (now : datetime) (uuid_hex8 : string) (provider : provider_outcome) : M unit :=
  try_exceptM
    (initiate_subscription_payment_body renewal_attempt_id now uuid_hex8 provider)
    (initiate_subscription_payment_handler renewal_attempt_id).

(** A reconciliation finding. *)
Record mismatch : Type := {
  mm_payment_id : nat;
  mm_order_id : option nat;
  mm_issue : string
}.

Record reconcile_result : Type := {
  total_payments : nat;
  mismatches : nat
}.

Definition start_of_yesterday (now : datetime) : datetime :=
  ((now - 1 * day) / day) * day.

Definition end_of_yesterday (now : datetime) : datetime :=
  start_of_yesterday now + 23 * hour + 59 * 60000000 + 59 * 1000000 + 999999.

Definition payments_of_yesterday (now : datetime) (s : db) : list Payment :=
  List.filter (fun p => Z.leb (start_of_yesterday now) (pay_created_at p)
                   && Z.leb (pay_created_at p) (end_of_yesterday now))
    (payments s).

(** [WebhookEvent.objects.filter(payment=payment, status='processed').exists()] *)
Definition has_processed_webhook (payment : Payment) (s : db) : bool :=
  existsb (fun w => bool_decide (we_payment w = Some (pay_id payment))
                    && String.eqb (we_status w) "processed") (webhook_events s).

(** One iteration of the loop over yesterday's payments. *)
Definition reconcile_payment (payment : Payment) (found : list mismatch)
  : M (list mismatch) :=
  let! order := get_order (pay_order payment) in
  let found :=
    if negb (String.eqb (order_status order) "paid") then
      (found ++ [ {| mm_payment_id := pay_id payment;
                     mm_order_id := Some (order_id order);
                     mm_issue := "Order not marked as paid" |} ])%list
    else found in
  let! webhook_exists := gets (has_processed_webhook payment) in
  if negb webhook_exists then
    ret (found ++ [ {| mm_payment_id := pay_id payment;
                       mm_order_id := None;
                       mm_issue := "No processed webhook event" |} ])%list
  else ret found.

Fixpoint reconcile_payments (ps : list Payment) (found : list mismatch)
  : M (list mismatch) :=
  match ps with
  | [] => ret found
  | payment :: rest =>
      let! found := reconcile_payment payment found in
      reconcile_payments rest found
  end.

Definition reconcile_daily_payments (now : datetime) : M reconcile_result :=
  let! ps := gets (payments_of_yesterday now) in
  let! found := reconcile_payments ps [] in
  let! _ :=
    if negb (Nat.eqb (List.length found) 0) then
      delay (send_admin_alert_msg "Payment Reconciliation Alert"
        ("Found " +:+ pretty (List.length found)
           +:+ " payment mismatches during reconciliation"))
    else ret tt in
  let! count := gets (fun s => List.length (payments_of_yesterday now s)) in
  ret {| total_payments := count; mismatches := List.length found |}.

(** The filter of cleanup_expired_intents. *)
Definition is_expired (now : datetime) (p : PaymentIntent) : bool :=
  status_in (pi_status p) ["created"; "requires_action"]
  && Z.ltb (pi_expires_at p) now.

(** [expired_intents.update(status='cancelled', error_message=...)] *)
Definition cancel_expired (p : PaymentIntent) : PaymentIntent :=
  intent_with "cancelled" "Payment intent expired"
    (pi_provider_transaction_id p) (pi_checkout_request_id p)
    (pi_merchant_request_id p) p.

(** Returns the value under the key ['cleaned']. *)
Definition cleanup_expired_intents (now : datetime) : M nat :=
  let! count := gets (fun s =>
    List.length (List.filter (is_expired now) (payment_intents s))) in
  let! _ := modify (fun s => set_payment_intents
    (map (fun p => if is_expired now p then cancel_expired p else p)
       (payment_intents s)) s) in
  ret count.

(** ** subscriptions/tasks.py *)

(** The names bound when the body of process_subscription_renewals runs:
    the module's imports and definitions, and the function's own imports
    and variables. Loading any other name raises NameError. *)
Definition module_names : list string :=
  ["shared_task"; "timezone"; "timedelta"; "logging"; "logger";
   "process_subscription_renewals"; "process_dunning_schedule"].

Definition process_subscription_renewals_names : list string :=
  ["self"; "Subscription"; "SubscriptionRenewalAttempt"; "Order";
   "PaymentIntent"; "now"; "subscriptions_due"; "renewed_count";
   "failed_count"; "subscription"; "existing_attempt"; "order"; "LineItem";
   "attempt"; "initiate_subscription_payment"; "e"].

Definition load_name (name : string) (bound : list string) : Exc unit :=
  if existsb (String.eqb name) bound then Ok tt
  else Raise (NameError ("name '" +:+ name +:+ "' is not defined")).

Definition Order_create (new : nat -> Order) : M Order :=
  fun s =>
    let o := new (List.length (orders s)) in
    (Ok o, set_orders (o :: orders s) s).

Definition LineItem_create (li : LineItem) : M unit :=
  modify (fun s => set_line_items (li :: line_items s) s).

Definition SubscriptionRenewalAttempt_create
    (new : nat -> SubscriptionRenewalAttempt) : M SubscriptionRenewalAttempt :=
  fun s =>
    let a := new (List.length (renewal_attempts s)) in
    (Ok a, set_renewal_attempts (a :: renewal_attempts s) s).

(** [subscription.renewal_attempts.count()] *)
Definition renewal_attempts_count (subscription_id : nat) (s : db) : nat :=
  List.length (List.filter (fun a => Nat.eqb (ra_subscription a) subscription_id)
                 (renewal_attempts s)).

(** The renewal attempt that makes the sweep skip a subscription. *)
Definition in_flight_for (subscription : Subscription)
    (a : SubscriptionRenewalAttempt) : bool :=
  Nat.eqb (ra_subscription a) (sub_id subscription)
  && Z.leb (sub_current_period_end subscription - 1 * hour) (ra_scheduled_at a)
  && status_in (ra_status a) ["pending"; "processing"].

(** The body of the loop of process_subscription_renewals, inside its
    [try]. The result is [false] on [continue] and [true] when the body
    reaches [renewed_count += 1]. *)
Definition renew_subscription (now : datetime) (subscription : Subscription)
  : M bool :=
  let! existing_attempt := gets (fun s =>
    head (List.filter (in_flight_for subscription) (renewal_attempts s))) in
  match existing_attempt with
  | Some _ => ret false
  | None =>
      let! price := get_price (sub_price subscription) in
      let! _ := lift (load_name "Decimal"
                        (module_names ++ process_subscription_renewals_names)%list) in
      let! order := Order_create (fun id =>
        {| order_id := id; order_user := sub_user subscription;
           order_status := "pending"; order_subtotal := price_amount price;
           order_tax_amount := 0; order_total := price_amount price |}) in
      let! _ := LineItem_create
        {| li_order := order_id order; li_product := sub_product subscription;
           li_price := sub_price subscription; li_quantity := 1;
           li_unit_price := price_amount price;
           li_total_price := price_amount price |} in
      let! count := gets (renewal_attempts_count (sub_id subscription)) in
      let! attempt := SubscriptionRenewalAttempt_create (fun id =>
        {| ra_id := id; ra_subscription := sub_id subscription;
           ra_attempt_number := count + 1; ra_status := "pending";
           ra_payment_intent := None; ra_order := Some (order_id order);
           ra_error_message := ""; ra_scheduled_at := now;
           ra_created_at := now |}) in
      let! _ := delay (initiate_subscription_payment_msg (ra_id attempt)) in
      ret true
  end.

Record renewal_result : Type := {
  renewed : nat;
  failed : nat
}.

Fixpoint renewal_loop (now : datetime) (due : list Subscription)
    (renewed_count failed_count : nat) : M renewal_result :=
  match due with
  | [] => ret {| renewed := renewed_count; failed := failed_count |}
  | subscription :: rest =>
      let! outcome := try_exceptM
        (let! r := renew_subscription now subscription in ret (Some r))
        (fun _ => ret None) in
      match outcome with
      | Some true => renewal_loop now rest (S renewed_count) failed_count
      | Some false => renewal_loop now rest renewed_count failed_count
      | None => renewal_loop now rest renewed_count (S failed_count)
      end
  end.

(** The subscriptions the renewal sweep selects. *)
Definition is_due (now : datetime) (subscription : Subscription) : bool :=
  String.eqb (sub_status subscription) "active"
  && Z.leb (sub_current_period_end subscription) now.

Definition process_subscription_renewals (now : datetime) : M renewal_result :=
  let! subscriptions_due := gets (fun s => List.filter (is_due now) (subscriptions s)) in
  renewal_loop now subscriptions_due 0 0.

(** [DunningSchedule.get_retry_days] *)
Definition get_retry_days (d : DunningSchedule) : list Z :=
  match ds_retry_schedule d with
  | Some l => l
  | None => [0; 1; 3; 7]
  end.

(** [order_by('-created_at').first()]; of rows created at the same time
    the one listed first (the newer) is taken. *)
Fixpoint latest_created (l : list SubscriptionRenewalAttempt)
  : option SubscriptionRenewalAttempt :=
  match l with
  | [] => None
  | a :: rest =>
      match latest_created rest with
      | None => Some a
      | Some b => if Z.leb (ra_created_at b) (ra_created_at a) then Some a else Some b
      end
  end.

Definition latest_failed_attempt (subscription_id : nat) (s : db)
  : option SubscriptionRenewalAttempt :=
  latest_created (List.filter
    (fun a => Nat.eqb (ra_subscription a) subscription_id
              && String.eqb (ra_status a) "failed") (renewal_attempts s)).

(** The [for retry_day in retry_days] loop. *)
Definition should_retry (days_since_failure : Z) (retry_days : list Z) : bool :=
  existsb (fun retry_day => Z.eqb days_since_failure retry_day) retry_days.

(** The grace-period block at the end of the dunning loop body. *)
Definition apply_grace_expiry (dunning_schedule : DunningSchedule)
    (now : datetime) (subscription : Subscription) : M unit :=
  match sub_grace_until subscription with
  | Some grace_until =>
      if Z.ltb grace_until now then
        let subscription :=
          if ds_cancel_subscription dunning_schedule then
            subscription_with "cancelled" (Some now) subscription
          else if ds_downgrade_to_free dunning_schedule then
            subscription_with "unpaid" (sub_ended_at subscription) subscription
          else subscription in
        save_subscription subscription
      else ret tt
  | None => ret tt
  end.

(** The body of the loop of process_dunning_schedule, inside its [try].
    The result tells whether a retry was initiated. *)
Definition dun_subscription (dunning_schedule : DunningSchedule)
    (retry_days : list Z) (now : datetime) (subscription : Subscription)
  : M bool :=
  let! latest_attempt := gets (latest_failed_attempt (sub_id subscription)) in
  match latest_attempt with
  | None => ret false
  | Some latest_attempt =>
      let days_since_failure := days (now - ra_created_at latest_attempt) in
      let! retried :=
        if should_retry days_since_failure retry_days then
          let! count := gets (renewal_attempts_count (sub_id subscription)) in
          let! attempt := SubscriptionRenewalAttempt_create (fun id =>
            {| ra_id := id; ra_subscription := sub_id subscription;
               ra_attempt_number := count + 1; ra_status := "pending";
               ra_payment_intent := None; ra_order := ra_order latest_attempt;
               ra_error_message := ""; ra_scheduled_at := now;
               ra_created_at := now |}) in
          let! _ := delay (initiate_subscription_payment_msg (ra_id attempt)) in
          let! _ := delay (send_dunning_notification_msg (sub_id subscription)
                             (ra_attempt_number attempt)) in
          ret true
        else ret false in
      let! _ := apply_grace_expiry dunning_schedule now subscription in
      ret retried
  end.

Fixpoint dunning_loop (dunning_schedule : DunningSchedule) (retry_days : list Z)
    (now : datetime) (past_due : list Subscription) (processed_count : nat)
  : M nat :=
  match past_due with
  | [] => ret processed_count
  | subscription :: rest =>
      let! retried := try_exceptM
        (dun_subscription dunning_schedule retry_days now subscription)
        (fun _ => ret false) in
      dunning_loop dunning_schedule retry_days now rest
        (if retried then S processed_count else processed_count)
  end.

(** Returns the value under the key ['processed']. *)
Definition process_dunning_schedule (now : datetime) : M nat :=
  let! dunning_schedule := gets (fun s =>
    head (List.filter (fun d => ds_is_active d && ds_is_default d)
            (dunning_schedules s))) in
  match dunning_schedule with
  | None => ret 0%nat
  | Some dunning_schedule =>
      let retry_days := get_retry_days dunning_schedule in
      let! past_due_subscriptions := gets (fun s =>
        List.filter (fun a => String.eqb (sub_status a) "past_due") (subscriptions s)) in
      dunning_loop dunning_schedule retry_days now past_due_subscriptions 0
  end.

(** ** Components the repository declares but does not implement

    The models declare the ledger and the webhook event store; the code that
    posts to the ledger and that processes webhooks is not in the repository
    (lms_config/urls.py leaves the webhook endpoints to be created). *)

Module LedgerRecorder.

(** The LedgerEntry record of the external interface, before it is linked
    to a payment or a refund. *)
Record entry : Type := {
  entry_type : string;
  account_type : string;
  amount : Z;
  currency : string;
  description : string
}.

Inductive target : Type :=
| of_payment (payment_id : nat)
| of_refund (refund_id : nat).

Definition total (kind : string) (entries : list entry) : Z :=
  fold_right Z.add 0
    (map amount (List.filter (fun e => String.eqb (entry_type e) kind) entries)).

Definition row_of (t : target) (e : entry) : LedgerEntry :=
  {| le_payment := match t with of_payment p => Some p | of_refund _ => None end;
     le_order := None;
     le_refund := match t with of_refund r => Some r | of_payment _ => None end;
     le_entry_type := entry_type e; le_account_type := account_type e;
     le_amount := amount e; le_currency := currency e;
     le_description := description e |}.

(** Modelled from the spec: LedgerRecorder.Post, which the repository does
    not implement. "Post(payment|refund, entries[]): validates
    sum(debit) = sum(credit) before persisting; entries are appended, never
    updated." An unbalanced batch is rejected with nothing persisted. *)
Definition Post (t : target) (entries : list entry) : M unit :=
  if Z.eqb (total "debit" entries) (total "credit" entries) then
    modify (fun s => set_ledger_entries
      (map (row_of t) entries ++ ledger_entries s)%list s)
  else raise (GenericException "ledger entries do not balance").

End LedgerRecorder.

Module WebhookProcessor.

(** The canonical result of ParseCallback (external interface). *)
Record canonical : Type := {
  success : bool;
  resultCode : Z;
  externalTransactionId : string;
  receiptNumber : string;
  amount : Z;
  currency : string;
  phoneNumber : string;
  correlationReference : string
}.

(** One delivery of a provider notification. *)
Record delivery : Type := {
  provider : string;
  provider_event_id : string;
  event_type : string;
  payload : canonical
}.

Definition event_exists (event_id : string) (s : db) : bool :=
  existsb (fun w => String.eqb (we_provider_event_id w) event_id) (webhook_events s).

(** Modelled from the spec: step (1) of the WebhookProcessor, the atomic
    insert-if-absent of [provider_event_id] into the event store (the column
    is declared unique in payments/models.py). [None] when the id is already
    stored, else the new event, stored with status pending. *)
Definition insert_if_absent (d : delivery) : M (option WebhookEvent) :=
  fun s =>
    if event_exists (provider_event_id d) s then (Ok None, s)
    else
      let w := {| we_id := List.length (webhook_events s);
                  we_provider := provider d;
                  we_provider_event_id := provider_event_id d;
                  we_event_type := event_type d; we_status := "pending";
                  we_error_message := ""; we_payment_intent := None;
                  we_payment := None |} in
      (Ok (Some w), set_webhook_events (w :: webhook_events s) s).

Definition save_event (w : WebhookEvent) : M unit :=
  modify (fun s => set_webhook_events
    (map (fun r => if Nat.eqb (we_id r) (we_id w) then w else r) (webhook_events s)) s).

Definition event_with (status error_message : string)
    (payment_intent payment : option nat) (w : WebhookEvent) : WebhookEvent :=
  {| we_id := we_id w; we_provider := we_provider w;
     we_provider_event_id := we_provider_event_id w;
     we_event_type := we_event_type w; we_status := status;
     we_error_message := error_message; we_payment_intent := payment_intent;
     we_payment := payment |}.

(** Step (3): the intent one of whose provider references is the
    correlation reference. *)
Definition resolve_intent (ref : string) (s : db) : option PaymentIntent :=
  head (List.filter (fun p => String.eqb (pi_checkout_request_id p) ref
                         || String.eqb (pi_merchant_request_id p) ref
                         || String.eqb (pi_provider_transaction_id p) ref)
          (payment_intents s)).

Definition Payment_create (new : nat -> Payment) : M Payment :=
  fun s =>
    let p := new (List.length (payments s)) in
    (Ok p, set_payments (p :: payments s) s).

Section Processor.

(** The ledger entries the processor posts for a settled payment; the spec
    leaves them to the caller of the LedgerRecorder. *)
Variable entries_for : Payment -> list LedgerRecorder.entry.

(** Modelled from the spec: steps (2) to (6) of the WebhookProcessor, the
    settlement of a newly stored event, which the repository does not
    implement. Unresolved reference: event failed. Amount different from the
    intent's: intent failed with ValidationMismatch, event failed, no
    Payment. Success: intent succeeded, Payment created, LedgerRecorder
    invoked, event processed. Decline: intent failed, event processed. The
    result is the event's final status. *)
Definition settle (now : datetime) (w : WebhookEvent) (c : canonical) : M string :=
  let! intent := gets (resolve_intent (correlationReference c)) in
  match intent with
  | None =>
      let! _ := save_event (event_with "failed" "UnresolvedReference" None None w) in
      ret "failed"
  | Some intent =>
      if negb (Z.eqb (amount c) (pi_amount intent)) then
        let! _ := save_intent (intent_with "failed" "ValidationMismatch"
          (pi_provider_transaction_id intent) (pi_checkout_request_id intent)
          (pi_merchant_request_id intent) intent) in
        let! _ := save_event (event_with "failed" "ValidationMismatch"
          (Some (pi_id intent)) None w) in
        ret "failed"
      else if success c then
        let! _ := save_intent (intent_with "succeeded" (pi_error_message intent)
          (pi_provider_transaction_id intent) (pi_checkout_request_id intent)
          (pi_merchant_request_id intent) intent) in
        let! payment := Payment_create (fun id =>
          {| pay_id := id; pay_payment_intent := pi_id intent;
             pay_order := pi_order intent; pay_user := pi_user intent;
             pay_amount := amount c; pay_provider := pi_provider intent;
             pay_provider_transaction_id := externalTransactionId c;
             pay_created_at := now |}) in
        let! _ := LedgerRecorder.Post (LedgerRecorder.of_payment (pay_id payment))
                    (entries_for payment) in
        let! _ := save_event (event_with "processed" ""
          (Some (pi_id intent)) (Some (pay_id payment)) w) in
        ret "processed"
      else
        let! _ := save_intent (intent_with "failed" "ProviderRejected"
          (pi_provider_transaction_id intent) (pi_checkout_request_id intent)
          (pi_merchant_request_id intent) intent) in
        let! _ := save_event (event_with "processed" ""
          (Some (pi_id intent)) None w) in
        ret "processed"
  end.

(** Modelled from the spec: the WebhookProcessor's handling of one inbound
    delivery. A delivery whose [provider_event_id] is already stored is
    marked ignored and answered with success, without settlement. *)
Definition process_webhook (now : datetime) (d : delivery) : M string :=
  let! inserted := insert_if_absent d in
  match inserted with
  | None => ret "ignored"
  | Some w => settle now w (payload d)
  end.

(** A sequence of deliveries, each with the time it arrives at. The result
    lists, per delivery, its final status, or the exception it ended in. *)
Fixpoint deliver (ds : list (datetime * delivery)) (s : db)
  : list (Exc string) * db :=
  match ds with
  | [] => ([], s)
  | (now, d) :: rest =>
      let (r, s') := process_webhook now d s in
      let (rs, s'') := deliver rest s' in
      (r :: rs, s'')
  end.

End Processor.

End WebhookProcessor.

(** ** Repeated runs of the expiry sweep *)

(** The database after cleanup_expired_intents has run at each of the given
    times, in turn. *)
Fixpoint sweep_expired (times : list datetime) (s : db) : db :=
  match times with
  | [] => s
  | now :: rest => sweep_expired rest (snd (cleanup_expired_intents now s))
  end.

(** How many of these runs select, and so update, the intent at row [i]. *)
Fixpoint times_cancelled (i : nat) (times : list datetime) (s : db) : nat :=
  match times with
  | [] => 0%nat
  | now :: rest =>
      ((match payment_intents s !! i with
        | Some p => if is_expired now p then 1 else 0
        | None => 0
        end) + times_cancelled i rest (snd (cleanup_expired_intents now s)))%nat
  end.

(** The subscriptions of a batch for which the body goes past the check. *)
Definition without_in_flight (due : list Subscription) (s : db)
  : list Subscription :=
  List.filter (fun subscription => bool_decide
    (head (List.filter (in_flight_for subscription) (renewal_attempts s)) = None)) due.

(** ** The worker and the dunning scenario *)

(** A worker takes the queued messages in order. Each
    initiate_subscription_payment message runs the task, with the random
    suffix and the provider behaviour of that run; the notification
    messages touch no table of the engine. *)
Fixpoint run_messages (now : datetime) (uuid_hex8 : nat -> string)
    (provider : nat -> provider_outcome) (msgs : list task) (s : db) : db :=
  match msgs with
  | [] => s
  | initiate_subscription_payment_msg id :: rest =>
      run_messages now uuid_hex8 provider rest
        (snd (initiate_subscription_payment id now (uuid_hex8 id) (provider id) s))
  | _ :: rest => run_messages now uuid_hex8 provider rest s
  end.

Definition run_worker (now : datetime) (uuid_hex8 : nat -> string)
    (provider : nat -> provider_outcome) (s : db) : db :=
  run_messages now uuid_hex8 provider (queue s) (set_queue [] s).

Definition status_of (subscription_id : nat) (s : db) : string :=
  match List.find (fun a => Nat.eqb (sub_id a) subscription_id) (subscriptions s) with
  | Some a => sub_status a
  | None => ""
  end.

(** What one run of the dunning sweep did to the subscription watched: the
    day it ran on (whole days since [t0]), the retries it initiated, and
    whether it applied the terminal action (the subscription left past_due). *)
Record sweep_log : Type := {
  sl_day : Z;
  sl_retries : nat;
  sl_terminal : bool
}.

(** The dunning sweep at each of the given times; after each run the worker
    empties the queue. *)
Fixpoint dunning_sweeps (subscription_id : nat) (t0 : datetime)
    (times : list datetime) (uuid_hex8 : nat -> string)
    (provider : nat -> provider_outcome) (s : db) : list sweep_log * db :=
  match times with
  | [] => ([], s)
  | now :: rest =>
      let before := status_of subscription_id s in
      let (r, s1) := process_dunning_schedule now s in
      let after := status_of subscription_id s1 in
      let entry :=
        {| sl_day := days (now - t0);
           sl_retries := match r with Ok n => n | Raise _ => 0 end;
           sl_terminal := String.eqb before "past_due"
                          && negb (String.eqb after "past_due") |} in
      let (log, s2) := dunning_sweeps subscription_id t0 rest uuid_hex8 provider
                         (run_worker now uuid_hex8 provider s1) in
      (entry :: log, s2)
  end.

Definition retries_of (log : list sweep_log) : nat :=
  fold_right Nat.add 0%nat (map sl_retries log).

Definition retry_days_of (log : list sweep_log) : list Z :=
  map sl_day (List.filter (fun e => negb (Nat.eqb (sl_retries e) 0)) log).

Definition terminal_actions_of (log : list sweep_log) : nat :=
  List.length (List.filter sl_terminal log).

(** The schedule of the seed data: retries on days 0, 1, 3 and 7, seven
    days of grace, then downgrade. *)
Definition default_schedule : DunningSchedule :=
  {| ds_name := "Default"; ds_retry_schedule := Some [0; 1; 3; 7];
     ds_grace_period_days := 7; ds_cancel_subscription := false;
     ds_downgrade_to_free := true; ds_is_active := true;
     ds_is_default := true |}.

(** A subscription whose renewal failed at [t0]: it is past_due, its grace
    period ends seven days later, and its first attempt is failed. *)
Definition failed_renewal_db (t0 : datetime) (methods : list PaymentMethod) : db :=
  {| prices := [ {| price_id := 0; price_amount := 500000 |} ];
     orders := [ {| order_id := 0; order_user := 0; order_status := "pending";
                    order_subtotal := 500000; order_tax_amount := 0;
                    order_total := 500000 |} ];
     line_items := [];
     payment_methods := methods;
     payment_intents := []; payments := []; webhook_events := [];
     ledger_entries := [];
     subscriptions := [ {| sub_id := 0; sub_user := 0; sub_product := 0;
                           sub_price := 0; sub_status := "past_due";
                           sub_current_period_start := t0 - 30 * day;
                           sub_current_period_end := t0;
                           sub_grace_until := Some (t0 + 7 * day);
                           sub_ended_at := None |} ];
     renewal_attempts := [ {| ra_id := 0; ra_subscription := 0;
                              ra_attempt_number := 1; ra_status := "failed";
                              ra_payment_intent := None; ra_order := Some 0%nat;
                              ra_error_message := "";
                              ra_scheduled_at := t0; ra_created_at := t0 |} ];
     dunning_schedules := [ default_schedule ];
     queue := [] |}.

Definition mpesa_method : PaymentMethod :=
  {| pm_id := 0; pm_user := 0; pm_method_type := "mpesa";
     pm_phone_number := "254712345678"; pm_is_default := true;
     pm_is_active := true |}.

(** The sweep runs every six hours, from six hours after [t0] to the end
    of day 7. *)
Definition six_hourly (t0 : datetime) : list datetime :=
  map (fun j => t0 + j * (6 * hour)) (seqZ 1 31).

(** [order_by('created_at').first()], and the days since the first failure
    as the claim about the dunning sweep words them. *)
Fixpoint earliest_created (l : list SubscriptionRenewalAttempt)
  : option SubscriptionRenewalAttempt :=
  match l with
  | [] => None
  | a :: rest =>
      match earliest_created rest with
      | None => Some a
      | Some b => if Z.leb (ra_created_at a) (ra_created_at b) then Some a else Some b
      end
  end.

Definition days_since_first_failure (now : datetime) (subscription_id : nat)
    (s : db) : option Z :=
  option_map (fun a => days (now - ra_created_at a))
    (earliest_created (List.filter
       (fun a => Nat.eqb (ra_subscription a) subscription_id
                 && String.eqb (ra_status a) "failed") (renewal_attempts s))).

(** The same subscription one day later, once the retry of day 1 has
    failed too. *)
Definition two_failures_db (t0 : datetime) : db :=
  set_renewal_attempts
    ({| ra_id := 1; ra_subscription := 0; ra_attempt_number := 2;
        ra_status := "failed"; ra_payment_intent := None; ra_order := Some 0%nat;
        ra_error_message := "No default payment method";
        ra_scheduled_at := t0 + 1 * day; ra_created_at := t0 + 1 * day |}
     :: renewal_attempts (failed_renewal_db t0 []))
    (failed_renewal_db t0 []).

(** An active subscription whose period ended an hour ago, with nothing in
    flight. *)
Definition due_subscription_db (period_end : datetime) : db :=
  {| prices := [ {| price_id := 0; price_amount := 500000 |} ];
     orders := []; line_items := []; payment_methods := [ mpesa_method ];
     payment_intents := []; payments := []; webhook_events := [];
     ledger_entries := [];
     subscriptions := [ {| sub_id := 0; sub_user := 0; sub_product := 0;
                           sub_price := 0; sub_status := "active";
                           sub_current_period_start := period_end - 30 * day;
                           sub_current_period_end := period_end;
                           sub_grace_until := None; sub_ended_at := None |} ];
     renewal_attempts := [];
     dunning_schedules := [ default_schedule ];
     queue := [] |}.

(** ** Well-formed tables *)

(** The intents table as the code builds it: no two rows share an
    idempotency key (the unique column), and every key is an index handed
    out so far. *)
Definition wf_intents (s : db) : Prop :=
  NoDup (map pi_idempotency_key (payment_intents s))
  /\ Forall (fun p => (pi_id p < List.length (payment_intents s))%nat)
       (payment_intents s).

(** A renewal attempt waiting for its payment to be initiated. *)
Definition pending_attempt_db (now : datetime) : db :=
  {| prices := [ {| price_id := 0; price_amount := 500000 |} ];
     orders := [ {| order_id := 0; order_user := 0; order_status := "pending";
                    order_subtotal := 500000; order_tax_amount := 0;
                    order_total := 500000 |} ];
     line_items := []; payment_methods := [ mpesa_method ];
     payment_intents := []; payments := []; webhook_events := [];
     ledger_entries := [];
     subscriptions := [ {| sub_id := 0; sub_user := 0; sub_product := 0;
                           sub_price := 0; sub_status := "active";
                           sub_current_period_start := now - 30 * day;
                           sub_current_period_end := now;
                           sub_grace_until := None; sub_ended_at := None |} ];
     renewal_attempts := [ {| ra_id := 0; ra_subscription := 0;
                              ra_attempt_number := 1; ra_status := "pending";
                              ra_payment_intent := None; ra_order := Some 0%nat;
                              ra_error_message := "";
                              ra_scheduled_at := now; ra_created_at := now |} ];
     dunning_schedules := [ default_schedule ];
     queue := [ initiate_subscription_payment_msg 0 ] |}.

(** The events table as the processor builds it: every key is an index
    handed out so far. *)
Definition wf_events (s : db) : Prop :=
  Forall (fun w => (we_id w < List.length (webhook_events s))%nat)
    (webhook_events s).

(** ** Runs of the engine *)

(** A delivery is settled when it is answered with anything but the
    status ignored. *)
Definition settled (r : Exc string) : bool :=
  match r with
  | Ok status => negb (String.eqb status "ignored")
  | Raise _ => true
  end.

(** How many deliveries of the event [event_id] were settled, given the
    deliveries and their results. *)
Definition settlements_of (event_id : string)
    (ds : list (datetime * WebhookProcessor.delivery))
    (rs : list (Exc string)) : nat :=
  List.length (List.filter
    (fun dr => String.eqb (WebhookProcessor.provider_event_id (snd (fst dr))) event_id
               && settled (snd dr))
    (combine ds rs)).

(** The debit or credit total of the ledger rows of one payment. *)
Definition payment_total (kind : string) (payment_id : nat)
    (l : list LedgerEntry) : Z :=
  fold_right Z.add 0
    (map le_amount (List.filter
       (fun e => bool_decide (le_payment e = Some payment_id)
                 && String.eqb (le_entry_type e) kind) l)).

Definition balanced (l : list LedgerEntry) : Prop :=
  forall payment_id,
    payment_total "debit" payment_id l = payment_total "credit" payment_id l.




(** ** Footprints of database tasks *)

(** [moves proj R m]: whatever the state, running [m] takes the part [proj]
    of the database to one related to it by [R]; [keeps proj m]: it leaves
    that part as it was. *)
Definition moves {A B : Type} (proj : db -> B) (R : B -> B -> Prop) (m : M A)
  : Prop :=
  forall s, R (proj s) (proj (snd (m s))).

Definition keeps {A B : Type} (proj : db -> B) (m : M A) : Prop :=
  moves proj eq m.

(** The ledger grew by rows that balance for every payment. *)
Definition ledger_grows (l l' : list LedgerEntry) : Prop :=
  exists newer, l' = (newer ++ l)%list /\ balanced newer.

(** The rows with the key of [w] were saved, still as the event of [w]. *)
Definition event_saved (w : WebhookEvent) (l l' : list WebhookEvent) : Prop :=
  l' = l
  \/ exists w', we_id w' = we_id w
       /\ we_provider_event_id w' = we_provider_event_id w
       /\ l' = map (fun r => if Nat.eqb (we_id r) (we_id w') then w' else r) l.

(** A computation that raises nothing [except Exception] lets through. *)
Definition catchable {A : Type} (m : Exc A) : Prop :=
  forall e, m = Raise e -> is_Exception e = true.


(** ** Sample data *)

(** A conversion that accepts the integers only: [Decimal(str(n))] for an
    int [n]. It is enough to replay the repository's tests, whose amounts
    are ints. *)
Definition Decimal_str_ints (value : json) : option Decimal :=
  match value with
  | JInt z => Some (Decimal_of_int z)
  | _ => None
  end.

(** The callback of test_mpesa.py, test_parse_callback_success. *)
Definition mpesa_success_callback : json :=
  JObj [("Body", JObj [("stkCallback", JObj
    [("MerchantRequestID", JStr "test-merchant-123");
     ("CheckoutRequestID", JStr "test-checkout-456");
     ("ResultCode", JInt 0);
     ("ResultDesc", JStr "Success");
     ("CallbackMetadata", JObj [("Item", JArr
        [JObj [("Name", JStr "Amount"); ("Value", JInt 1000)];
         JObj [("Name", JStr "MpesaReceiptNumber"); ("Value", JStr "ABC123")];
         JObj [("Name", JStr "TransactionDate"); ("Value", JInt 20231215100000)];
         JObj [("Name", JStr "PhoneNumber"); ("Value", JInt 254712345678)]])])])])].

(** The callback of test_mpesa.py, test_parse_callback_failure. *)
Definition mpesa_failure_callback : json :=
  JObj [("Body", JObj [("stkCallback", JObj
    [("MerchantRequestID", JStr "test-merchant-123");
     ("CheckoutRequestID", JStr "test-checkout-456");
     ("ResultCode", JInt 1032);
     ("ResultDesc", JStr "Request cancelled by user")])])].

(** The callbacks of test_airtel.py. *)
Definition airtel_success_callback : json :=
  JObj [("transaction", JObj
          [("id", JStr "test-transaction-id");
           ("airtel_money_id", JStr "AM123456789");
           ("status", JStr "TS");
           ("amount", JInt 1000);
           ("currency", JStr "KES")]);
        ("subscriber", JObj
          [("msisdn", JStr "0712345678"); ("country", JStr "KE")])].

Definition airtel_failure_callback : json :=
  JObj [("transaction", JObj
          [("id", JStr "test-transaction-id");
           ("status", JStr "TF");
           ("amount", JInt 1000);
           ("currency", JStr "KES")])].

(** Two stored intents: the older one still created and due to expire at
    [expires_at], the newer one succeeded. *)
Definition two_intents_db (expires_at : datetime) : db :=
  set_payment_intents
    [ {| pi_id := 1; pi_order := 0; pi_user := 0; pi_amount := 500000;
         pi_currency := "KES"; pi_provider := "mpesa";
         pi_payment_method := Some 0%nat; pi_status := "succeeded";
         pi_next_action := "stk_push"; pi_idempotency_key := "sub_0_2_9f8e7d6c";
         pi_provider_transaction_id := ""; pi_checkout_request_id := "ws_CO_2";
         pi_merchant_request_id := "mr_2"; pi_error_message := "";
         pi_expires_at := expires_at |};
      {| pi_id := 0; pi_order := 0; pi_user := 0; pi_amount := 500000;
         pi_currency := "KES"; pi_provider := "mpesa";
         pi_payment_method := Some 0%nat; pi_status := "created";
         pi_next_action := "stk_push"; pi_idempotency_key := "sub_0_1_a1b2c3d4";
         pi_provider_transaction_id := ""; pi_checkout_request_id := "";
         pi_merchant_request_id := ""; pi_error_message := "";
         pi_expires_at := expires_at |} ]
    (pending_attempt_db (expires_at - 1 * hour)).

(** One payment, created at [created_at], whose order is still pending,
    with the given stored webhook events. *)
Definition one_payment_db (created_at : datetime) (events : list WebhookEvent)
  : db :=
  set_webhook_events events
    (set_payments
       [ {| pay_id := 0; pay_payment_intent := 0; pay_order := 0; pay_user := 0;
            pay_amount := 500000; pay_provider := "mpesa";
            pay_provider_transaction_id := "ABC123";
            pay_created_at := created_at |} ]
       (two_intents_db created_at)).

Definition processed_event : WebhookEvent :=
  {| we_id := 0; we_provider := "mpesa"; we_provider_event_id := "ws_CO_2";
     we_event_type := "stk_callback"; we_status := "processed";
     we_error_message := ""; we_payment_intent := Some 1%nat;
     we_payment := Some 0%nat |}.

(** A debit of the asset account and a credit of revenue, both of the
    payment's amount. *)
Definition double_entry (payment : Payment) : list LedgerRecorder.entry :=
  [ {| LedgerRecorder.entry_type := "debit";
       LedgerRecorder.account_type := "asset";
       LedgerRecorder.amount := pay_amount payment;
       LedgerRecorder.currency := "KES";
       LedgerRecorder.description := "Payment received" |};
    {| LedgerRecorder.entry_type := "credit";
       LedgerRecorder.account_type := "revenue";
       LedgerRecorder.amount := pay_amount payment;
       LedgerRecorder.currency := "KES";
       LedgerRecorder.description := "Payment received" |} ].

(** The provider's notification that the checkout ws_CO_2 was paid. *)
Definition paid_delivery : WebhookProcessor.delivery :=
  {| WebhookProcessor.provider := "mpesa";
     WebhookProcessor.provider_event_id := "ws_CO_2";
     WebhookProcessor.event_type := "stk_callback";
     WebhookProcessor.payload :=
       {| WebhookProcessor.success := true;
          WebhookProcessor.resultCode := 0;
          WebhookProcessor.externalTransactionId := "ABC123";
          WebhookProcessor.receiptNumber := "ABC123";
          WebhookProcessor.amount := 500000;
          WebhookProcessor.currency := "KES";
          WebhookProcessor.phoneNumber := "254712345678";
          WebhookProcessor.correlationReference := "ws_CO_2" |} |}.

(** * Further parts of the code *)

(** ** OAuth tokens of the provider adapters *)

(** The token cache of an adapter instance: [_access_token] and
    [_token_expiry], both [None] after [__init__]. *)
Record token_cache : Type := {
  access_token : option json;
  token_expiry : option datetime
}.

Definition empty_cache : token_cache :=
  {| access_token := None; token_expiry := None |}.

(** What the HTTP request of one call does: it raises a RequestException
    (connection error, timeout, error status, body that is not JSON), or
    [response.json()] returns the parsed body. *)
Inductive http_result : Type :=
| request_fails (msg : string)
| responds (data : json).

Definition minute : Z := 60000000.
Definition second : Z := 1000000.

(** The first lines of both get_access_token methods: the cached token,
    when there is one that is truthy and not yet expired. *)
Definition cached_token (now : datetime) (self : token_cache) : option json :=
  match access_token self, token_expiry self with
  | Some token, Some expiry =>
      if truthy token && Z.ltb now expiry then Some token else None
  | _, _ => None
  end.

Module MPesaAuth.

(** MPesaProvider.get_access_token: the result, and the cache after the
    call. Only a RequestException is caught (and raised again as a plain
    Exception); a body without the key raises KeyError as it is. *)
Definition get_access_token (now : datetime) (http : http_result)
    (self : token_cache) : Exc json * token_cache :=
  match cached_token now self with
  | Some token => (Ok token, self)
  | None =>
      match http with
      | request_fails msg =>
          (Raise (GenericException ("M-Pesa authentication failed: " +:+ msg)),
           self)
      | responds data =>
          match AirtelProvider.subscript data "access_token" with
          | Raise e => (Raise e, self)
          | Ok token =>
              (Ok token, {| access_token := Some token;
                            token_expiry := Some (now + 55 * minute) |})
          end
      end
  end.

End MPesaAuth.

(** The datetimes Python can hold, counted in microseconds from
    1970-01-01T00:00:00 UTC: from 0001-01-01T00:00:00 to
    9999-12-31T23:59:59.999999. *)
Definition datetime_min : datetime := -62135596800 * second.
Definition datetime_max : datetime := 253402300800 * second - 1.

(** [t + delta] for a datetime [t] and a timedelta [delta]. *)
Definition datetime_add (t : datetime) (delta : Z) : Exc datetime :=
  if Z.leb datetime_min (t + delta) && Z.leb (t + delta) datetime_max
  then Ok (t + delta)
  else Raise (OverflowError "date value out of range").

Module AirtelAuth.

Section Seconds.

(** [timedelta(seconds=f - 300)] in microseconds for a finite float [f];
    [None] when the value is out of the range of a timedelta. *)
Variable float_seconds_less_300 : spec_float -> option Z.

(** [timedelta(seconds=expires_in - 300)], in microseconds. A bool counts as
    an int; a timedelta holds at most 999999999 days. *)
Definition expiry_margin (expires_in : json) : Exc Z :=
  let of_int (z : Z) : Exc Z :=
    if Z.leb (Z.abs ((z - 300) / 86400)) 999999999
    then Ok ((z - 300) * second)
    else Raise (OverflowError "days; must have magnitude <= 999999999") in
  match expires_in with
  | JInt z => of_int z
  | JBool b => of_int (if b then 1 else 0)
  | JFloat S754_nan => Raise (ValueError "cannot convert float NaN to integer")
  | JFloat (S754_infinity _) =>
      Raise (OverflowError "cannot convert float infinity to integer")
  | JFloat f =>
      match float_seconds_less_300 f with
      | Some d => Ok d
      | None => Raise (OverflowError "days; must have magnitude <= 999999999")
      end
  | _ => Raise (TypeError ("unsupported operand type(s) for -: '"
                  +:+ type_name expires_in +:+ "' and 'int'"))
  end.

(** AirtelProvider.get_access_token. The token is stored before the expiry
    is computed, so when the expiry cannot be computed (a lifetime that is
    not a number, or a sum out of the range of a timedelta or a datetime)
    the new token stays with the old expiry. *)
Definition get_access_token (now : datetime) (http : http_result)
    (self : token_cache) : Exc json * token_cache :=
  match cached_token now self with
  | Some token => (Ok token, self)
  | None =>
      match http with
      | request_fails msg =>
          (Raise (GenericException ("Airtel authentication failed: " +:+ msg)),
           self)
      | responds data =>
          match AirtelProvider.subscript data "access_token" with
          | Raise e => (Raise e, self)
          | Ok token =>
              let self := {| access_token := Some token;
                             token_expiry := token_expiry self |} in
              match
                let* expires_in := py_get data "expires_in" (JInt 3600) in
                let* margin := expiry_margin expires_in in
                datetime_add now margin
              with
              | Raise e => (Raise e, self)
              | Ok expiry =>
                  (Ok token, {| access_token := Some token;
                                token_expiry := Some expiry |})
              end
          end
      end
  end.

End Seconds.

End AirtelAuth.

(** ** Quiet hours (notifications/tasks.py) *)

(** A time of day, in microseconds since midnight. *)
Definition time_of_day (hours minutes seconds : Z) : Z :=
  hours * hour + minutes * minute + seconds * second.

(** The quiet-hours check of send_pending_notifications, with the user's
    preferences [respect_quiet_hours], [quiet_hours_start] and
    [quiet_hours_end]: whether the notification is skipped at
    [current_time]. *)
Definition in_quiet_hours (respect_quiet_hours : bool)
    (quiet_hours_start quiet_hours_end : option Z) (current_time : Z) : bool :=
  match respect_quiet_hours, quiet_hours_start, quiet_hours_end with
  | true, Some quiet_start, Some quiet_end =>
      if Z.ltb quiet_start quiet_end then
        Z.geb current_time quiet_start || Z.leb current_time quiet_end
      else
        (Z.leb quiet_start current_time
         && Z.leb current_time (time_of_day 23 59 59))
        || (Z.leb (time_of_day 0 0 0) current_time
            && Z.leb current_time quiet_end)
  | _, _, _ => false
  end.

(** ** Subscription methods (subscriptions/models.py) *)

(** [Subscription.needs_renewal] *)
Definition needs_renewal (now : datetime) (self : Subscription) : bool :=
  Z.geb now (sub_current_period_end self) && String.eqb (sub_status self) "active".

(** ** The intent of a renewal attempt *)

(** The row initiate_subscription_payment creates, given the rows it read:
    the arguments of its [PaymentIntent.objects.create]. *)
Definition created_intent (id : nat) (now : datetime) (uuid_hex8 : string)
    (attempt : SubscriptionRenewalAttempt) (subscription : Subscription)
    (order : Order) (payment_method : PaymentMethod) : PaymentIntent :=
  {| pi_id := id; pi_order := order_id order;
     pi_user := sub_user subscription; pi_amount := order_total order;
     pi_currency := "KES";
     pi_provider := if status_in (pm_method_type payment_method) ["mpesa"; "airtel"]
                    then pm_method_type payment_method else "mpesa";
     pi_payment_method := Some (pm_id payment_method);
     pi_status := "created";
     pi_next_action := if String.eqb (pm_method_type payment_method) "mpesa"
                       then "stk_push" else "collect";
     pi_idempotency_key :=
       idempotency_key_of (sub_id subscription) (ra_attempt_number attempt)
         uuid_hex8;
     pi_provider_transaction_id := "";
     pi_checkout_request_id := "";
     pi_merchant_request_id := "";
     pi_error_message := "";
     pi_expires_at := now + 1 * hour |}.

(** The same waiting attempt when the user's default method is a card. *)
Definition card_method : PaymentMethod :=
  {| pm_id := 0; pm_user := 0; pm_method_type := "card_stub";
     pm_phone_number := ""; pm_is_default := true; pm_is_active := true |}.

Definition card_attempt_db (now : datetime) : db :=
  let s := pending_attempt_db now in
  {| prices := prices s; orders := orders s; line_items := line_items s;
     payment_methods := [ card_method ];
     payment_intents := payment_intents s; payments := payments s;
     webhook_events := webhook_events s; ledger_entries := ledger_entries s;
     subscriptions := subscriptions s; renewal_attempts := renewal_attempts s;
     dunning_schedules := dunning_schedules s; queue := queue s |}.

(** ** Reconciliation findings *)

(** Whether the payment's order is stored with a status other than paid. *)
Definition order_not_paid (s : db) (payment : Payment) : bool :=
  match List.find (fun a => Nat.eqb (order_id a) (pay_order payment)) (orders s) with
  | Some order => negb (String.eqb (order_status order) "paid")
  | None => false
  end.

(** The number of findings over a list of payments: one for each order not
    paid, one for each payment without a processed webhook event. *)
Definition findings (s : db) (ps : list Payment) : nat :=
  (List.length (List.filter (order_not_paid s) ps)
   + List.length (List.filter (fun p => negb (has_processed_webhook p s)) ps))%nat.

(** The ['mismatches'] value a run of the job returns. *)
Definition mismatches_of_run (now : datetime) (s : db) : option nat :=
  match fst (reconcile_daily_payments now s) with
  | Ok r => Some (mismatches r)
  | Raise _ => None
  end.

(** ** The effect of the dunning sweep on one subscription *)

(** The attempt the sweep creates for a retry: the arguments of its
    [SubscriptionRenewalAttempt.objects.create], in the state [s]. *)
Definition retry_attempt (now : datetime) (subscription : Subscription)
    (latest_attempt : SubscriptionRenewalAttempt) (s : db)
  : SubscriptionRenewalAttempt :=
  {| ra_id := List.length (renewal_attempts s);
     ra_subscription := sub_id subscription;
     ra_attempt_number := renewal_attempts_count (sub_id subscription) s + 1;
     ra_status := "pending"; ra_payment_intent := None;
     ra_order := ra_order latest_attempt; ra_error_message := "";
     ra_scheduled_at := now; ra_created_at := now |}.

(** [subscription.grace_until and now > subscription.grace_until] *)
Definition grace_expired (now : datetime) (subscription : Subscription) : bool :=
  match sub_grace_until subscription with
  | Some grace_until => Z.ltb grace_until now
  | None => false
  end.

(** The subscription object the grace-period block saves. *)
Definition after_grace (dunning_schedule : DunningSchedule) (now : datetime)
    (subscription : Subscription) : Subscription :=
  if ds_cancel_subscription dunning_schedule then
    subscription_with "cancelled" (Some now) subscription
  else if ds_downgrade_to_free dunning_schedule then
    subscription_with "unpaid" (sub_ended_at subscription) subscription
  else subscription.

(** Whether the sweep applies the grace-period block to a subscription. *)
Definition reaches_grace_check (now : datetime) (s : db)
    (subscription : Subscription) : bool :=
  String.eqb (sub_status subscription) "past_due"
  && bool_decide (is_Some (latest_failed_attempt (sub_id subscription) s))
  && grace_expired now subscription.

(** The failed attempts of a subscription. *)
Definition failed_attempts (subscription_id : nat)
    (l : list SubscriptionRenewalAttempt) : list SubscriptionRenewalAttempt :=
  List.filter (fun a => Nat.eqb (ra_subscription a) subscription_id
                        && String.eqb (ra_status a) "failed") l.

(** [n, n-1, ..., 1] *)
Fixpoint descending (n : nat) : list nat :=
  match n with
  | O => []
  | S m => S m :: descending m
  end.

(** The attempts of every subscription are numbered 1, 2, ... in the order
    of their creation (the table lists the newest first). *)
Definition numbered (l : list SubscriptionRenewalAttempt) : Prop :=
  forall subscription_id,
    map ra_attempt_number
      (List.filter (fun a => Nat.eqb (ra_subscription a) subscription_id) l)
    = descending (List.length
        (List.filter (fun a => Nat.eqb (ra_subscription a) subscription_id) l)).

(** The tables the dunning sweep has no business with. *)
Definition outside_dunning (s : db) :=
  (prices s, orders s, line_items s, payment_methods s, payment_intents s,
   payments s, webhook_events s, ledger_entries s, dunning_schedules s).

(** The tables initiate_subscription_payment has no business with. *)
Definition outside_initiate (s : db) :=
  (prices s, orders s, line_items s, payment_methods s, payments s,
   webhook_events s, ledger_entries s, dunning_schedules s, queue s).

(** Whether the sweep initiates a retry for a subscription: it has a failed
    attempt, and the whole days since the latest one are in the schedule. *)
Definition retry_due (retry_days : list Z) (now : datetime) (s : db)
    (subscription : Subscription) : bool :=
  match latest_failed_attempt (sub_id subscription) s with
  | Some latest_attempt =>
      should_retry (days (now - ra_created_at latest_attempt)) retry_days
  | None => false
  end.

(** What every attempt created by the dunning sweep looks like. *)
Definition dunning_attempt (now : datetime) (a : SubscriptionRenewalAttempt)
  : Prop :=
  ra_status a = "pending" /\ ra_payment_intent a = None
  /\ ra_error_message a = ""
  /\ ra_scheduled_at a = now /\ ra_created_at a = now.




(** A reference of seven two-byte characters (e with an acute accent,
    bytes 195 and 169). *)
Definition e_acute : string :=
  String (ascii_of_nat 195) (String (ascii_of_nat 169) EmptyString).

Definition seven_accented : string :=
  e_acute +:+ e_acute +:+ e_acute +:+ e_acute +:+ e_acute +:+ e_acute +:+ e_acute.

(** Python's [str] on the values of the sample replies: their values are
    strings, ints and bools. *)
Definition str_of_scalars (value : json) : string :=
  match value with
  | JBool b => if b then "True" else "False"
  | JInt z => pretty z
  | JStr text => text
  | _ => ""
  end.

(** The body of the response of an accepted STK push. *)
Definition stk_push_accepted : provider_outcome :=
  provider_returns
    (JObj [("MerchantRequestID", JStr "mr_1");
           ("CheckoutRequestID", JStr "ws_CO_1");
           ("ResponseCode", JStr "0");
           ("ResponseDescription", JStr "Success. Request accepted for processing");
           ("CustomerMessage", JStr "Success. Request accepted for processing")])
    str_of_scalars.

(** A response body without the request ids. *)
Definition stk_push_without_ids : provider_outcome :=
  provider_returns
    (JObj [("errorCode", JStr "500.001.1001");
           ("errorMessage", JStr "Unable to lock subscriber")])
    str_of_scalars.

(** * Properties *)

(** ** The error monad *)

Lemma bind_Ok_inv {A B : Type} (m : Exc A) (k : A -> Exc B) (b : B) :
  bind m k = Ok b -> exists a, m = Ok a /\ k a = Ok b.
Proof. destruct m as [a|e]; simpl; [eauto | discriminate]. Qed.

Lemma bind_Raise_inv {A B : Type} (m : Exc A) (k : A -> Exc B) (e : exn) :
  bind m k = Raise e -> m = Raise e \/ exists a, m = Ok a /\ k a = Raise e.
Proof. destruct m as [a|e']; simpl; [eauto | intros [= ->]; auto]. Qed.

Lemma catchable_Ok {A : Type} (a : A) : catchable (Ok a).
Proof. intros e [=]. Qed.

Lemma catchable_bind {A B : Type} (m : Exc A) (k : A -> Exc B) :
  catchable m -> (forall a, catchable (k a)) -> catchable (bind m k).
Proof.
  intros Hm Hk e He. apply bind_Raise_inv in He as [He | (a & _ & He)].
  - exact (Hm e He).
  - exact (Hk a e He).
Qed.

Lemma catchable_if {A : Type} (b : bool) (m1 m2 : Exc A) :
  catchable m1 -> catchable m2 -> catchable (if b then m1 else m2).
Proof. destruct b; auto. Qed.

Lemma catchable_py_get obj key dflt : catchable (py_get obj key dflt).
Proof. intros e. destruct obj; simpl; intros [= <-]; reflexivity. Qed.

Lemma catchable_py_iter obj : catchable (py_iter obj).
Proof. intros e. destruct obj; simpl; intros [= <-]; reflexivity. Qed.

Create HintDb catchable.
#[local] Hint Resolve catchable_Ok catchable_py_get catchable_py_iter : catchable.

Ltac catchable_steps :=
  repeat first
    [ apply catchable_bind; [ | intros ? ]
    | apply catchable_if
    | solve [ auto with catchable ] ].

(** [try_except] with a handler that returns always returns. *)
Lemma try_except_returns {A : Type} (body : Exc A) (h : exn -> A) :
  catchable body ->
  exists a, try_except body (fun e => Ok (h e)) = Ok a
    /\ (forall r, body = Ok r -> a = r)
    /\ (forall e, body = Raise e -> a = h e).
Proof.
  intros Hc. destruct body as [r|e]; simpl.
  - exists r. repeat split; [congruence | discriminate].
  - rewrite (Hc e eq_refl). exists (h e). repeat split; [discriminate | congruence].
Qed.

(** ** parse_callback *)

Section ParseCallbackFacts.

Variable Decimal_str : json -> option Decimal.

Lemma mpesa_to_Decimal_catchable v :
  catchable (MPesaProvider.to_Decimal Decimal_str v).
Proof.
  intros e. unfold MPesaProvider.to_Decimal.
  destruct (Decimal_str v); intros [= <-]; reflexivity.
Qed.

Lemma airtel_to_Decimal_catchable v :
  catchable (AirtelProvider.to_Decimal Decimal_str v).
Proof.
  intros e. unfold AirtelProvider.to_Decimal.
  destruct (Decimal_str v); intros [= <-]; reflexivity.
Qed.

Lemma mpesa_parse_item_catchable parsed item :
  catchable (MPesaProvider.parse_item Decimal_str parsed item).
Proof.
  unfold MPesaProvider.parse_item. pose proof mpesa_to_Decimal_catchable.
  catchable_steps.
Qed.

Lemma mpesa_parse_items_catchable items : forall parsed,
  catchable (MPesaProvider.parse_items Decimal_str parsed items).
Proof.
  induction items as [|item rest IH]; intros parsed; simpl.
  - apply catchable_Ok.
  - apply catchable_bind; [apply mpesa_parse_item_catchable | auto].
Qed.

Lemma mpesa_body_catchable callback_data :
  catchable (MPesaProvider.parse_callback_body Decimal_str callback_data).
Proof.
  unfold MPesaProvider.parse_callback_body.
  pose proof mpesa_parse_items_catchable.
  catchable_steps.
Qed.

Lemma airtel_contains_catchable obj key :
  catchable (AirtelProvider.contains obj key).
Proof. intros e. destruct obj; simpl; intros [= <-]; reflexivity. Qed.

Lemma airtel_subscript_catchable obj key :
  catchable (AirtelProvider.subscript obj key).
Proof.
  intros e. destruct obj; simpl; try (intros [= <-]; reflexivity).
  destruct (assoc key fields); intros [= <-]; reflexivity.
Qed.

Lemma airtel_body_catchable callback_data :
  catchable (AirtelProvider.parse_callback_body Decimal_str callback_data).
Proof.
  unfold AirtelProvider.parse_callback_body.
  pose proof airtel_to_Decimal_catchable.
  pose proof airtel_contains_catchable.
  pose proof airtel_subscript_catchable.
  catchable_steps.
Qed.

(** The metadata loop only writes keys other than ['success']. *)
Lemma mpesa_parse_item_success parsed item parsed' :
  MPesaProvider.parse_item Decimal_str parsed item = Ok parsed' ->
  parsed' !! "success" = parsed !! "success".
Proof.
  unfold MPesaProvider.parse_item. intros H.
  apply bind_Ok_inv in H as (name & _ & H).
  apply bind_Ok_inv in H as (value & _ & H).
  repeat match type of H with
  | (if ?c then _ else _) = _ => destruct c
  | bind _ _ = Ok _ => apply bind_Ok_inv in H as (? & _ & H)
  end; injection H as <-; by rewrite ?lookup_insert_ne.
Qed.

Lemma mpesa_parse_items_success items : forall parsed parsed',
  MPesaProvider.parse_items Decimal_str parsed items = Ok parsed' ->
  parsed' !! "success" = parsed !! "success".
Proof.
  induction items as [|item rest IH]; simpl; intros parsed parsed' H.
  - by injection H as <-.
  - apply bind_Ok_inv in H as (p1 & H1 & H).
    rewrite (IH _ _ H). eapply mpesa_parse_item_success; eauto.
Qed.

Lemma mpesa_body_success callback_data parsed :
  MPesaProvider.parse_callback_body Decimal_str callback_data = Ok parsed ->
  exists b, parsed !! "success" = Some (PJson (JBool b)).
Proof.
  unfold MPesaProvider.parse_callback_body. intros H.
  repeat match type of H with
  | bind _ _ = Ok _ => apply bind_Ok_inv in H as (? & _ & H)
  | (if ?c then _ else _) = _ => destruct c eqn:?
  end.
  - apply mpesa_parse_items_success in H. eexists. rewrite H.
    apply lookup_insert_eq.
  - injection H as <-. eexists. apply lookup_insert_eq.
Qed.

Lemma airtel_body_success callback_data parsed :
  AirtelProvider.parse_callback_body Decimal_str callback_data = Ok parsed ->
  exists b, parsed !! "success" = Some (PJson (JBool b)).
Proof.
  unfold AirtelProvider.parse_callback_body. intros H.
  repeat match goal with
  | E : bind _ _ = Ok _ |- _ => apply bind_Ok_inv in E as (? & ? & E)
  | E : (if ?c then _ else _) = Ok _ |- _ => destruct c eqn:?
  | E : Ok _ = Ok _ |- _ => injection E as <-
  end;
  eexists; rewrite ?lookup_insert_ne by done; apply lookup_insert_eq.
Qed.

(** C10. For every payload, well-formed or not (any JSON value, a dict or
    not), MPesaProvider.parse_callback and AirtelProvider.parse_callback
    return (they never raise) a dictionary in which ['success'] is a
    boolean; when parsing fails inside, the dictionary returned has
    ['success'] false and ['error'] the message of the failure. *)
Theorem parse_callback_never_raises (callback_data : json) :
  (exists parsed b,
     MPesaProvider.parse_callback Decimal_str callback_data = Ok parsed
     /\ parsed !! "success" = Some (PJson (JBool b))
     /\ forall e,
          MPesaProvider.parse_callback_body Decimal_str callback_data = Raise e ->
          parsed !! "success" = Some (PJson (JBool false))
          /\ parsed !! "error" = Some (PJson (JStr (exn_str e))))
  /\
  (exists parsed b,
     AirtelProvider.parse_callback Decimal_str callback_data = Ok parsed
     /\ parsed !! "success" = Some (PJson (JBool b))
     /\ forall e,
          AirtelProvider.parse_callback_body Decimal_str callback_data = Raise e ->
          parsed !! "success" = Some (PJson (JBool false))
          /\ parsed !! "error" = Some (PJson (JStr (exn_str e)))).
Proof.
  split.
  - unfold MPesaProvider.parse_callback.
    destruct (try_except_returns
      (MPesaProvider.parse_callback_body Decimal_str callback_data)
      (fun e => <["error" := PJson (JStr (exn_str e))]>
                  (<["success" := PJson (JBool false)]> ∅))
      (mpesa_body_catchable callback_data)) as (parsed & Hret & Hok & Herr).
    destruct (MPesaProvider.parse_callback_body Decimal_str callback_data)
      as [r|e] eqn:Hbody.
    + destruct (mpesa_body_success _ _ Hbody) as [b Hb].
      exists parsed, b. rewrite (Hok r eq_refl).
      split; [done|]. split; [done|]. intros e [=].
    + exists parsed, false. rewrite (Herr e eq_refl) in *.
      split; [done|]. split; [done|]. intros e' [= <-]. done.
  - unfold AirtelProvider.parse_callback.
    destruct (try_except_returns
      (AirtelProvider.parse_callback_body Decimal_str callback_data)
      (fun e => <["error" := PJson (JStr (exn_str e))]>
                  (<["success" := PJson (JBool false)]> ∅))
      (airtel_body_catchable callback_data)) as (parsed & Hret & Hok & Herr).
    destruct (AirtelProvider.parse_callback_body Decimal_str callback_data)
      as [r|e] eqn:Hbody.
    + destruct (airtel_body_success _ _ Hbody) as [b Hb].
      exists parsed, b. rewrite (Hok r eq_refl).
      split; [done|]. split; [done|]. intros e [=].
    + exists parsed, false. rewrite (Herr e eq_refl) in *.
      split; [done|]. split; [done|]. intros e' [= <-]. done.
Qed.

End ParseCallbackFacts.

(** ** Phone numbers in the outbound requests *)

Lemma substring_all (s : string) : String.substring 0 (String.length s) s = s.
Proof. induction s as [|c s IH]; simpl; [reflexivity | by rewrite IH]. Qed.

Lemma str_from_0 (s : string) : str_from 0 s = s.
Proof. unfold str_from. rewrite Nat.sub_0_r. apply substring_all. Qed.

Lemma app_literal (c : ascii) (p s : string) :
  String c p +:+ s = String c (p +:+ s).
Proof. reflexivity. Qed.

Lemma app_empty (s : string) : "" +:+ s = s.
Proof. reflexivity. Qed.

Lemma prefix_empty (s : string) : String.prefix "" s = true.
Proof. by destruct s. Qed.

Ltac normalize_phone_tac :=
  rewrite ?app_literal, ?app_empty;
  cbv [MPesaProvider.normalize_phone AirtelProvider.normalize_phone
       startswith str_from];
  simpl;
  rewrite ?prefix_empty, ?app_literal, ?app_empty, ?Nat.sub_0_r, ?substring_all;
  reflexivity.

Lemma mpesa_normalize_national (n : string) :
  MPesaProvider.normalize_phone ("0" +:+ n) = "254" +:+ n.
Proof. normalize_phone_tac. Qed.

Lemma mpesa_normalize_plus (n : string) :
  MPesaProvider.normalize_phone ("+254" +:+ n) = "254" +:+ n.
Proof. normalize_phone_tac. Qed.

Lemma mpesa_normalize_international (n : string) :
  MPesaProvider.normalize_phone ("254" +:+ n) = "254" +:+ n.
Proof. normalize_phone_tac. Qed.

Lemma airtel_normalize_national (n : string) :
  AirtelProvider.normalize_phone ("0" +:+ n) = "0" +:+ n.
Proof. normalize_phone_tac. Qed.

Lemma airtel_normalize_international (n : string) :
  AirtelProvider.normalize_phone ("254" +:+ n) = "0" +:+ n.
Proof. normalize_phone_tac. Qed.

Lemma airtel_normalize_plus (n : string) :
  AirtelProvider.normalize_phone ("+254" +:+ n) = "0" +:+ n.
Proof. normalize_phone_tac. Qed.

(** C9, as the code has it. Each adapter normalizes the payer phone number
    to its own provider's format before sending the request: for a number
    written 0N, 254N or +254N, initiate_stk_push puts 254N (international,
    without the plus) in PartyA and PhoneNumber, and initiate_collect puts
    0N (national, without the country code) in the subscriber's msisdn. *)
Theorem normalize_phone_per_provider (n : string)
    (shortcode password timestamp account_reference transaction_desc
       callback_url ref : string) (amount : Z) :
  Forall (fun phone_number =>
      let stk := MPesaProvider.initiate_stk_push_payload shortcode password
                   timestamp phone_number amount account_reference
                   transaction_desc callback_url in
      let collect := AirtelProvider.initiate_collect_payload phone_number
                       amount ref callback_url in
      MPesaProvider.PartyA stk = "254" +:+ n
      /\ MPesaProvider.PhoneNumber stk = "254" +:+ n
      /\ AirtelProvider.subscriber_msisdn collect = "0" +:+ n)
    ["0" +:+ n; "254" +:+ n; "+254" +:+ n].
Proof.
  repeat constructor; cbn [MPesaProvider.initiate_stk_push_payload
    AirtelProvider.initiate_collect_payload MPesaProvider.PartyA
    MPesaProvider.PhoneNumber AirtelProvider.subscriber_msisdn];
  first [ apply mpesa_normalize_national | apply mpesa_normalize_plus
        | apply mpesa_normalize_international | apply airtel_normalize_national
        | apply airtel_normalize_international | apply airtel_normalize_plus ].
Qed.

(** C9, as stated, fails: for the payer 254712345678 the M-Pesa request
    carries 254712345678 and the Airtel request carries 0712345678, which is
    not the international format and not the number M-Pesa sends. *)
Lemma normalize_phone_not_one_format :
  let stk := MPesaProvider.initiate_stk_push_payload "174379" "pw"
               "20231215100000" "254712345678" 100000 "order" "Subscription"
               "https://lms/cb" in
  let collect := AirtelProvider.initiate_collect_payload "254712345678" 100000
                   "order" "https://lms/cb" in
  MPesaProvider.PhoneNumber stk = "254712345678"
  /\ AirtelProvider.subscriber_msisdn collect = "0712345678"
  /\ is_254_format (MPesaProvider.PhoneNumber stk) = true
  /\ is_254_format (AirtelProvider.subscriber_msisdn collect) = false
  /\ MPesaProvider.PhoneNumber stk <> AirtelProvider.subscriber_msisdn collect.
Proof. repeat split; try reflexivity. intros [=]. Qed.

(** ** cleanup_expired_intents *)

Lemma cleanup_expired_intents_run now s :
  cleanup_expired_intents now s =
  (Ok (List.length (List.filter (is_expired now) (payment_intents s))),
   set_payment_intents
     (map (fun p => if is_expired now p then cancel_expired p else p)
        (payment_intents s)) s).
Proof. reflexivity. Qed.

Lemma cleanup_expired_intents_row now s i :
  payment_intents (snd (cleanup_expired_intents now s)) !! i =
  (fun p => if is_expired now p then cancel_expired p else p)
    <$> payment_intents s !! i.
Proof. rewrite cleanup_expired_intents_run. simpl. apply list_lookup_fmap. Qed.

Lemma cancelled_not_expired now p : is_expired now (cancel_expired p) = false.
Proof. reflexivity. Qed.

(** A row whose status the filter does not accept is left alone by any
    number of runs. *)
Lemma unselected_row_stable times : forall s i p,
  payment_intents s !! i = Some p ->
  status_in (pi_status p) ["created"; "requires_action"] = false ->
  times_cancelled i times s = 0%nat
  /\ payment_intents (sweep_expired times s) !! i = Some p.
Proof.
  induction times as [|now rest IH]; intros s i p Hrow Hst; [by split|].
  assert (Hne : is_expired now p = false).
  { unfold is_expired. by rewrite Hst. }
  assert (Hrow' : payment_intents (snd (cleanup_expired_intents now s)) !! i = Some p).
  { rewrite cleanup_expired_intents_row, Hrow. simpl. by rewrite Hne. }
  destruct (IH _ _ _ Hrow' Hst) as [Hc Hr].
  split; [|exact Hr].
  cbn [times_cancelled]. by rewrite Hrow, Hne, Hc.
Qed.

(** C6. An intent past its [expires_at] and still created or
    requires_action is cancelled by the expiry sweep, and across any number
    of later runs it is selected exactly once (by the first); an intent in
    any other status is never selected and never modified. *)
Theorem cleanup_expired_intents_exactly_once (s : db) (i : nat)
    (p : PaymentIntent) (now : datetime) (later : list datetime) :
  payment_intents s !! i = Some p ->
  (is_expired now p = true ->
     times_cancelled i (now :: later) s = 1%nat
     /\ payment_intents (sweep_expired (now :: later) s) !! i
          = Some (cancel_expired p)
     /\ pi_status (cancel_expired p) = "cancelled")
  /\ (status_in (pi_status p) ["created"; "requires_action"] = false ->
      times_cancelled i (now :: later) s = 0%nat
      /\ payment_intents (sweep_expired (now :: later) s) !! i = Some p).
Proof.
  intros Hrow. split.
  - intros Hexp.
    assert (Hrow' : payment_intents (snd (cleanup_expired_intents now s)) !! i
                    = Some (cancel_expired p)).
    { rewrite cleanup_expired_intents_row, Hrow. simpl. by rewrite Hexp. }
    destruct (unselected_row_stable later _ _ _ Hrow' eq_refl) as [Hc Hr].
    repeat split; [|exact Hr].
    cbn [times_cancelled]. by rewrite Hrow, Hexp, Hc.
  - intros Hst. by apply unselected_row_stable.
Qed.

(** ** reconcile_daily_payments *)

Lemma reconcile_payment_read_only payment found s :
  snd (reconcile_payment payment found s) = s.
Proof.
  unfold reconcile_payment, bindM, get_order, gets, ret.
  destruct (List.find _ (orders s)); [|reflexivity].
  by destruct (negb (has_processed_webhook payment s)).
Qed.

Lemma reconcile_payments_read_only ps : forall found s,
  snd (reconcile_payments ps found s) = s.
Proof.
  induction ps as [|payment rest IH]; intros found s; [reflexivity|].
  cbn [reconcile_payments]. unfold bindM.
  pose proof (reconcile_payment_read_only payment found s) as H.
  destruct (reconcile_payment payment found s) as [[found'|e] s']; simpl in H;
    subst s'; [apply IH | reflexivity].
Qed.

(** The job writes nothing but the alert message on the queue. *)
Lemma reconcile_daily_payments_tables now s :
  set_queue (queue s) (snd (reconcile_daily_payments now s)) = s.
Proof.
  unfold reconcile_daily_payments, bindM, gets.
  pose proof (reconcile_payments_read_only (payments_of_yesterday now s) [] s) as H.
  destruct (reconcile_payments (payments_of_yesterday now s) [] s)
    as [[found|e] s']; simpl in H; subst s'; [|by destruct s].
  destruct (negb (List.length found =? 0)%nat); by destruct s.
Qed.

Lemma reconcile_daily_payments_no_mismatch now s r s' :
  reconcile_daily_payments now s = (Ok r, s') -> mismatches r = 0%nat -> s' = s.
Proof.
  unfold reconcile_daily_payments, bindM, gets.
  pose proof (reconcile_payments_read_only (payments_of_yesterday now s) [] s) as H.
  destruct (reconcile_payments (payments_of_yesterday now s) [] s)
    as [[found|e] s1]; simpl in H; subst s1; [|discriminate].
  destruct found as [|m found]; simpl.
  - by intros [= <- <-].
  - intros [= <- <-]. discriminate.
Qed.

Lemma reconcile_daily_payments_run now s found :
  reconcile_payments (payments_of_yesterday now s) [] s = (Ok found, s) ->
  reconcile_daily_payments now s =
    (Ok {| total_payments := List.length (payments_of_yesterday now s);
           mismatches := List.length found |},
     if negb (Nat.eqb (List.length found) 0) then
       set_queue (queue s ++ [send_admin_alert_msg "Payment Reconciliation Alert"
         ("Found " +:+ pretty (List.length found)
            +:+ " payment mismatches during reconciliation")])%list s
     else s).
Proof.
  intros H. unfold reconcile_daily_payments, bindM, gets. rewrite H.
  by destruct found.
Qed.

(** C8, as the code has it. When yesterday's window holds exactly one
    Payment, its Order is pending and the Payment has a processed
    WebhookEvent, the job reports exactly one mismatch and puts exactly one
    admin alert on the queue; it changes no stored record, whatever the
    window holds; and when it finds no mismatch it sends no alert. *)
Theorem reconcile_one_pending_order (s : db) (now : datetime) :
  (forall payment order,
     payments_of_yesterday now s = [payment] ->
     List.find (fun a => Nat.eqb (order_id a) (pay_order payment)) (orders s)
       = Some order ->
     order_status order = "pending" ->
     has_processed_webhook payment s = true ->
     reconcile_daily_payments now s =
       (Ok {| total_payments := 1; mismatches := 1 |},
        set_queue (queue s ++ [send_admin_alert_msg "Payment Reconciliation Alert"
            "Found 1 payment mismatches during reconciliation"])%list s))
  /\ set_queue (queue s) (snd (reconcile_daily_payments now s)) = s
  /\ (forall r s',
        reconcile_daily_payments now s = (Ok r, s') ->
        mismatches r = 0%nat -> s' = s).
Proof.
  split; [|split].
  - intros payment order Hwin Hfind Hst Hweb.
    rewrite (reconcile_daily_payments_run now s
      [ {| mm_payment_id := pay_id payment; mm_order_id := Some (order_id order);
           mm_issue := "Order not marked as paid" |} ]).
    + by rewrite Hwin.
    + rewrite Hwin. cbn [reconcile_payments].
      unfold bindM, reconcile_payment, bindM, get_order, gets.
      by rewrite Hfind, Hst, Hweb.
  - apply reconcile_daily_payments_tables.
  - apply reconcile_daily_payments_no_mismatch.
Qed.

(** ** process_subscription_renewals *)

(** What one pass of the loop body does: [continue] when an in-flight
    attempt exists; otherwise it raises before it writes anything, either
    because the price row is missing or, at [Decimal('0.00')], because the
    module never imports [Decimal]. *)
Lemma renew_subscription_run now subscription s :
  renew_subscription now subscription s =
  match head (List.filter (in_flight_for subscription) (renewal_attempts s)) with
  | Some _ => (Ok false, s)
  | None =>
      match List.find (fun a => Nat.eqb (price_id a) (sub_price subscription))
              (prices s) with
      | Some _ => (Raise (NameError "name 'Decimal' is not defined"), s)
      | None => (Raise (DoesNotExist "Price matching query does not exist."), s)
      end
  end.
Proof.
  unfold renew_subscription, bindM, gets, get_price.
  destruct (head (List.filter (in_flight_for subscription) (renewal_attempts s)));
    [reflexivity|].
  by destruct (List.find _ (prices s)).
Qed.

Lemma renewal_loop_run now due : forall renewed_count failed_count s,
  renewal_loop now due renewed_count failed_count s =
  (Ok {| renewed := renewed_count;
         failed := failed_count + List.length (without_in_flight due s) |}, s).
Proof.
  induction due as [|subscription rest IH]; intros r f s.
  - cbn. by rewrite Nat.add_0_r.
  - cbn [renewal_loop]. unfold bindM at 1, try_exceptM, bindM.
    rewrite renew_subscription_run. unfold without_in_flight.
    cbn [List.filter]. fold (without_in_flight rest s).
    destruct (head (List.filter (in_flight_for subscription) (renewal_attempts s)))
      as [a|] eqn:Hhead.
    + rewrite bool_decide_eq_false_2 by done. cbn. apply IH.
    + rewrite bool_decide_eq_true_2 by done.
      destruct (List.find _ (prices s)); cbn; rewrite IH; cbn;
        by rewrite Nat.add_succ_r.
Qed.

(** C5. The renewal sweep skips a selected subscription that has a pending
    or processing attempt scheduled within the period window, but for every
    other selected subscription it creates nothing: the loop body raises
    before its first write (the module never imports [Decimal]), the
    exception is caught and the subscription is counted as failed. The sweep
    leaves every table and the queue as they were, in every state; on a
    database with one due subscription and nothing in flight it returns
    renewed = 0, failed = 1. *)
Theorem renewal_sweep_creates_nothing (now : datetime) (s : db) :
  process_subscription_renewals now s =
    (Ok {| renewed := 0;
           failed := List.length
             (without_in_flight (List.filter (is_due now) (subscriptions s)) s) |},
     s)
  /\ process_subscription_renewals (1000 * day + 1 * hour)
       (due_subscription_db (1000 * day)) =
     (Ok {| renewed := 0; failed := 1 |}, due_subscription_db (1000 * day))
  /\ renew_subscription (1000 * day + 1 * hour)
       {| sub_id := 0; sub_user := 0; sub_product := 0; sub_price := 0;
          sub_status := "active";
          sub_current_period_start := 1000 * day - 30 * day;
          sub_current_period_end := 1000 * day;
          sub_grace_until := None; sub_ended_at := None |}
       (due_subscription_db (1000 * day)) =
     (Raise (NameError "name 'Decimal' is not defined"),
      due_subscription_db (1000 * day)).
Proof.
  split; [|split].
  - unfold process_subscription_renewals, bindM, gets. apply renewal_loop_run.
  - vm_compute. reflexivity.
  - vm_compute. reflexivity.
Qed.

(** ** process_dunning_schedule *)

(** What the loop body does with a subscription that has a failed attempt:
    it initiates a retry exactly when the whole days elapsed since the
    latest failed attempt was created are one of the retry days. *)
Lemma dun_subscription_retry dunning_schedule retry_days now subscription s a :
  latest_failed_attempt (sub_id subscription) s = Some a ->
  fst (dun_subscription dunning_schedule retry_days now subscription s) =
    Ok (should_retry (days (now - ra_created_at a)) retry_days).
Proof.
  intros H. unfold dun_subscription, bindM, gets. rewrite H.
  destruct (should_retry _ retry_days); cbn;
    unfold apply_grace_expiry;
    destruct (sub_grace_until subscription) as [g|]; cbn;
    try destruct (Z.ltb g now); reflexivity.
Qed.

(** C4. The sweep measures the days from the latest failed attempt, not
    from the first failure. With failed attempts created on day 0 and on
    day 1, on day 3 the days since the first failure are 3, one of the
    retry offsets, but the sweep computes 2 and creates no RenewalAttempt
    and no notification. *)
Theorem dunning_measures_from_latest_failure :
  let t0 := 1000 * day in
  let s := two_failures_db t0 in
  let now := t0 + 3 * day in
  days_since_first_failure now 0 s = Some 3
  /\ should_retry 3 (get_retry_days default_schedule) = true
  /\ option_map (fun a => days (now - ra_created_at a))
       (latest_failed_attempt 0 s) = Some 2
  /\ process_dunning_schedule now s = (Ok 0%nat, s).
Proof. vm_compute. repeat split; reflexivity. Qed.

(** C3. With retry offsets [0,1,3,7], seven days of grace, a renewal that
    failed at [t0] and retries that all fail, the sweep, run every six
    hours, initiates a retry on every run, not four retries: the days are
    measured from the latest failed attempt, which the previous run
    created. When the retries fail for want of a default payment method
    there are 31 retries, and the terminal action is applied three times on
    day 7, because the failing retry puts the subscription back to
    past_due; when they fail at the provider there are 29 retries and one
    terminal action. *)
Theorem dunning_retries_on_every_sweep :
  let t0 := 1000 * day in
  let failing := fun _ : nat => provider_raises "M-Pesa STK Push failed: timeout" in
  let uuid := fun n : nat => pretty n in
  let no_method := fst (dunning_sweeps 0 t0 (six_hourly t0) uuid failing
                          (failed_renewal_db t0 [])) in
  let provider_fails := fst (dunning_sweeps 0 t0 (six_hourly t0) uuid failing
                               (failed_renewal_db t0 [mpesa_method])) in
  retries_of no_method = 31%nat
  /\ retry_days_of no_method =
       [0; 0; 0; 1; 1; 1; 1; 2; 2; 2; 2; 3; 3; 3; 3; 4; 4; 4; 4; 5; 5; 5; 5;
        6; 6; 6; 6; 7; 7; 7; 7]
  /\ terminal_actions_of no_method = 3%nat
  /\ retries_of provider_fails = 29%nat
  /\ retry_days_of provider_fails =
       [0; 0; 0; 1; 1; 1; 1; 2; 2; 2; 2; 3; 3; 3; 3; 4; 4; 4; 4; 5; 5; 5; 5;
        6; 6; 6; 6; 7; 7]
  /\ terminal_actions_of provider_fails = 1%nat.
Proof. vm_compute. repeat split; reflexivity. Qed.

(** ** Payment intents and idempotency keys *)

Lemma PaymentIntent_create_used new s :
  existsb (fun q => String.eqb (pi_idempotency_key q)
                      (pi_idempotency_key (new (List.length (payment_intents s)))))
    (payment_intents s) = true ->
  PaymentIntent_create new s =
    (Raise (IntegrityError
       "UNIQUE constraint failed: payments_paymentintent.idempotency_key"), s).
Proof. intros H. unfold PaymentIntent_create. by rewrite H. Qed.

Lemma existsb_key_false (k : string) (l : list PaymentIntent) :
  existsb (fun q => String.eqb (pi_idempotency_key q) k) l = false ->
  k ∉ map pi_idempotency_key l.
Proof.
  induction l as [|q l IH]; simpl; intros H; [apply not_elem_of_nil|].
  apply orb_false_iff in H as [Hq Hl]. apply not_elem_of_cons.
  split; [|auto]. apply String.eqb_neq in Hq. congruence.
Qed.

(** Saving an object over the rows with its key changes no idempotency key
    when the object carries the key of the row it came from. *)
Lemma save_keeps_keys (a a' : PaymentIntent) (l : list PaymentIntent) :
  pi_id a' = pi_id a -> pi_idempotency_key a' = pi_idempotency_key a ->
  Forall (fun p => (pi_id p < pi_id a)%nat) l ->
  map (fun r => if Nat.eqb (pi_id r) (pi_id a') then a' else r) (a :: l)
  = a' :: l.
Proof.
  intros Hid Hkey Hlt. cbn. rewrite Hid, Nat.eqb_refl. f_equal.
  induction Hlt as [|p l Hp _ IH]; [reflexivity|].
  cbn. rewrite IH. destruct (Nat.eqb_spec (pi_id p) (pi_id a)); [lia|done].
Qed.

Lemma wf_intents_cons (p : PaymentIntent) (s : db) (l : list PaymentIntent) :
  wf_intents s -> l = payment_intents s ->
  pi_id p = List.length l ->
  existsb (fun q => String.eqb (pi_idempotency_key q) (pi_idempotency_key p)) l
    = false ->
  NoDup (map pi_idempotency_key (p :: l))
  /\ Forall (fun q => (pi_id q < List.length (p :: l))%nat) (p :: l).
Proof.
  intros [Hnd Hid] -> Hp Hk. split.
  - cbn. apply NoDup_cons. split; [by apply existsb_key_false | done].
  - constructor; [cbn; lia|].
    eapply Forall_impl; [exact Hid|]. cbn. intros; lia.
Qed.

Lemma handler_keeps_intents id e s :
  payment_intents (snd (initiate_subscription_payment_handler id e s))
  = payment_intents s.
Proof.
  unfold initiate_subscription_payment_handler, get_attempt.
  by destruct (List.find _ (renewal_attempts s)).
Qed.

Lemma initiate_intents_of_body id now suffix outcome s :
  payment_intents (snd (initiate_subscription_payment id now suffix outcome s))
  = payment_intents
      (snd (initiate_subscription_payment_body id now suffix outcome s)).
Proof.
  unfold initiate_subscription_payment, try_exceptM.
  destruct (initiate_subscription_payment_body id now suffix outcome s)
    as [[u|e] s']; [reflexivity|].
  destruct (is_Exception e); [apply handler_keeps_intents | reflexivity].
Qed.

(** The provider part of a run: it raises something [except Exception]
    catches and writes nothing, or does nothing (a method that is neither
    M-Pesa nor Airtel), or saves the intent as requires_action with the
    references of the response. *)
Lemma initiate_with_provider_cases method_type provider p s :
  (exists e, is_Exception e = true
             /\ initiate_with_provider method_type provider p s = (Raise e, s))
  \/ initiate_with_provider method_type provider p s = (Ok tt, s)
  \/ exists t c m,
       initiate_with_provider method_type provider p s
       = save_intent (intent_with "requires_action" (pi_error_message p) t c m p) s.
Proof.
  unfold initiate_with_provider, call_provider, bindM, lift, raise, ret,
    py_get, CharField.
  destruct (String.eqb method_type "mpesa");
    [|destruct (String.eqb method_type "airtel"); [|by right; left]];
    (destruct provider as [msg|response str];
     [left; eexists; split; [|reflexivity]; reflexivity|]);
    cbn [fst snd];
    repeat match goal with
    | |- context [match ?x with _ => _ end] => is_var x; destruct x
    | |- context [assoc ?k ?d] => destruct (assoc k d); cbn [from_option id]
    end;
    first [ left; eexists; split; [|reflexivity]; reflexivity
          | right; right; eexists _, _, _; reflexivity ].
Qed.

(** The intents table after one run of the task body: unchanged, or with
    one new row in front, whose key was unused, possibly saved once more. *)
Lemma body_intents id now suffix outcome s :
  let l := payment_intents s in
  let l' := payment_intents
              (snd (initiate_subscription_payment_body id now suffix outcome s)) in
  l' = l
  \/ exists p p',
       pi_id p = List.length l
       /\ existsb (fun q => String.eqb (pi_idempotency_key q)
                              (pi_idempotency_key p)) l = false
       /\ pi_id p' = pi_id p /\ pi_idempotency_key p' = pi_idempotency_key p
       /\ (l' = p :: l
           \/ l' = map (fun r => if Nat.eqb (pi_id r) (pi_id p') then p' else r)
                     (p :: l)).
Proof.
  unfold initiate_subscription_payment_body,
    bindM, get_attempt, get_subscription, get_order_opt, get_order, gets, lift,
    save_attempt, save_subscription, modify, ret, raise,
    PaymentIntent_create, bindM, ret.
  repeat match goal with
  | |- context [List.find ?f ?l] => destruct (List.find f l) eqn:?; cbn [fst snd]
  | |- context [match ?o with None => _ | Some _ => _ end] => destruct o eqn:?; cbn [fst snd]
  | |- context [if ?b then _ else _] => destruct b eqn:?; cbn [fst snd]
  end.
  all: try (left; reflexivity).
  all: match goal with
       | |- context [initiate_with_provider ?mt ?o ?p ?s1] =>
           destruct (initiate_with_provider_cases mt o p s1)
             as [(e & _ & Hrun) | [Hrun | (t & c & m & Hrun)]];
           rewrite Hrun; right;
           [ exists p, p | exists p, p
           | exists p, (intent_with "requires_action" (pi_error_message p) t c m p) ]
       end.
  all: cbn [fst snd payment_intents set_renewal_attempts set_payment_intents
            set_subscriptions save_intent modify].
  all: repeat split; try assumption; try reflexivity.
  all: first [ left; reflexivity | right; reflexivity ].
Qed.

Lemma initiate_keeps_wf id now suffix outcome s :
  wf_intents s ->
  wf_intents (snd (initiate_subscription_payment id now suffix outcome s)).
Proof.
  intros Hwf. unfold wf_intents. rewrite initiate_intents_of_body.
  destruct (body_intents id now suffix outcome s)
    as [-> | (p & p' & Hid & Hkey & Hid' & Hkey' & [-> | ->])]; [exact Hwf | |].
  - by apply (wf_intents_cons p s).
  - rewrite save_keeps_keys; [| done | done |].
    + destruct (wf_intents_cons p s _ Hwf eq_refl Hid Hkey) as [Hnd Hlt].
      split.
      * cbn in *. by rewrite Hkey'.
      * cbn in *. apply Forall_cons in Hlt as [Hp Hl].
        constructor; [lia | done].
    + destruct Hwf as [_ Hlt]. rewrite Hid.
      eapply Forall_impl; [exact Hlt|]. done.
Qed.

(** ** Footprints *)

Section Moves.

Context {B : Type} (proj : db -> B) (R : B -> B -> Prop) `{!PreOrder R}.

Lemma moves_ret {A : Type} (a : A) : moves proj R (ret a).
Proof. intros s. reflexivity. Qed.

Lemma moves_raise {A : Type} (e : exn) : moves proj R (@raise A e).
Proof. intros s. reflexivity. Qed.

Lemma moves_gets {A : Type} (f : db -> A) : moves proj R (gets f).
Proof. intros s. reflexivity. Qed.

Lemma moves_lift {A : Type} (e : Exc A) : moves proj R (lift e).
Proof. intros s. reflexivity. Qed.

Lemma moves_modify (f : db -> db) :
  (forall s, R (proj s) (proj (f s))) -> moves proj R (modify f).
Proof. intros H s. apply H. Qed.

Lemma moves_bind {A C : Type} (m : M A) (k : A -> M C) :
  moves proj R m -> (forall a, moves proj R (k a)) -> moves proj R (bindM m k).
Proof.
  intros Hm Hk s. unfold bindM. specialize (Hm s).
  destruct (m s) as [[a|e] s']; cbn in *; [|exact Hm].
  etransitivity; [exact Hm | apply Hk].
Qed.

Lemma moves_try {A : Type} (body : M A) (handler : exn -> M A) :
  moves proj R body -> (forall e, moves proj R (handler e)) ->
  moves proj R (try_exceptM body handler).
Proof.
  intros Hb Hh s. unfold try_exceptM. specialize (Hb s).
  destruct (body s) as [[a|e] s']; cbn in *; [exact Hb|].
  destruct (is_Exception e); [|exact Hb].
  etransitivity; [exact Hb | apply Hh].
Qed.

Lemma keeps_moves {A : Type} (m : M A) : keeps proj m -> moves proj R m.
Proof. intros H s. rewrite <- (H s). reflexivity. Qed.

End Moves.

Ltac keeps_step :=
  match goal with
  | |- PreOrder _ => apply _
  | |- forall _, _ => intros ?
  | |- keeps _ _ => unfold keeps
  | |- moves _ _ (bindM _ _) => apply moves_bind
  | |- moves _ _ (ret _) => apply moves_ret
  | |- moves _ _ (raise _) => apply moves_raise
  | |- moves _ _ (gets _) => apply moves_gets
  | |- moves _ _ (lift _) => apply moves_lift
  | |- moves _ _ (modify _) => apply moves_modify
  | |- moves _ _ (try_exceptM _ _) => apply moves_try
  | |- moves _ _ (match ?x with _ => _ end) => destruct x
  | |- _ => reflexivity
  end.






















(** ** The ledger *)

Lemma payment_total_app kind payment_id (l1 l2 : list LedgerEntry) :
  payment_total kind payment_id (l1 ++ l2)
  = payment_total kind payment_id l1 + payment_total kind payment_id l2.
Proof.
  unfold payment_total. rewrite List.filter_app, map_app.
  induction (map le_amount (List.filter _ l1)) as [|x xs IH]; cbn; [done | lia].
Qed.

Lemma balanced_nil : balanced [].
Proof. intros p. reflexivity. Qed.

Lemma balanced_app l1 l2 : balanced l1 -> balanced l2 -> balanced (l1 ++ l2).
Proof. intros H1 H2 p. rewrite !payment_total_app. by rewrite H1, H2. Qed.

#[local] Instance ledger_grows_preorder : PreOrder ledger_grows.
Proof.
  split.
  - intros l. exists []. split; [reflexivity | apply balanced_nil].
  - intros l1 l2 l3 (n1 & -> & H1) (n2 & -> & H2).
    exists (n2 ++ n1)%list. split; [by rewrite app_assoc | by apply balanced_app].
Qed.


Lemma Post_run t entries s :
  LedgerRecorder.Post t entries s =
  if Z.eqb (LedgerRecorder.total "debit" entries)
       (LedgerRecorder.total "credit" entries)
  then (Ok tt, set_ledger_entries
         (map (LedgerRecorder.row_of t) entries ++ ledger_entries s)%list s)
  else (Raise (GenericException "ledger entries do not balance"), s).
Proof. unfold LedgerRecorder.Post. by destruct (Z.eqb _ _). Qed.








(** ** Webhook deliveries *)

#[local] Instance event_saved_preorder w : PreOrder (event_saved w).
Proof.
  split.
  - intros l. by left.
  - intros l1 l2 l3 [->|(w1 & Hid1 & Hev1 & ->)] H23; [exact H23|].
    destruct H23 as [->|(w2 & Hid2 & Hev2 & ->)].
    + right. by exists w1.
    + right. exists w2. repeat split; [done | done |].
      rewrite map_map. apply map_ext. intros r.
      destruct (Nat.eqb_spec (we_id r) (we_id w1)) as [Hr|Hr].
      * rewrite Hid2, <- Hid1, Nat.eqb_refl.
        by rewrite Hr, Hid1, <- Hid2, Nat.eqb_refl.
      * done.
Qed.

Lemma moves_events_settle entries_for now w c :
  moves webhook_events (event_saved w)
    (WebhookProcessor.settle entries_for now w c).
Proof.
  unfold WebhookProcessor.settle.
  repeat first
    [ progress unfold save_intent
    | match goal with
      | |- moves _ _ (WebhookProcessor.Payment_create _) => intros ?; reflexivity
      | |- moves _ _ (LedgerRecorder.Post _ _) =>
          intros ?; rewrite Post_run; destruct (Z.eqb _ _); reflexivity
      | |- moves _ _ (WebhookProcessor.save_event ?w') =>
          intros ?; right; exists w'; repeat split
      | |- moves _ _ (if ?b then _ else _) => destruct b
      end
    | keeps_step ].
Qed.

(** Saving the event just inserted touches its row only. *)
Lemma save_new_event (w w' : WebhookEvent) (l : list WebhookEvent) :
  we_id w' = we_id w -> we_id w = List.length l ->
  Forall (fun r => (we_id r < List.length l)%nat) l ->
  map (fun r => if Nat.eqb (we_id r) (we_id w') then w' else r) (w :: l)
  = w' :: l.
Proof.
  intros Hid Hw Hlt. cbn. rewrite Hid, Nat.eqb_refl. f_equal.
  induction Hlt as [|r l' Hr _ IH]; [reflexivity|].
  cbn. rewrite IH. destruct (Nat.eqb_spec (we_id r) (we_id w)); [lia|done].
Qed.

(** The events table after one delivery: as it was when the event is
    known, else with the event's row in front. *)
Lemma process_webhook_events entries_for now d s :
  wf_events s ->
  if WebhookProcessor.event_exists (WebhookProcessor.provider_event_id d) s
  then WebhookProcessor.process_webhook entries_for now d s = (Ok "ignored", s)
  else exists w,
    we_provider_event_id w = WebhookProcessor.provider_event_id d
    /\ we_id w = List.length (webhook_events s)
    /\ webhook_events (snd (WebhookProcessor.process_webhook entries_for now d s))
       = w :: webhook_events s
    /\ settled (fst (WebhookProcessor.process_webhook entries_for now d s)) = true.
Proof.
  intros Hwf. unfold WebhookProcessor.process_webhook, bindM,
    WebhookProcessor.insert_if_absent.
  destruct (WebhookProcessor.event_exists _ s) eqn:Hex; [reflexivity|].
  set (w := {| we_id := List.length (webhook_events s);
               we_provider := WebhookProcessor.provider d;
               we_provider_event_id := WebhookProcessor.provider_event_id d;
               we_event_type := WebhookProcessor.event_type d;
               we_status := "pending"; we_error_message := "";
               we_payment_intent := None; we_payment := None |}).
  set (s1 := set_webhook_events (w :: webhook_events s) s).
  pose proof (moves_events_settle entries_for now w
                (WebhookProcessor.payload d) s1) as Hsaved.
  assert (Hsettled : settled (fst (WebhookProcessor.settle entries_for now w
                                     (WebhookProcessor.payload d) s1)) = true).
  { unfold WebhookProcessor.settle, bindM, gets.
    repeat match goal with
    | |- context [match ?x with _ => _ end] => destruct x; cbn; try reflexivity
    end. }
  destruct Hsaved as [Heq|(w' & Hid & Hev & Heq)].
  - exists w. by repeat split.
  - exists w'. rewrite Heq. cbn [webhook_events set_webhook_events s1].
    rewrite (save_new_event w w'); by repeat split.
Qed.

Lemma process_webhook_wf entries_for now d s :
  wf_events s ->
  wf_events (snd (WebhookProcessor.process_webhook entries_for now d s))
  /\ (forall e, WebhookProcessor.event_exists e s = true ->
        WebhookProcessor.event_exists e
          (snd (WebhookProcessor.process_webhook entries_for now d s)) = true)
  /\ WebhookProcessor.event_exists (WebhookProcessor.provider_event_id d)
       (snd (WebhookProcessor.process_webhook entries_for now d s)) = true.
Proof.
  intros Hwf. pose proof (process_webhook_events entries_for now d s Hwf) as H.
  destruct (WebhookProcessor.event_exists (WebhookProcessor.provider_event_id d) s)
    eqn:Hex.
  - rewrite H. by repeat split.
  - destruct H as (w & Hev & Hid & Hl & _).
    unfold wf_events, WebhookProcessor.event_exists. rewrite Hl. repeat split.
    + constructor; [cbn; lia|].
      eapply Forall_impl; [exact Hwf|]. cbn. intros; lia.
    + intros e He. cbn. rewrite orb_true_iff. by right.
    + cbn. rewrite Hev, String.eqb_refl. done.
Qed.

Lemma deliver_cons entries_for now d rest s :
  WebhookProcessor.deliver entries_for ((now, d) :: rest) s =
  (fst (WebhookProcessor.process_webhook entries_for now d s)
     :: fst (WebhookProcessor.deliver entries_for rest
               (snd (WebhookProcessor.process_webhook entries_for now d s))),
   snd (WebhookProcessor.deliver entries_for rest
          (snd (WebhookProcessor.process_webhook entries_for now d s)))).
Proof.
  cbn [WebhookProcessor.deliver].
  destruct (WebhookProcessor.process_webhook entries_for now d s) as [r s'].
  cbn [fst snd]. by destruct (WebhookProcessor.deliver entries_for rest s').
Qed.

Lemma settlements_of_cons e now d rest r rs :
  settlements_of e ((now, d) :: rest) (r :: rs) =
  ((if String.eqb (WebhookProcessor.provider_event_id d) e && settled r
    then 1 else 0) + settlements_of e rest rs)%nat.
Proof.
  unfold settlements_of. cbn.
  by destruct (String.eqb (WebhookProcessor.provider_event_id d) e && settled r).
Qed.

(** Once an event is stored, no later delivery of it is settled. *)
Lemma known_event_never_settled entries_for e ds : forall s,
  wf_events s -> WebhookProcessor.event_exists e s = true ->
  settlements_of e ds (fst (WebhookProcessor.deliver entries_for ds s)) = 0%nat.
Proof.
  induction ds as [|[now d] rest IH]; intros s Hwf Hex; [reflexivity|].
  rewrite deliver_cons. cbn [fst]. rewrite settlements_of_cons.
  destruct (process_webhook_wf entries_for now d s Hwf) as (Hwf' & Hmono & _).
  rewrite (IH _ Hwf' (Hmono e Hex)).
  destruct (String.eqb_spec (WebhookProcessor.provider_event_id d) e) as [Heq|Hne];
    [subst e|reflexivity].
  pose proof (process_webhook_events entries_for now d s Hwf) as H.
  rewrite Hex in H. rewrite H. reflexivity.
Qed.

Lemma settlements_at_most_one entries_for e ds : forall s,
  wf_events s ->
  (settlements_of e ds (fst (WebhookProcessor.deliver entries_for ds s)) <= 1)%nat.
Proof.
  induction ds as [|[now d] rest IH]; intros s Hwf; [cbn; lia|].
  rewrite deliver_cons. cbn [fst]. rewrite settlements_of_cons.
  destruct (process_webhook_wf entries_for now d s Hwf) as (Hwf' & Hmono & Hins).
  destruct (String.eqb_spec (WebhookProcessor.provider_event_id d) e) as [Heq|Hne].
  - subst e. rewrite (known_event_never_settled entries_for _ rest _ Hwf' Hins).
    destruct (settled _); cbn; lia.
  - cbn. apply IH, Hwf'.
Qed.

(** C2. Among any number of deliveries of webhook events, in any order, at
    most one delivery per [provider_event_id] is settled: the first
    delivery of an event is inserted into the event store and settled, and
    every delivery of an event already stored is answered ignored and
    leaves the database as it was. *)
Theorem webhook_settled_at_most_once
    (entries_for : Payment -> list LedgerRecorder.entry) (s : db) :
  wf_events s ->
  (forall ds event_id,
     (settlements_of event_id ds
        (fst (WebhookProcessor.deliver entries_for ds s)) <= 1)%nat)
  /\ (forall now d,
       WebhookProcessor.event_exists (WebhookProcessor.provider_event_id d) s = true ->
       WebhookProcessor.process_webhook entries_for now d s = (Ok "ignored", s))
  /\ (forall now d,
       WebhookProcessor.event_exists (WebhookProcessor.provider_event_id d) s = false ->
       settled (fst (WebhookProcessor.process_webhook entries_for now d s)) = true
       /\ WebhookProcessor.event_exists (WebhookProcessor.provider_event_id d)
            (snd (WebhookProcessor.process_webhook entries_for now d s)) = true).
Proof.
  intros Hwf. repeat split.
  - intros ds e. by apply settlements_at_most_one.
  - intros now d Hex.
    pose proof (process_webhook_events entries_for now d s Hwf) as H.
    by rewrite Hex in H.
  - pose proof (process_webhook_events entries_for now d s Hwf) as H'.
    rewrite H in H'. by destruct H' as (w & _ & _ & _ & Hs).
  - by apply process_webhook_wf.
Qed.

(** * The properties on concrete data *)

(** The repository's own tests of parse_callback. *)
Example test_mpesa_parse_callback_success :
  exists parsed,
    MPesaProvider.parse_callback Decimal_str_ints mpesa_success_callback = Ok parsed
    /\ parsed !! "success" = Some (PJson (JBool true))
    /\ parsed !! "result_code" = Some (PJson (JInt 0))
    /\ parsed !! "amount" = Some (PDecimal (Dec false 1000 0))
    /\ parsed !! "receipt_number" = Some (PJson (JStr "ABC123"))
    /\ parsed !! "phone_number" = Some (PJson (JInt 254712345678)).
Proof. eexists. split; [reflexivity|]. repeat split; reflexivity. Qed.

Example test_mpesa_parse_callback_failure :
  exists parsed,
    MPesaProvider.parse_callback Decimal_str_ints mpesa_failure_callback = Ok parsed
    /\ parsed !! "success" = Some (PJson (JBool false))
    /\ parsed !! "result_code" = Some (PJson (JInt 1032))
    /\ parsed !! "result_desc" = Some (PJson (JStr "Request cancelled by user")).
Proof. eexists. split; [reflexivity|]. repeat split; reflexivity. Qed.

Example test_airtel_parse_callback_success :
  exists parsed,
    AirtelProvider.parse_callback Decimal_str_ints airtel_success_callback = Ok parsed
    /\ parsed !! "success" = Some (PJson (JBool true))
    /\ parsed !! "status" = Some (PJson (JStr "TS"))
    /\ parsed !! "amount" = Some (PDecimal (Dec false 1000 0))
    /\ parsed !! "currency" = Some (PJson (JStr "KES"))
    /\ parsed !! "phone_number" = Some (PJson (JStr "0712345678")).
Proof. eexists. split; [reflexivity|]. repeat split; reflexivity. Qed.

Example test_airtel_parse_callback_failure :
  exists parsed,
    AirtelProvider.parse_callback Decimal_str_ints airtel_failure_callback = Ok parsed
    /\ parsed !! "success" = Some (PJson (JBool false))
    /\ parsed !! "status" = Some (PJson (JStr "TF")).
Proof. eexists. split; [reflexivity|]. repeat split; reflexivity. Qed.

(** A payload that is a list, not a dict: both adapters return the error
    dictionary. *)
Lemma parse_callback_never_raises_witness :
  (exists parsed,
     MPesaProvider.parse_callback Decimal_str_ints (JArr []) = Ok parsed
     /\ parsed !! "success" = Some (PJson (JBool false))
     /\ parsed !! "error"
        = Some (PJson (JStr "'list' object has no attribute 'get'")))
  /\ (exists parsed,
        AirtelProvider.parse_callback Decimal_str_ints (JInt 7) = Ok parsed
        /\ parsed !! "success" = Some (PJson (JBool false))
        /\ parsed !! "error"
           = Some (PJson (JStr "'int' object has no attribute 'get'"))).
Proof.
  split.
  - destruct (parse_callback_never_raises Decimal_str_ints (JArr []))
      as [(parsed & b & Hret & _ & Herr) _].
    exists parsed. split; [exact Hret|].
    exact (Herr (AttributeError "'list' object has no attribute 'get'") eq_refl).
  - destruct (parse_callback_never_raises Decimal_str_ints (JInt 7))
      as [_ (parsed & b & Hret & _ & Herr)].
    exists parsed. split; [exact Hret|].
    exact (Herr (AttributeError "'int' object has no attribute 'get'") eq_refl).
Defined.

(** The expiry sweep run three times over an expired created intent and a
    succeeded one. *)
Lemma cleanup_expired_intents_exactly_once_witness :
  let s := two_intents_db (1000 * day) in
  let now := 1000 * day + 3 * hour in
  let later := [1001 * day + 3 * hour; 1002 * day + 3 * hour] in
  (times_cancelled 1 (now :: later) s = 1%nat
   /\ option_map pi_status (payment_intents (sweep_expired (now :: later) s) !! 1%nat)
      = Some "cancelled")
  /\ (times_cancelled 0 (now :: later) s = 0%nat
      /\ option_map pi_status (payment_intents (sweep_expired (now :: later) s) !! 0%nat)
         = Some "succeeded").
Proof.
  intros s now later. split.
  - destruct (cleanup_expired_intents_exactly_once s 1 _ now later eq_refl)
      as [Hexp _].
    destruct (Hexp eq_refl) as (Hc & Hr & _).
    split; [exact Hc | exact (f_equal (option_map pi_status) Hr)].
  - destruct (cleanup_expired_intents_exactly_once s 0 _ now later eq_refl)
      as [_ Hother].
    destruct (Hother eq_refl) as (Hc & Hr).
    split; [exact Hc | exact (f_equal (option_map pi_status) Hr)].
Defined.

(** Reconciliation at 2 AM over a day holding one payment whose order is
    pending and whose webhook was processed: one mismatch, one alert; and
    over a day without payments: no alert. *)
Lemma reconcile_one_pending_order_witness :
  let s := one_payment_db (1000 * day + 12 * hour) [processed_event] in
  let now := 1001 * day + 2 * hour in
  reconcile_daily_payments now s =
    (Ok {| total_payments := 1; mismatches := 1 |},
     set_queue (queue s ++ [send_admin_alert_msg "Payment Reconciliation Alert"
         "Found 1 payment mismatches during reconciliation"])%list s)
  /\ set_queue (queue s) (snd (reconcile_daily_payments now s)) = s
  /\ snd (reconcile_daily_payments now (two_intents_db (1000 * day)))
     = two_intents_db (1000 * day).
Proof.
  intros s now.
  destruct (reconcile_one_pending_order s now) as (Hone & Htables & _).
  destruct (reconcile_one_pending_order (two_intents_db (1000 * day)) now)
    as (_ & _ & Hnone).
  split; [|split].
  - exact (Hone _ _ eq_refl eq_refl eq_refl eq_refl).
  - exact Htables.
  - exact (Hnone _ _ eq_refl eq_refl).
Defined.

(** C8, as stated, fails: when the one payment of the window has a pending
    order and no processed webhook event, the job reports two mismatches. *)
Lemma reconcile_reports_two_mismatches :
  let s := one_payment_db (1000 * day + 12 * hour) [] in
  let now := 1001 * day + 2 * hour in
  List.length (payments_of_yesterday now s) = 1%nat
  /\ map order_status (orders s) = ["pending"]
  /\ reconcile_daily_payments now s =
       (Ok {| total_payments := 1; mismatches := 2 |},
        set_queue (queue s ++ [send_admin_alert_msg "Payment Reconciliation Alert"
            "Found 2 payment mismatches during reconciliation"])%list s).
Proof. vm_compute. repeat split; reflexivity. Qed.

(** Three deliveries of the same paid notification: one settlement; the
    replay is ignored and changes nothing. *)
Lemma webhook_settled_at_most_once_witness :
  let s := two_intents_db (1000 * day) in
  let now := 1000 * day + 10 * 60000000 in
  let s1 := snd (WebhookProcessor.process_webhook double_entry now paid_delivery s) in
  let ds := [(now, paid_delivery); (now + 1, paid_delivery);
             (now + 2, paid_delivery)] in
  (settlements_of "ws_CO_2" ds
     (fst (WebhookProcessor.deliver double_entry ds s)) <= 1)%nat
  /\ settled (fst (WebhookProcessor.process_webhook double_entry now paid_delivery s))
     = true
  /\ WebhookProcessor.process_webhook double_entry (now + 1) paid_delivery s1
     = (Ok "ignored", s1).
Proof.
  intros s now s1 ds.
  assert (Hwf : wf_events s) by constructor.
  assert (Hwf1 : wf_events s1).
  { destruct (process_webhook_wf double_entry now paid_delivery s Hwf) as [H _].
    exact H. }
  destruct (webhook_settled_at_most_once double_entry s Hwf) as (Hmost & _ & Hfirst).
  destruct (webhook_settled_at_most_once double_entry s1 Hwf1) as (_ & Hreplay & _).
  split; [|split].
  - apply Hmost.
  - exact (proj1 (Hfirst now paid_delivery eq_refl)).
  - exact (Hreplay (now + 1) paid_delivery eq_refl).
Defined.


(** * Further properties of the code *)

(** ** The STK push request *)

Lemma str_upto_len (n : nat) (s : string) :
  str_len (str_upto n s) = Nat.min n (str_len s).
Proof.
  revert n. induction s as [|c s IH]; intros n; cbn [str_upto str_len]; [lia|].
  destruct (is_continuation c) eqn:Hc.
  - cbn [str_len]. rewrite Hc. apply IH.
  - destruct n as [|n]; [reflexivity|]. cbn [str_len]. rewrite Hc, IH. lia.
Qed.

Lemma str_upto_prefix (n : nat) (s : string) :
  String.prefix (str_upto n s) s = true.
Proof.
  revert n. induction s as [|c s IH]; intros n; cbn [str_upto]; [reflexivity|].
  destruct (is_continuation c).
  - cbn. destruct (ascii_dec c c); [apply IH | congruence].
  - destruct n as [|n]; [reflexivity|].
    cbn. destruct (ascii_dec c c); [apply IH | congruence].
Qed.

(** The cut falls between two characters. *)
Lemma str_upto_split (n : nat) (s : string) :
  exists rest, s = str_upto n s +:+ rest
               /\ at_boundary rest = true
               /\ str_len rest = (str_len s - n)%nat.
Proof.
  revert n. induction s as [|c s IH]; intros n; cbn [str_upto str_len].
  - exists "". by repeat split.
  - destruct (is_continuation c) eqn:Hc.
    + destruct (IH n) as (rest & Hs & Hb & Hl). exists rest.
      split; [exact (f_equal (String c) Hs) | by split].
    + destruct n as [|n].
      * exists (String c s). cbn. rewrite Hc. by repeat split.
      * destruct (IH n) as (rest & Hs & Hb & Hl). exists rest.
        split; [exact (f_equal (String c) Hs) | by split].
Qed.

Lemma str_upto_short (n : nat) (s : string) :
  (str_len s <= n)%nat -> str_upto n s = s.
Proof.
  revert n. induction s as [|c s IH]; intros n; cbn [str_upto str_len];
    [reflexivity|].
  destruct (is_continuation c).
  - intros H. by rewrite IH.
  - destruct n as [|n]; [lia|]. intros H. rewrite IH; [reflexivity | lia].
Qed.

(** X1. The STK push request carries the first 12 characters of the account
    reference and the first 13 of the description, cut between two
    characters (all of the text when it is not longer), the normalized
    number as PartyA and PhoneNumber, the shortcode as BusinessShortCode and
    PartyB, and the amount cut down to whole shillings. Characters are
    counted as Python counts them, not bytes. *)
Theorem stk_push_payload_limits (shortcode password timestamp phone_number
    account_reference transaction_desc callback_url : string) (amount : Z) :
  let p := MPesaProvider.initiate_stk_push_payload shortcode password timestamp
             phone_number amount account_reference transaction_desc
             callback_url in
  (str_len (MPesaProvider.AccountReference p)
     = Nat.min 12 (str_len account_reference)
   /\ (exists rest,
         account_reference = MPesaProvider.AccountReference p +:+ rest
         /\ at_boundary rest = true
         /\ str_len rest = (str_len account_reference - 12)%nat)
   /\ ((str_len account_reference <= 12)%nat ->
       MPesaProvider.AccountReference p = account_reference))
  /\ (str_len (MPesaProvider.TransactionDesc p)
        = Nat.min 13 (str_len transaction_desc)
      /\ (exists rest,
            transaction_desc = MPesaProvider.TransactionDesc p +:+ rest
            /\ at_boundary rest = true
            /\ str_len rest = (str_len transaction_desc - 13)%nat)
      /\ ((str_len transaction_desc <= 13)%nat ->
          MPesaProvider.TransactionDesc p = transaction_desc))
  /\ MPesaProvider.PartyA p = MPesaProvider.normalize_phone phone_number
  /\ MPesaProvider.PhoneNumber p = MPesaProvider.normalize_phone phone_number
  /\ MPesaProvider.BusinessShortCode p = shortcode
  /\ MPesaProvider.PartyB p = shortcode
  /\ amount = 100 * MPesaProvider.Amount p + Z.rem amount 100
  /\ Z.abs (Z.rem amount 100) < 100
  /\ Z.abs (100 * MPesaProvider.Amount p) <= Z.abs amount.
Proof.
  cbn zeta.
  cbn [MPesaProvider.initiate_stk_push_payload MPesaProvider.AccountReference
       MPesaProvider.TransactionDesc MPesaProvider.PartyA MPesaProvider.PartyB
       MPesaProvider.PhoneNumber MPesaProvider.BusinessShortCode
       MPesaProvider.Amount].
  split; [|split].
  - split; [apply str_upto_len|]. split; [apply str_upto_split|].
    apply str_upto_short.
  - split; [apply str_upto_len|]. split; [apply str_upto_split|].
    apply str_upto_short.
  - repeat split.
    + apply Z.quot_rem'.
    + apply Z.rem_bound_abs. lia.
    + pose proof (Z.quot_rem' amount 100) as Hq.
      destruct (Z.le_gt_cases 0 amount) as [Hpos|Hneg].
      * pose proof (Z.rem_bound_pos amount 100 Hpos ltac:(lia)). lia.
      * pose proof (Z.rem_bound_pos (- amount) 100 ltac:(lia) ltac:(lia)) as H.
        rewrite Z.rem_opp_l' in H. lia.
Qed.

Lemma stk_push_payload_limits_witness :
  let p := MPesaProvider.initiate_stk_push_payload "174379" "cGFzcw==" "20231215143022"
             "0712345678" 500000 seven_accented "Subscription renewal"
             "https://example.com/callback" in
  MPesaProvider.AccountReference p = seven_accented
  /\ String.length (MPesaProvider.AccountReference p) = 14%nat
  /\ MPesaProvider.TransactionDesc p = "Subscription "
  /\ MPesaProvider.Amount p = 5000.
Proof.
  intros p.
  destruct (stk_push_payload_limits "174379" "cGFzcw==" "20231215143022"
              "0712345678" seven_accented "Subscription renewal"
              "https://example.com/callback" 500000)
    as ((_ & _ & Hshort) & _).
  split; [apply Hshort; vm_compute; lia|].
  split; [reflexivity|]. split; reflexivity.
Defined.

(** ** Phone numbers *)

(** X2. Airtel's normalization is idempotent. M-Pesa's is idempotent on a
    number that does not start with a plus; from a number that does it only
    removes the plus, whatever follows. *)
Theorem normalize_phone_twice (phone_number : string) :
  AirtelProvider.normalize_phone (AirtelProvider.normalize_phone phone_number)
    = AirtelProvider.normalize_phone phone_number
  /\ (startswith phone_number "+" = false ->
      MPesaProvider.normalize_phone (MPesaProvider.normalize_phone phone_number)
        = MPesaProvider.normalize_phone phone_number)
  /\ MPesaProvider.normalize_phone ("+" +:+ phone_number) = phone_number.
Proof.
  split; [|split].
  - unfold AirtelProvider.normalize_phone.
    destruct (startswith phone_number "254") eqn:H1.
    + reflexivity.
    + destruct (startswith phone_number "+254") eqn:H2; [reflexivity|].
      by rewrite H1, H2.
  - intros Hplus. unfold MPesaProvider.normalize_phone. rewrite Hplus.
    destruct (startswith phone_number "0") eqn:H0; [reflexivity|].
    by rewrite H0, Hplus.
  - normalize_phone_tac.
Qed.

Lemma normalize_phone_twice_witness :
  MPesaProvider.normalize_phone (MPesaProvider.normalize_phone "0712345678")
  = "254712345678".
Proof.
  destruct (normalize_phone_twice "0712345678") as (_ & H & _).
  exact (H eq_refl).
Defined.

(** ** More of parse_callback *)

Section ParseCallbackMore.

Variable Decimal_str : json -> option Decimal.

Lemma mpesa_parse_item_not_dict parsed item :
  (forall d, item <> JObj d) ->
  exists e, MPesaProvider.parse_item Decimal_str parsed item = Raise e.
Proof.
  intros H. unfold MPesaProvider.parse_item.
  destruct item; try (eexists; reflexivity). by destruct (H fields).
Qed.

Lemma mpesa_parse_items_not_dict items : forall parsed,
  Exists (fun item => forall d, item <> JObj d) items ->
  exists e, MPesaProvider.parse_items Decimal_str parsed items = Raise e.
Proof.
  induction items as [|item rest IH]; intros parsed H; [by inversion H|].
  cbn [MPesaProvider.parse_items].
  destruct (MPesaProvider.parse_item Decimal_str parsed item) as [p1|e] eqn:Hitem;
    [|eexists; reflexivity].
  cbn. apply IH. inversion H as [? ? Hbad|]; subst; [|done].
  destruct (mpesa_parse_item_not_dict parsed item Hbad) as [e He]. congruence.
Qed.

(** X3. A callback with a nonzero result code parses to exactly the five
    fields of the callback: its metadata is never read, so nothing in it can
    make the parse fail. *)
Theorem mpesa_declined_callback_ignores_metadata
    (payload body stk : list (string * json)) :
  assoc "Body" payload = Some (JObj body) ->
  assoc "stkCallback" body = Some (JObj stk) ->
  eq_zero (default JNull (assoc "ResultCode" stk)) = false ->
  MPesaProvider.parse_callback Decimal_str (JObj payload) =
    Ok (<["success" := PJson (JBool false)]>
        (<["checkout_request_id" :=
             PJson (default JNull (assoc "CheckoutRequestID" stk))]>
        (<["merchant_request_id" :=
             PJson (default JNull (assoc "MerchantRequestID" stk))]>
        (<["result_desc" := PJson (default JNull (assoc "ResultDesc" stk))]>
        (<["result_code" := PJson (default JNull (assoc "ResultCode" stk))]>
           ∅))))).
Proof.
  intros Hbody Hstk Hcode.
  unfold MPesaProvider.parse_callback, MPesaProvider.parse_callback_body.
  cbn [py_get bind]. rewrite Hbody. cbn [from_option id py_get bind].
  rewrite Hstk. cbn [from_option id py_get bind]. rewrite Hcode. reflexivity.
Qed.

(** X4. A callback of a successful payment (result code 0) whose metadata
    list holds one item that is not an object is reported as a failure: the
    result is the error dictionary, with success false and none of the
    callback's fields. *)
Theorem mpesa_malformed_item_fails_callback
    (payload body stk metadata : list (string * json)) (items : list json) :
  assoc "Body" payload = Some (JObj body) ->
  assoc "stkCallback" body = Some (JObj stk) ->
  eq_zero (default JNull (assoc "ResultCode" stk)) = true ->
  assoc "CallbackMetadata" stk = Some (JObj metadata) ->
  assoc "Item" metadata = Some (JArr items) ->
  Exists (fun item => forall d, item <> JObj d) items ->
  exists msg,
    MPesaProvider.parse_callback Decimal_str (JObj payload) =
      Ok (<["error" := PJson (JStr msg)]>
          (<["success" := PJson (JBool false)]> ∅)).
Proof.
  intros Hbody Hstk Hcode Hmeta Hitem Hbad.
  pose proof (mpesa_body_catchable Decimal_str (JObj payload)) as Hcatch.
  unfold MPesaProvider.parse_callback.
  assert (exists e, MPesaProvider.parse_callback_body Decimal_str (JObj payload)
                    = Raise e) as [e He].
  { unfold MPesaProvider.parse_callback_body.
    cbn [py_get bind]. rewrite Hbody. cbn [from_option id py_get bind].
    rewrite Hstk. cbn [from_option id py_get bind]. rewrite Hcode, Hmeta.
    cbn [from_option id py_get bind]. rewrite Hitem. cbn [from_option id py_iter bind].
    by apply mpesa_parse_items_not_dict. }
  rewrite He. cbn [try_except]. rewrite (Hcatch e He). by eexists.
Qed.

(** X5. When Airtel's parse succeeds, ['success'] tells whether the status
    is exactly TS or SUCCESS, the amount and currency are present exactly
    when the transaction has them, and the phone number exactly when the
    callback has a non-empty subscriber. *)
Theorem airtel_parse_callback_fields
    (payload tx : list (string * json)) (parsed : gmap string pyval) :
  assoc "transaction" payload = Some (JObj tx) ->
  AirtelProvider.parse_callback_body Decimal_str (JObj payload) = Ok parsed ->
  parsed !! "success"
    = Some (PJson (JBool (eq_str (default JNull (assoc "status" tx)) "TS"
                          || eq_str (default JNull (assoc "status" tx)) "SUCCESS")))
  /\ (is_Some (parsed !! "amount") <-> is_Some (assoc "amount" tx))
  /\ (is_Some (parsed !! "currency") <-> is_Some (assoc "currency" tx))
  /\ (is_Some (parsed !! "phone_number")
      <-> truthy (default (JObj []) (assoc "subscriber" payload)) = true).
Proof.
  intros Htx. unfold AirtelProvider.parse_callback_body.
  cbn [py_get bind]. rewrite Htx. cbn [from_option id py_get bind
    AirtelProvider.contains AirtelProvider.subscript].
  destruct (assoc "amount" tx) as [amount|] eqn:Ha;
    destruct (assoc "currency" tx) as [currency|] eqn:Hc;
    destruct (truthy (default (JObj []) (assoc "subscriber" payload))) eqn:Ht;
    cbn; unfold AirtelProvider.to_Decimal;
    try destruct (Decimal_str amount); cbn;
    try destruct (default (JObj []) (assoc "subscriber" payload)); cbn;
    intros [= <-]; try discriminate;
    repeat split; intros; simplify_map_eq; try done;
    try (by eexists); try (by destruct H as [? [=]]); try (by destruct H).
Qed.

End ParseCallbackMore.

Lemma mpesa_declined_callback_ignores_metadata_witness :
  MPesaProvider.parse_callback Decimal_str_ints
    (JObj [("Body", JObj [("stkCallback", JObj
       [("ResultCode", JInt 1032);
        ("ResultDesc", JStr "Request cancelled by user");
        ("CallbackMetadata", JInt 5)])])])
  = Ok (<["success" := PJson (JBool false)]>
        (<["checkout_request_id" := PJson JNull]>
        (<["merchant_request_id" := PJson JNull]>
        (<["result_desc" := PJson (JStr "Request cancelled by user")]>
        (<["result_code" := PJson (JInt 1032)]> ∅))))).
Proof.
  exact (mpesa_declined_callback_ignores_metadata Decimal_str_ints
           [("Body", JObj [("stkCallback", JObj
              [("ResultCode", JInt 1032);
               ("ResultDesc", JStr "Request cancelled by user");
               ("CallbackMetadata", JInt 5)])])]
           [("stkCallback", JObj
              [("ResultCode", JInt 1032);
               ("ResultDesc", JStr "Request cancelled by user");
               ("CallbackMetadata", JInt 5)])]
           [("ResultCode", JInt 1032);
            ("ResultDesc", JStr "Request cancelled by user");
            ("CallbackMetadata", JInt 5)]
           eq_refl eq_refl eq_refl).
Defined.

Lemma mpesa_malformed_item_fails_callback_witness :
  exists msg,
    MPesaProvider.parse_callback Decimal_str_ints
      (JObj [("Body", JObj [("stkCallback", JObj
         [("ResultCode", JInt 0);
          ("CheckoutRequestID", JStr "ws_CO_1");
          ("CallbackMetadata", JObj [("Item", JArr
             [JObj [("Name", JStr "Amount"); ("Value", JInt 1000)];
              JStr "MpesaReceiptNumber"])])])])])
    = Ok (<["error" := PJson (JStr msg)]>
          (<["success" := PJson (JBool false)]> ∅)).
Proof.
  pose (items := [JObj [("Name", JStr "Amount"); ("Value", JInt 1000)];
                  JStr "MpesaReceiptNumber"]).
  pose (metadata := [("Item", JArr items)]).
  pose (stk := [("ResultCode", JInt 0); ("CheckoutRequestID", JStr "ws_CO_1");
                ("CallbackMetadata", JObj metadata)]).
  pose (body := [("stkCallback", JObj stk)]).
  apply (mpesa_malformed_item_fails_callback Decimal_str_ints
           [("Body", JObj body)] body stk metadata items
           eq_refl eq_refl eq_refl eq_refl eq_refl).
  apply Exists_cons_tl, Exists_cons_hd. intros d Hd. discriminate Hd.
Defined.

Lemma airtel_parse_callback_fields_witness :
  exists parsed,
    AirtelProvider.parse_callback_body Decimal_str_ints airtel_failure_callback
      = Ok parsed
    /\ parsed !! "success" = Some (PJson (JBool false))
    /\ (is_Some (parsed !! "phone_number") <-> false = true).
Proof.
  eexists. split; [reflexivity|].
  destruct (airtel_parse_callback_fields Decimal_str_ints
              [("transaction", JObj
                 [("id", JStr "test-transaction-id"); ("status", JStr "TF");
                  ("amount", JInt 1000); ("currency", JStr "KES")])]
              [("id", JStr "test-transaction-id"); ("status", JStr "TF");
               ("amount", JInt 1000); ("currency", JStr "KES")]
              _ eq_refl eq_refl) as (Hs & _ & _ & Hp).
  split; [exact Hs | exact Hp].
Defined.

(** ** OAuth tokens *)

Lemma cached_token_hit now self token expiry :
  access_token self = Some token -> token_expiry self = Some expiry ->
  truthy token = true -> now < expiry ->
  cached_token now self = Some token.
Proof.
  intros Ht He Htruthy Hlt. unfold cached_token. rewrite Ht, He, Htruthy.
  cbn. by rewrite (proj2 (Z.ltb_lt now expiry) Hlt).
Qed.

(** X6. A token M-Pesa's adapter has fetched is reused, without a request,
    by every call made less than 55 minutes later; from 55 minutes on the
    adapter asks again, and a request that fails then raises and leaves the
    cache as it was. A token that is falsy (an empty string) is asked for
    again by every call. *)
Theorem mpesa_token_reused_for_55_minutes (now : datetime) (data token : json) :
  AirtelProvider.subscript data "access_token" = Ok token ->
  let self := snd (MPesaAuth.get_access_token now (responds data) empty_cache) in
  (truthy token = true ->
     (forall later http,
        later < now + 55 * minute ->
        MPesaAuth.get_access_token later http self = (Ok token, self))
     /\ (forall later msg,
           now + 55 * minute <= later ->
           MPesaAuth.get_access_token later (request_fails msg) self =
             (Raise (GenericException ("M-Pesa authentication failed: " +:+ msg)),
              self)))
  /\ (truthy token = false ->
      forall later msg,
        MPesaAuth.get_access_token later (request_fails msg) self =
          (Raise (GenericException ("M-Pesa authentication failed: " +:+ msg)),
           self)).
Proof.
  intros Hdata. unfold MPesaAuth.get_access_token at 1. cbn [cached_token
    empty_cache access_token]. rewrite Hdata. cbn [snd].
  split.
  - intros Htruthy. split.
    + intros later http Hlater. unfold MPesaAuth.get_access_token.
      by rewrite (cached_token_hit later _ token (now + 55 * minute)).
    + intros later msg Hlater. unfold MPesaAuth.get_access_token, cached_token.
      cbn. rewrite Htruthy. cbn.
      by rewrite (proj2 (Z.ltb_ge later (now + 55 * minute)) Hlater).
  - intros Hfalsy later msg. unfold MPesaAuth.get_access_token, cached_token.
    cbn. by rewrite Hfalsy.
Qed.

Lemma mpesa_token_reused_for_55_minutes_witness :
  let data := JObj [("access_token", JStr "tok-1"); ("expires_in", JStr "3599")] in
  let self := snd (MPesaAuth.get_access_token 0 (responds data) empty_cache) in
  MPesaAuth.get_access_token (54 * minute) (request_fails "timeout") self
    = (Ok (JStr "tok-1"), self)
  /\ fst (MPesaAuth.get_access_token (55 * minute) (request_fails "timeout") self)
     = Raise (GenericException "M-Pesa authentication failed: timeout")
  /\ fst (MPesaAuth.get_access_token 1 (request_fails "timeout")
            (snd (MPesaAuth.get_access_token 0
                    (responds (JObj [("access_token", JStr "")])) empty_cache)))
     = Raise (GenericException "M-Pesa authentication failed: timeout").
Proof.
  intros data self.
  destruct (mpesa_token_reused_for_55_minutes 0 data (JStr "tok-1") eq_refl)
    as [Htruthy _].
  destruct (Htruthy eq_refl) as [Hhit Hmiss].
  destruct (mpesa_token_reused_for_55_minutes 0
              (JObj [("access_token", JStr "")]) (JStr "") eq_refl)
    as [_ Hfalsy].
  split; [|split].
  - apply Hhit. reflexivity.
  - exact (f_equal fst (Hmiss (55 * minute) "timeout" ltac:(discriminate))).
  - exact (f_equal fst (Hfalsy eq_refl 1 "timeout")).
Defined.

Section AirtelToken.

Variable float_seconds_less_300 : spec_float -> option Z.

(** X7. Airtel's adapter keeps a token for the lifetime the provider states
    as a whole number of seconds, less 300 seconds (3600 seconds when the
    response states none): every call before now + expires_in - 300 seconds
    reuses the token without a request, every call at or after it makes a
    request; with a lifetime of 300 seconds or less that is every later
    call. When that expiry does not fit a timedelta or a datetime, the call
    that fetched the token raises OverflowError after it has stored the
    token, so the token stays without expiry and no later call reuses it. *)
Theorem airtel_token_margin (now : datetime) (fields : list (string * json))
    (token : json) (z : Z) :
  assoc "access_token" fields = Some token ->
  truthy token = true ->
  default (JInt 3600) (assoc "expires_in" fields) = JInt z ->
  let r := AirtelAuth.get_access_token float_seconds_less_300 now
             (responds (JObj fields)) empty_cache in
  let expiry := now + (z - 300) * second in
  let fits := Z.abs ((z - 300) / 86400) <= 999999999
              /\ datetime_min <= expiry <= datetime_max in
  (fits ->
     fst r = Ok token
     /\ (forall later http,
           later < expiry ->
           AirtelAuth.get_access_token float_seconds_less_300 later http (snd r)
           = (Ok token, snd r))
     /\ (forall later msg,
           expiry <= later ->
           AirtelAuth.get_access_token float_seconds_less_300 later
             (request_fails msg) (snd r)
           = (Raise (GenericException ("Airtel authentication failed: " +:+ msg)),
              snd r)))
  /\ (~ fits ->
      (exists m, fst r = Raise (OverflowError m))
      /\ snd r = {| access_token := Some token; token_expiry := None |}
      /\ (forall later msg,
            AirtelAuth.get_access_token float_seconds_less_300 later
              (request_fails msg) (snd r)
            = (Raise (GenericException ("Airtel authentication failed: " +:+ msg)),
               snd r))).
Proof.
  intros Htoken Htruthy Hz r expiry fits.
  assert (Hr : r =
    if Z.leb (Z.abs ((z - 300) / 86400)) 999999999 then
      if Z.leb datetime_min expiry && Z.leb expiry datetime_max then
        (Ok token, {| access_token := Some token; token_expiry := Some expiry |})
      else (Raise (OverflowError "date value out of range"),
            {| access_token := Some token; token_expiry := None |})
    else (Raise (OverflowError "days; must have magnitude <= 999999999"),
          {| access_token := Some token; token_expiry := None |})).
  { unfold r, AirtelAuth.get_access_token.
    cbn [cached_token empty_cache access_token token_expiry
         AirtelProvider.subscript].
    rewrite Htoken. cbn [py_get bind]. rewrite Hz.
    cbn [AirtelAuth.expiry_margin].
    destruct (Z.leb (Z.abs ((z - 300) / 86400)) 999999999); [|reflexivity].
    cbn [bind]. unfold datetime_add. fold expiry.
    by destruct (Z.leb datetime_min expiry && Z.leb expiry datetime_max). }
  split.
  - intros [Hdays [Hmin Hmax]].
    rewrite (proj2 (Z.leb_le _ _) Hdays) in Hr.
    rewrite (proj2 (Z.leb_le _ _) Hmin), (proj2 (Z.leb_le _ _) Hmax) in Hr.
    rewrite Hr. cbn [fst snd andb]. split; [reflexivity|]. split.
    + intros later http Hlater. unfold AirtelAuth.get_access_token.
      by rewrite (cached_token_hit later _ token expiry).
    + intros later msg Hlater. unfold AirtelAuth.get_access_token, cached_token.
      cbn [access_token token_expiry]. rewrite Htruthy. cbn [andb].
      by rewrite (proj2 (Z.ltb_ge later expiry) Hlater).
  - intros Hnot.
    assert (Hcache : r = (fst r, {| access_token := Some token;
                                    token_expiry := None |})
                     /\ exists m, fst r = Raise (OverflowError m)).
    { rewrite Hr.
      destruct (Z.leb_spec (Z.abs ((z - 300) / 86400)) 999999999) as [Hdays|_];
        [|split; [reflexivity | by eexists]].
      destruct (Z.leb_spec datetime_min expiry) as [Hmin|_];
        [|split; [reflexivity | by eexists]].
      destruct (Z.leb_spec expiry datetime_max) as [Hmax|_];
        [|split; [reflexivity | by eexists]].
      exfalso. apply Hnot. unfold fits. lia. }
    destruct Hcache as [Hcache Hraise].
    split; [exact Hraise|]. rewrite Hcache. cbn [snd].
    split; [reflexivity|]. intros later msg. reflexivity.
Qed.

End AirtelToken.

Lemma airtel_token_margin_witness :
  let no_floats := fun _ : spec_float => None in
  let now := 20000 * day in
  let self0 := snd (AirtelAuth.get_access_token no_floats now
                      (responds (JObj [("access_token", JStr "tok-1")]))
                      empty_cache) in
  let self1 := snd (AirtelAuth.get_access_token no_floats now
                      (responds (JObj [("access_token", JStr "tok-1");
                                       ("expires_in", JInt 7200)]))
                      empty_cache) in
  let r2 := AirtelAuth.get_access_token no_floats now
              (responds (JObj [("access_token", JStr "tok-1");
                               ("expires_in", JInt 1000000000000)]))
              empty_cache in
  AirtelAuth.get_access_token no_floats (now + 54 * minute)
    (request_fails "timeout") self0 = (Ok (JStr "tok-1"), self0)
  /\ AirtelAuth.get_access_token no_floats (now + 114 * minute)
       (request_fails "timeout") self1 = (Ok (JStr "tok-1"), self1)
  /\ fst (AirtelAuth.get_access_token no_floats (now + 115 * minute)
            (request_fails "timeout") self1)
     = Raise (GenericException "Airtel authentication failed: timeout")
  /\ (exists m, fst r2 = Raise (OverflowError m))
  /\ snd r2 = {| access_token := Some (JStr "tok-1"); token_expiry := None |}.
Proof.
  intros no_floats now self0 self1 r2.
  destruct (airtel_token_margin no_floats now [("access_token", JStr "tok-1")]
              (JStr "tok-1") 3600 eq_refl eq_refl eq_refl) as [Hdefault _].
  destruct (airtel_token_margin no_floats now
              [("access_token", JStr "tok-1"); ("expires_in", JInt 7200)]
              (JStr "tok-1") 7200 eq_refl eq_refl eq_refl) as [Hlong _].
  destruct (airtel_token_margin no_floats now
              [("access_token", JStr "tok-1");
               ("expires_in", JInt 1000000000000)]
              (JStr "tok-1") 1000000000000 eq_refl eq_refl eq_refl)
    as [_ Hover].
  destruct Hdefault as (_ & Hhit0 & _); [vm_compute; intuition discriminate|].
  destruct Hlong as (_ & Hhit1 & Hmiss1); [vm_compute; intuition discriminate|].
  destruct Hover as (Hraise & Hcache & _);
    [vm_compute; intros [_ [_ H]]; by apply H|].
  split; [apply Hhit0; reflexivity|].
  split; [apply Hhit1; reflexivity|].
  split; [exact (f_equal fst (Hmiss1 (now + 115 * minute) "timeout"
                                ltac:(discriminate)))|].
  split; [exact Hraise | exact Hcache].
Defined.

(** ** Quiet hours *)

(** X8. When a user's quiet hours start before they end on the clock (13:00
    to 14:00, say), every time of day counts as quiet, so every notification
    to that user is skipped. When they start after they end (22:00 to
    07:00), the quiet times are those from the start to 23:59:59 and those
    up to the end; the last second of the day, after 23:59:59, is not
    quiet. *)
Theorem quiet_hours_windows (quiet_start quiet_end current_time : Z) :
  (quiet_start < quiet_end ->
     in_quiet_hours true (Some quiet_start) (Some quiet_end) current_time = true)
  /\ (quiet_end <= quiet_start -> 0 <= current_time ->
      (in_quiet_hours true (Some quiet_start) (Some quiet_end) current_time = true
       <-> (quiet_start <= current_time <= time_of_day 23 59 59
            \/ current_time <= quiet_end))).
Proof.
  unfold in_quiet_hours, time_of_day, hour, minute, second. split.
  - intros Hlt. rewrite (proj2 (Z.ltb_lt _ _) Hlt).
    apply orb_true_iff. rewrite Z.geb_le, Z.leb_le. lia.
  - intros Hle Hpos. rewrite (proj2 (Z.ltb_ge _ _) Hle).
    rewrite orb_true_iff, !andb_true_iff, !Z.leb_le. lia.
Qed.

Lemma quiet_hours_windows_witness :
  in_quiet_hours true (Some (time_of_day 13 0 0)) (Some (time_of_day 14 0 0))
    (time_of_day 9 30 0) = true
  /\ (in_quiet_hours true (Some (time_of_day 22 0 0)) (Some (time_of_day 7 0 0))
        (time_of_day 23 59 59 + 500000) = true
      <-> (time_of_day 22 0 0 <= time_of_day 23 59 59 + 500000
             <= time_of_day 23 59 59
           \/ time_of_day 23 59 59 + 500000 <= time_of_day 7 0 0)).
Proof.
  split.
  - destruct (quiet_hours_windows (time_of_day 13 0 0) (time_of_day 14 0 0)
                (time_of_day 9 30 0)) as [H _].
    apply H. reflexivity.
  - destruct (quiet_hours_windows (time_of_day 22 0 0) (time_of_day 7 0 0)
                (time_of_day 23 59 59 + 500000)) as [_ H].
    apply H; discriminate.
Defined.

(** ** Subscription.needs_renewal *)

(** X9. The renewal sweep selects exactly the subscriptions whose
    needs_renewal() holds at the time of the sweep. *)
Theorem renewal_sweep_selects_needs_renewal (now : datetime) (s : db) :
  List.filter (is_due now) (subscriptions s)
  = List.filter (needs_renewal now) (subscriptions s).
Proof.
  apply List.filter_ext. intros subscription. unfold is_due, needs_renewal.
  rewrite Z.geb_leb. apply andb_comm.
Qed.

(** ** More of initiate_subscription_payment *)

(** After [obj.save()], [get(id=obj.id)] returns the object saved. *)
Lemma find_saved {A : Type} (key : A -> nat) (l : list A) (id : nat) (a a' : A) :
  List.find (fun r => Nat.eqb (key r) id) l = Some a ->
  key a' = id ->
  List.find (fun r => Nat.eqb (key r) id)
    (map (fun r => if Nat.eqb (key r) (key a') then a' else r) l) = Some a'.
Proof.
  intros Hfind <-. induction l as [|r l IH]; [discriminate|].
  cbn in *. destruct (Nat.eqb (key r) (key a')) eqn:Hr.
  - by rewrite Nat.eqb_refl.
  - rewrite Hr. by apply IH.
Qed.

Lemma find_key {A : Type} (key : A -> nat) (l : list A) (id : nat) (a : A) :
  List.find (fun r => Nat.eqb (key r) id) l = Some a -> key a = id.
Proof.
  intros H. apply List.find_some in H as [_ H]. by apply Nat.eqb_eq.
Qed.

(** X10. When the user has no active default payment method, the task
    returns normally without creating an intent and without calling the
    provider: the attempt becomes failed with the message 'No default
    payment method' and the subscription becomes past_due, whatever its
    status was. *)
Theorem initiate_without_payment_method (id : nat) (now : datetime)
    (uuid_hex8 : string) (provider : provider_outcome) (s : db)
    (attempt : SubscriptionRenewalAttempt) (subscription : Subscription) :
  List.find (fun a => Nat.eqb (ra_id a) id) (renewal_attempts s) = Some attempt ->
  List.find (fun a => Nat.eqb (sub_id a) (ra_subscription attempt))
    (subscriptions s) = Some subscription ->
  (forall o, ra_order attempt = Some o ->
     is_Some (List.find (fun a => Nat.eqb (order_id a) o) (orders s))) ->
  List.filter (fun m => Nat.eqb (pm_user m) (sub_user subscription)
                        && pm_is_default m && pm_is_active m)
    (payment_methods s) = [] ->
  let s' := snd (initiate_subscription_payment id now uuid_hex8 provider s) in
  fst (initiate_subscription_payment id now uuid_hex8 provider s) = Ok tt
  /\ List.find (fun a => Nat.eqb (ra_id a) id) (renewal_attempts s')
     = Some (attempt_with "failed" "No default payment method"
               (ra_payment_intent attempt) attempt)
  /\ status_of (ra_subscription attempt) s' = "past_due"
  /\ payment_intents s' = payment_intents s
  /\ queue s' = queue s.
Proof.
  intros Hattempt Hsub Horder Hnone.
  assert (Hrun : initiate_subscription_payment id now uuid_hex8 provider s =
    (Ok tt,
     set_subscriptions
       (map (fun r => if Nat.eqb (sub_id r) (sub_id subscription)
                      then subscription_with "past_due" (sub_ended_at subscription)
                             subscription
                      else r) (subscriptions s))
       (set_renewal_attempts
          (map (fun r => if Nat.eqb (ra_id r) (ra_id attempt)
                         then attempt_with "failed" "No default payment method"
                                (ra_payment_intent attempt) attempt
                         else r) (renewal_attempts s)) s))).
  { unfold initiate_subscription_payment, try_exceptM,
      initiate_subscription_payment_body, bindM, get_attempt.
    rewrite Hattempt. unfold get_subscription. rewrite Hsub.
    unfold get_order_opt.
    destruct (ra_order attempt) as [o|] eqn:Ho.
    - destruct (Horder o eq_refl) as [ord Hord].
      unfold bindM, get_order. rewrite Hord. cbn. rewrite Hnone. reflexivity.
    - cbn. rewrite Hnone. reflexivity. }
  cbv zeta. rewrite Hrun. cbn [fst snd]. repeat split.
  - apply (find_saved ra_id (renewal_attempts s) id attempt
             (attempt_with "failed" "No default payment method"
                (ra_payment_intent attempt) attempt)); [done|].
    apply (find_key ra_id _ _ _ Hattempt).
  - unfold status_of.
    pose proof (find_key sub_id _ _ _ Hsub) as Hkey.
    pose proof (find_saved sub_id (subscriptions s) (ra_subscription attempt)
                  subscription
                  (subscription_with "past_due" (sub_ended_at subscription)
                     subscription) Hsub Hkey) as Hsaved.
    cbn in Hsaved |- *. by rewrite Hsaved.
Qed.

Lemma initiate_without_payment_method_witness :
  let s := failed_renewal_db (1000 * day) [] in
  let s' := snd (initiate_subscription_payment 0 (1000 * day) "a1b2c3d4"
                   stk_push_accepted s) in
  status_of 0 s' = "past_due" /\ payment_intents s' = [].
Proof.
  intros s s'.
  destruct (initiate_without_payment_method 0 (1000 * day) "a1b2c3d4"
              stk_push_accepted s _ _ eq_refl eq_refl)
    as (_ & _ & Hst & Hint & _).
  - intros o [= <-]. by eexists.
  - reflexivity.
  - split; [exact Hst | exact Hint].
Defined.

Section InitiateWithMethod.

Variables (id : nat) (now : datetime) (uuid_hex8 : string) (s : db).
Variables (attempt : SubscriptionRenewalAttempt) (subscription : Subscription).
Variables (order : Order) (payment_method : PaymentMethod).

Hypothesis Hattempt :
  List.find (fun a => Nat.eqb (ra_id a) id) (renewal_attempts s) = Some attempt.
Hypothesis Hsubscription :
  List.find (fun a => Nat.eqb (sub_id a) (ra_subscription attempt))
    (subscriptions s) = Some subscription.
Hypothesis Horder_id : ra_order attempt = Some (order_id order).
Hypothesis Horder :
  List.find (fun a => Nat.eqb (order_id a) (order_id order)) (orders s)
  = Some order.
Hypothesis Hmethod :
  head (List.filter (fun m => Nat.eqb (pm_user m) (sub_user subscription)
                              && pm_is_default m && pm_is_active m)
          (payment_methods s)) = Some payment_method.
Hypothesis Hkey :
  existsb (fun q => String.eqb (pi_idempotency_key q)
             (idempotency_key_of (sub_id subscription)
                (ra_attempt_number attempt) uuid_hex8))
    (payment_intents s) = false.

(** The state once the intent is created and the attempt saved as
    processing. *)
Lemma initiate_body_run provider :
  let p := created_intent (List.length (payment_intents s)) now uuid_hex8
             attempt subscription order payment_method in
  let s1 := set_renewal_attempts
              (map (fun r => if Nat.eqb (ra_id r) (ra_id attempt)
                             then attempt_with "processing"
                                    (ra_error_message attempt)
                                    (Some (pi_id p)) attempt
                             else r) (renewal_attempts s))
              (set_payment_intents (p :: payment_intents s) s) in
  initiate_subscription_payment_body id now uuid_hex8 provider s =
    initiate_with_provider (pm_method_type payment_method) provider p s1.
Proof.
  unfold initiate_subscription_payment_body, bindM at 1, get_attempt.
  rewrite Hattempt. unfold bindM at 1, get_subscription. rewrite Hsubscription.
  unfold bindM at 1, get_order_opt. rewrite Horder_id.
  unfold bindM at 1, get_order. rewrite Horder. cbn [ret].
  unfold bindM at 1, gets. rewrite Hmethod.
  unfold bindM at 1, lift. unfold bindM at 1, PaymentIntent_create.
  cbn [pi_idempotency_key]. rewrite Hkey.
  unfold bindM at 1, save_attempt, modify.
  cbn [renewal_attempts set_payment_intents]. reflexivity.
Qed.

Lemma find_attempt_processing :
  let p := created_intent (List.length (payment_intents s)) now uuid_hex8
             attempt subscription order payment_method in
  List.find (fun a => Nat.eqb (ra_id a) id)
    (map (fun r => if Nat.eqb (ra_id r) (ra_id attempt)
                   then attempt_with "processing" (ra_error_message attempt)
                          (Some (pi_id p)) attempt
                   else r) (renewal_attempts s))
  = Some (attempt_with "processing" (ra_error_message attempt)
            (Some (pi_id p)) attempt).
Proof.
  intros p.
  apply (find_saved ra_id (renewal_attempts s) id attempt
           (attempt_with "processing" (ra_error_message attempt)
              (Some (pi_id p)) attempt) Hattempt).
  apply (find_key ra_id _ _ _ Hattempt).
Qed.

(** X11. When the user pays by M-Pesa or Airtel and the provider call
    raises, the task raises the same exception again; the intent it created
    stays, in status created; the attempt becomes failed with the
    exception's message; the subscription is left as it was (it is not put
    to past_due). The first expiry sweep later than an hour after the run
    cancels that intent. *)
Theorem failed_push_leaves_intent_to_the_sweep (msg : string) :
  status_in (pm_method_type payment_method) ["mpesa"; "airtel"] = true ->
  let p := created_intent (List.length (payment_intents s)) now uuid_hex8
             attempt subscription order payment_method in
  let r := initiate_subscription_payment id now uuid_hex8
             (provider_raises msg) s in
  fst r = Raise (GenericException msg)
  /\ payment_intents (snd r) = p :: payment_intents s
  /\ List.find (fun a => Nat.eqb (ra_id a) id) (renewal_attempts (snd r))
     = Some (attempt_with "failed" msg (Some (pi_id p)) attempt)
  /\ subscriptions (snd r) = subscriptions s
  /\ (forall later,
        now + 1 * hour < later ->
        payment_intents (snd (cleanup_expired_intents later (snd r)))
        = cancel_expired p
            :: payment_intents (snd (cleanup_expired_intents later s))).
Proof.
  intros Htype p r.
  assert (Hbody : initiate_subscription_payment_body id now uuid_hex8
                    (provider_raises msg) s =
    (Raise (GenericException msg),
     set_renewal_attempts
       (map (fun r => if Nat.eqb (ra_id r) (ra_id attempt)
                      then attempt_with "processing" (ra_error_message attempt)
                             (Some (pi_id p)) attempt
                      else r) (renewal_attempts s))
       (set_payment_intents (p :: payment_intents s) s))).
  { rewrite initiate_body_run. unfold status_in in Htype. cbn in Htype.
    unfold initiate_with_provider.
    destruct (String.eqb (pm_method_type payment_method) "mpesa");
      [reflexivity|].
    destruct (String.eqb (pm_method_type payment_method) "airtel");
      [reflexivity | discriminate]. }
  assert (Hr : r =
    (Raise (GenericException msg),
     set_renewal_attempts
       (map (fun r => if Nat.eqb (ra_id r) (ra_id attempt)
                      then attempt_with "failed" msg (Some (pi_id p)) attempt
                      else r)
          (map (fun r => if Nat.eqb (ra_id r) (ra_id attempt)
                         then attempt_with "processing" (ra_error_message attempt)
                                (Some (pi_id p)) attempt
                         else r) (renewal_attempts s)))
       (set_payment_intents (p :: payment_intents s) s))).
  { unfold r, initiate_subscription_payment, try_exceptM. rewrite Hbody.
    cbn [is_Exception]. unfold initiate_subscription_payment_handler, get_attempt.
    cbn [renewal_attempts set_renewal_attempts].
    pose proof find_attempt_processing as Hfind. cbv zeta in Hfind.
    fold p in Hfind. rewrite Hfind. reflexivity. }
  rewrite Hr. cbn [fst snd]. repeat split.
  - cbn [renewal_attempts set_renewal_attempts].
    apply (find_saved ra_id _ id
             (attempt_with "processing" (ra_error_message attempt)
                (Some (pi_id p)) attempt)
             (attempt_with "failed" msg (Some (pi_id p)) attempt)
             find_attempt_processing).
    apply (find_key ra_id _ _ _ Hattempt).
  - intros later Hlater. rewrite !cleanup_expired_intents_run.
    assert (Hexp : is_expired later p = true).
    { unfold is_expired. cbn. apply Z.ltb_lt. exact Hlater. }
    cbn [snd payment_intents set_payment_intents set_renewal_attempts map].
    by rewrite Hexp.
Qed.

(** X12. When the default payment method is neither M-Pesa nor Airtel (a
    card stub), the task calls no provider and returns normally: the result
    is the same whatever the provider would do. The intent is created for
    provider mpesa with next action collect and stays in status created;
    the attempt stays processing. *)
Theorem initiate_with_other_method (provider : provider_outcome) :
  status_in (pm_method_type payment_method) ["mpesa"; "airtel"] = false ->
  let p := created_intent (List.length (payment_intents s)) now uuid_hex8
             attempt subscription order payment_method in
  let r := initiate_subscription_payment id now uuid_hex8 provider s in
  fst r = Ok tt
  /\ payment_intents (snd r) = p :: payment_intents s
  /\ pi_provider p = "mpesa" /\ pi_next_action p = "collect"
  /\ pi_status p = "created"
  /\ List.find (fun a => Nat.eqb (ra_id a) id) (renewal_attempts (snd r))
     = Some (attempt_with "processing" (ra_error_message attempt)
               (Some (pi_id p)) attempt)
  /\ subscriptions (snd r) = subscriptions s.
Proof.
  intros Htype p r.
  assert (Hr : r =
    (Ok tt,
     set_renewal_attempts
       (map (fun r => if Nat.eqb (ra_id r) (ra_id attempt)
                      then attempt_with "processing" (ra_error_message attempt)
                             (Some (pi_id p)) attempt
                      else r) (renewal_attempts s))
       (set_payment_intents (p :: payment_intents s) s))).
  { unfold r, initiate_subscription_payment, try_exceptM.
    rewrite initiate_body_run. unfold status_in in Htype. cbn in Htype.
    unfold initiate_with_provider.
    destruct (String.eqb (pm_method_type payment_method) "mpesa");
      [discriminate|].
    destruct (String.eqb (pm_method_type payment_method) "airtel");
      [discriminate | reflexivity]. }
  rewrite Hr. cbn [fst snd]. unfold status_in in Htype. cbn in Htype.
  repeat split.
  - unfold p, created_intent, status_in. cbn. by rewrite Htype.
  - unfold p, created_intent. cbn.
    by destruct (String.eqb (pm_method_type payment_method) "mpesa").
  - apply find_attempt_processing.
Qed.

(** What one run leaves when its provider part raises, does nothing, or
    saves the intent. *)
Lemma initiate_run_raises provider e :
  let p := created_intent (List.length (payment_intents s)) now uuid_hex8
             attempt subscription order payment_method in
  let s1 := set_renewal_attempts
              (map (fun r => if Nat.eqb (ra_id r) (ra_id attempt)
                             then attempt_with "processing"
                                    (ra_error_message attempt)
                                    (Some (pi_id p)) attempt
                             else r) (renewal_attempts s))
              (set_payment_intents (p :: payment_intents s) s) in
  initiate_with_provider (pm_method_type payment_method) provider p s1
    = (Raise e, s1) ->
  is_Exception e = true ->
  initiate_subscription_payment id now uuid_hex8 provider s =
    (Raise e,
     set_renewal_attempts
       (map (fun r => if Nat.eqb (ra_id r) (ra_id attempt)
                      then attempt_with "failed" (exn_str e) (Some (pi_id p))
                             attempt
                      else r) (renewal_attempts s1)) s1).
Proof.
  intros p s1 Hrun Hcatch.
  unfold initiate_subscription_payment, try_exceptM.
  rewrite initiate_body_run. fold p. fold s1. rewrite Hrun, Hcatch.
  unfold initiate_subscription_payment_handler, get_attempt.
  pose proof find_attempt_processing as Hfind. cbv zeta in Hfind.
  fold p in Hfind.
  unfold s1 at 1. cbn [renewal_attempts set_renewal_attempts].
  rewrite Hfind. reflexivity.
Qed.

Lemma initiate_run_saves provider t c m :
  let p := created_intent (List.length (payment_intents s)) now uuid_hex8
             attempt subscription order payment_method in
  let s1 := set_renewal_attempts
              (map (fun r => if Nat.eqb (ra_id r) (ra_id attempt)
                             then attempt_with "processing"
                                    (ra_error_message attempt)
                                    (Some (pi_id p)) attempt
                             else r) (renewal_attempts s))
              (set_payment_intents (p :: payment_intents s) s) in
  let p' := intent_with "requires_action" "" t c m p in
  initiate_with_provider (pm_method_type payment_method) provider p s1
    = save_intent p' s1 ->
  wf_intents s ->
  initiate_subscription_payment id now uuid_hex8 provider s =
    (Ok tt, set_payment_intents (p' :: payment_intents s) s1).
Proof.
  intros p s1 p' Hrun [_ Hlt].
  unfold initiate_subscription_payment, try_exceptM.
  rewrite initiate_body_run. fold p. fold s1. rewrite Hrun.
  unfold save_intent, modify. do 2 f_equal.
  unfold s1 at 1. cbn [payment_intents set_renewal_attempts set_payment_intents].
  by apply save_keeps_keys.
Qed.

Lemma find_attempt_failed msg :
  let p := created_intent (List.length (payment_intents s)) now uuid_hex8
             attempt subscription order payment_method in
  List.find (fun a => Nat.eqb (ra_id a) id)
    (map (fun r => if Nat.eqb (ra_id r) (ra_id attempt)
                   then attempt_with "failed" msg (Some (pi_id p)) attempt
                   else r)
       (map (fun r => if Nat.eqb (ra_id r) (ra_id attempt)
                      then attempt_with "processing" (ra_error_message attempt)
                             (Some (pi_id p)) attempt
                      else r) (renewal_attempts s)))
  = Some (attempt_with "failed" msg (Some (pi_id p)) attempt).
Proof.
  intros p.
  apply (find_saved ra_id _ id
           (attempt_with "processing" (ra_error_message attempt)
              (Some (pi_id p)) attempt)
           (attempt_with "failed" msg (Some (pi_id p)) attempt)
           find_attempt_processing).
  apply (find_key ra_id _ _ _ Hattempt).
Qed.

(** X13. When the provider's response is a JSON object that carries the
    references, the task returns normally and the intent is in status
    requires_action. For M-Pesa the references are CheckoutRequestID and
    MerchantRequestID, both present and not null; for Airtel it is the id
    under data, where a missing data or a missing id gives the empty string
    and data must be an object. A reference that is a string is stored as it
    is, any other value as Python prints it. The intent carries the order's
    total as amount and an expiry one hour after the run; the attempt is
    processing and linked to the intent; the subscription is left as it
    was; the intents table stays well formed. The references are taken
    within the length of their columns. *)
Theorem initiate_accepted (fields : list (string * json)) (str : json -> string) :
  wf_intents s ->
  let p := created_intent (List.length (payment_intents s)) now uuid_hex8
             attempt subscription order payment_method in
  let r := initiate_subscription_payment id now uuid_hex8
             (provider_returns (JObj fields) str) s in
  let text := fun v => match v with JStr t => t | _ => str v end in
  let accepted := fun p' =>
    fst r = Ok tt
    /\ payment_intents (snd r) = p' :: payment_intents s
    /\ pi_status p' = "requires_action"
    /\ pi_amount p' = order_total order
    /\ pi_expires_at p' = now + 1 * hour
    /\ List.find (fun a => Nat.eqb (ra_id a) id) (renewal_attempts (snd r))
       = Some (attempt_with "processing" (ra_error_message attempt)
                 (Some (pi_id p')) attempt)
    /\ subscriptions (snd r) = subscriptions s
    /\ wf_intents (snd r) in
  (pm_method_type payment_method = "mpesa" ->
   forall checkout merchant,
     assoc "CheckoutRequestID" fields = Some checkout ->
     assoc "MerchantRequestID" fields = Some merchant ->
     checkout <> JNull -> merchant <> JNull ->
     (str_len (text checkout) <= 100)%nat ->
     (str_len (text merchant) <= 100)%nat ->
     accepted (intent_with "requires_action" "" ""
                 (text checkout) (text merchant) p))
  /\ (pm_method_type payment_method = "airtel" ->
      forall data transaction_id,
        default (JObj []) (assoc "data" fields) = JObj data ->
        default (JStr "") (assoc "id" data) = transaction_id ->
        transaction_id <> JNull ->
        (str_len (text transaction_id) <= 100)%nat ->
        accepted (intent_with "requires_action" "" (text transaction_id)
                    "" "" p)).
Proof.
  intros Hwf p r text accepted.
  assert (Hall : forall t c m,
    initiate_with_provider (pm_method_type payment_method)
      (provider_returns (JObj fields) str) p
      (set_renewal_attempts
         (map (fun r => if Nat.eqb (ra_id r) (ra_id attempt)
                        then attempt_with "processing" (ra_error_message attempt)
                               (Some (pi_id p)) attempt
                        else r) (renewal_attempts s))
         (set_payment_intents (p :: payment_intents s) s))
    = save_intent (intent_with "requires_action" "" t c m p)
        (set_renewal_attempts
           (map (fun r => if Nat.eqb (ra_id r) (ra_id attempt)
                          then attempt_with "processing"
                                 (ra_error_message attempt)
                                 (Some (pi_id p)) attempt
                          else r) (renewal_attempts s))
           (set_payment_intents (p :: payment_intents s) s)) ->
    accepted (intent_with "requires_action" "" t c m p)).
  { intros t c m Hrun. unfold accepted.
    assert (Hwf' : wf_intents (snd r)) by (by apply initiate_keeps_wf).
    pose proof (initiate_run_saves _ t c m Hrun Hwf) as Hr.
    fold r in Hr. fold p in Hr. rewrite Hr in Hwf' |- *.
    cbn [fst snd] in Hwf' |- *.
    split; [reflexivity|]. split; [reflexivity|].
    split; [reflexivity|]. split; [reflexivity|]. split; [reflexivity|].
    split; [apply find_attempt_processing|]. split; [reflexivity | exact Hwf']. }
  split.
  - intros Hmt checkout merchant Hc Hm Hcn Hmn _ _. apply Hall.
    unfold initiate_with_provider. rewrite Hmt.
    unfold call_provider, bindM, lift, ret, py_get. cbn [String.eqb Ascii.eqb
      Bool.eqb fst snd]. rewrite Hc, Hm. cbn [from_option Datatypes.id].
    unfold CharField. by destruct checkout, merchant.
  - intros Hmt data transaction_id Hd Hi Hn _. apply Hall.
    unfold initiate_with_provider. rewrite Hmt.
    unfold call_provider, bindM, lift, ret. cbn [String.eqb Ascii.eqb
      Bool.eqb fst snd py_get]. rewrite Hd. cbn [py_get]. rewrite Hi.
    unfold CharField. by destruct transaction_id.
Qed.

(** X23. When the provider's response lacks the references, the task
    fails after it has created the intent. For M-Pesa, a response that is
    not a JSON object raises AttributeError at the first [.get], and one
    without CheckoutRequestID or MerchantRequestID (or with null there)
    raises IntegrityError at [payment_intent.save()]. For Airtel, a
    response or a data that is not an object raises AttributeError, and a
    null id raises IntegrityError. In each case the task raises that
    exception again, the intent stays in status created (what was assigned
    to it is not saved), the attempt becomes failed with the exception's
    message, and the subscription is left as it was. *)
Theorem initiate_reply_without_references (response : json)
    (str : json -> string) :
  let p := created_intent (List.length (payment_intents s)) now uuid_hex8
             attempt subscription order payment_method in
  let r := initiate_subscription_payment id now uuid_hex8
             (provider_returns response str) s in
  let fails := fun e =>
    fst r = Raise e
    /\ payment_intents (snd r) = p :: payment_intents s
    /\ pi_status p = "created"
    /\ List.find (fun a => Nat.eqb (ra_id a) id) (renewal_attempts (snd r))
       = Some (attempt_with "failed" (exn_str e) (Some (pi_id p)) attempt)
    /\ subscriptions (snd r) = subscriptions s in
  (pm_method_type payment_method = "mpesa" ->
     ((forall fields, response <> JObj fields) ->
      exists msg, fails (AttributeError msg))
     /\ (forall fields,
           response = JObj fields ->
           default JNull (assoc "CheckoutRequestID" fields) = JNull
           \/ default JNull (assoc "MerchantRequestID" fields) = JNull ->
           exists msg, fails (IntegrityError msg)))
  /\ (pm_method_type payment_method = "airtel" ->
      ((forall fields, response <> JObj fields) ->
       exists msg, fails (AttributeError msg))
      /\ (forall fields,
            response = JObj fields ->
            (forall data, default (JObj []) (assoc "data" fields) <> JObj data) ->
            exists msg, fails (AttributeError msg))
      /\ (forall fields data,
            response = JObj fields ->
            default (JObj []) (assoc "data" fields) = JObj data ->
            default (JStr "") (assoc "id" data) = JNull ->
            exists msg, fails (IntegrityError msg))).
Proof.
  intros p r fails.
  assert (Hall : forall e,
    is_Exception e = true ->
    initiate_with_provider (pm_method_type payment_method)
      (provider_returns response str) p
      (set_renewal_attempts
         (map (fun r => if Nat.eqb (ra_id r) (ra_id attempt)
                        then attempt_with "processing" (ra_error_message attempt)
                               (Some (pi_id p)) attempt
                        else r) (renewal_attempts s))
         (set_payment_intents (p :: payment_intents s) s))
    = (Raise e,
       set_renewal_attempts
         (map (fun r => if Nat.eqb (ra_id r) (ra_id attempt)
                        then attempt_with "processing" (ra_error_message attempt)
                               (Some (pi_id p)) attempt
                        else r) (renewal_attempts s))
         (set_payment_intents (p :: payment_intents s) s)) ->
    fails e).
  { intros e Hcatch Hrun. unfold fails.
    pose proof (initiate_run_raises _ e Hrun Hcatch) as Hr.
    fold r in Hr. fold p in Hr. rewrite Hr. cbn [fst snd].
    split; [reflexivity|]. split; [reflexivity|]. split; [reflexivity|].
    split; [|reflexivity].
    cbn [renewal_attempts set_renewal_attempts]. apply find_attempt_failed. }
  split; intros Hmt.
  - split.
    + intros Hnot. eexists. apply Hall; [reflexivity|].
      unfold initiate_with_provider. rewrite Hmt.
      unfold call_provider, bindM, lift, ret, py_get.
      cbn [String.eqb Ascii.eqb Bool.eqb fst snd].
      destruct response; try reflexivity. by destruct (Hnot fields).
    + intros fields -> Hnull.
      unfold initiate_with_provider in Hall. rewrite Hmt in Hall.
      unfold call_provider, bindM, lift, ret, py_get in Hall.
      cbn [String.eqb Ascii.eqb Bool.eqb fst snd] in Hall.
      destruct (default JNull (assoc "CheckoutRequestID" fields)) eqn:Hc;
        destruct (default JNull (assoc "MerchantRequestID" fields)) eqn:Hm;
        try (by destruct Hnull);
        eexists; (apply Hall; [reflexivity|]); reflexivity.
  - split; [|split].
    + intros Hnot. eexists. apply Hall; [reflexivity|].
      unfold initiate_with_provider. rewrite Hmt.
      unfold call_provider, bindM, lift, ret, py_get.
      cbn [String.eqb Ascii.eqb Bool.eqb fst snd].
      destruct response; try reflexivity. by destruct (Hnot fields).
    + intros fields -> Hnot.
      unfold initiate_with_provider in Hall. rewrite Hmt in Hall.
      unfold call_provider, bindM, lift, ret in Hall.
      cbn [String.eqb Ascii.eqb Bool.eqb fst snd py_get] in Hall.
      destruct (default (JObj []) (assoc "data" fields)) eqn:Hd;
        try (by destruct (Hnot fields0));
        eexists; (apply Hall; [reflexivity|]); reflexivity.
    + intros fields data -> Hd Hi.
      unfold initiate_with_provider in Hall. rewrite Hmt in Hall.
      unfold call_provider, bindM, lift, ret in Hall.
      cbn [String.eqb Ascii.eqb Bool.eqb fst snd py_get] in Hall.
      rewrite Hd in Hall. cbn [py_get] in Hall. rewrite Hi in Hall.
      eexists. (apply Hall; [reflexivity|]). reflexivity.
Qed.

(** Whatever the provider call does, a run that finds its rows and draws an
    unused key leaves one more intent, created or requires_action, for the
    attempt's order, and the attempt with its number. *)
Lemma initiate_creates_intent provider :
  wf_intents s ->
  let r := initiate_subscription_payment id now uuid_hex8 provider s in
  exists p' attempt',
    payment_intents (snd r) = p' :: payment_intents s
    /\ pi_order p' = order_id order
    /\ pi_idempotency_key p'
       = idempotency_key_of (sub_id subscription) (ra_attempt_number attempt)
           uuid_hex8
    /\ (pi_status p' = "created" \/ pi_status p' = "requires_action")
    /\ List.find (fun a => Nat.eqb (ra_id a) id) (renewal_attempts (snd r))
       = Some attempt'
    /\ ra_subscription attempt' = ra_subscription attempt
    /\ ra_attempt_number attempt' = ra_attempt_number attempt
    /\ ra_order attempt' = ra_order attempt
    /\ subscriptions (snd r) = subscriptions s
    /\ orders (snd r) = orders s
    /\ payment_methods (snd r) = payment_methods s
    /\ wf_intents (snd r).
Proof.
  intros Hwf r.
  assert (Hwf' : wf_intents (snd r)) by (by apply initiate_keeps_wf).
  set (p := created_intent (List.length (payment_intents s)) now uuid_hex8
              attempt subscription order payment_method).
  set (s1 := set_renewal_attempts
              (map (fun r => if Nat.eqb (ra_id r) (ra_id attempt)
                             then attempt_with "processing"
                                    (ra_error_message attempt)
                                    (Some (pi_id p)) attempt
                             else r) (renewal_attempts s))
              (set_payment_intents (p :: payment_intents s) s)).
  destruct (initiate_with_provider_cases (pm_method_type payment_method)
              provider p s1) as [(e & Hcatch & Hrun) | [Hrun | (t & c & m & Hrun)]].
  - pose proof (initiate_run_raises _ e Hrun Hcatch) as Hr.
    fold r in Hr. fold p in Hr. fold s1 in Hr.
    exists p, (attempt_with "failed" (exn_str e) (Some (pi_id p)) attempt).
    rewrite Hr in Hwf' |- *. cbn [fst snd] in Hwf' |- *.
    split; [reflexivity|]. split; [reflexivity|]. split; [reflexivity|].
    split; [by left|].
    split; [cbn [renewal_attempts set_renewal_attempts s1];
            apply find_attempt_failed|].
    do 6 (split; [reflexivity|]). exact Hwf'.
  - assert (Hr : r = (Ok tt, s1)).
    { unfold r, initiate_subscription_payment, try_exceptM.
      rewrite initiate_body_run. fold p. fold s1. by rewrite Hrun. }
    exists p, (attempt_with "processing" (ra_error_message attempt)
                 (Some (pi_id p)) attempt).
    rewrite Hr in Hwf' |- *. cbn [fst snd] in Hwf' |- *.
    split; [reflexivity|]. split; [reflexivity|]. split; [reflexivity|].
    split; [by left|].
    split; [cbn [renewal_attempts set_renewal_attempts s1];
            apply find_attempt_processing|].
    do 6 (split; [reflexivity|]). exact Hwf'.
  - pose proof (initiate_run_saves provider t c m Hrun Hwf) as Hr.
    fold r in Hr. fold p in Hr. fold s1 in Hr.
    exists (intent_with "requires_action" "" t c m p),
      (attempt_with "processing" (ra_error_message attempt)
         (Some (pi_id p)) attempt).
    rewrite Hr in Hwf' |- *. cbn [fst snd] in Hwf' |- *.
    split; [reflexivity|]. split; [reflexivity|]. split; [reflexivity|].
    split; [by right|].
    split; [cbn [renewal_attempts set_renewal_attempts set_payment_intents s1];
            apply find_attempt_processing|].
    do 6 (split; [reflexivity|]). exact Hwf'.
Qed.

End InitiateWithMethod.

Lemma failed_push_leaves_intent_to_the_sweep_witness :
  let now := 1000 * day in
  let r := initiate_subscription_payment 0 now "a1b2c3d4"
             (provider_raises "M-Pesa STK Push failed: timeout")
             (pending_attempt_db now) in
  fst r = Raise (GenericException "M-Pesa STK Push failed: timeout")
  /\ map pi_status (payment_intents (snd r)) = ["created"]
  /\ map pi_status
       (payment_intents (snd (cleanup_expired_intents (now + 2 * hour) (snd r))))
     = ["cancelled"].
Proof.
  intros now r.
  pose (s := pending_attempt_db now).
  destruct (failed_push_leaves_intent_to_the_sweep 0 now "a1b2c3d4" s
    {| ra_id := 0; ra_subscription := 0; ra_attempt_number := 1;
       ra_status := "pending"; ra_payment_intent := None; ra_order := Some 0%nat;
       ra_error_message := ""; ra_scheduled_at := now; ra_created_at := now |}
    {| sub_id := 0; sub_user := 0; sub_product := 0; sub_price := 0;
       sub_status := "active"; sub_current_period_start := now - 30 * day;
       sub_current_period_end := now; sub_grace_until := None;
       sub_ended_at := None |}
    {| order_id := 0; order_user := 0; order_status := "pending";
       order_subtotal := 500000; order_tax_amount := 0; order_total := 500000 |}
    mpesa_method eq_refl eq_refl eq_refl eq_refl eq_refl eq_refl
    "M-Pesa STK Push failed: timeout" eq_refl)
    as (Hraise & Hintents & _ & _ & Hsweep).
  split; [exact Hraise|]. split.
  - exact (f_equal (map pi_status) Hintents).
  - exact (f_equal (map pi_status) (Hsweep (now + 2 * hour) eq_refl)).
Defined.

Lemma initiate_with_other_method_witness :
  let now := 1000 * day in
  let r := initiate_subscription_payment 0 now "a1b2c3d4"
             (provider_raises "never called") (card_attempt_db now) in
  fst r = Ok tt
  /\ map pi_provider (payment_intents (snd r)) = ["mpesa"]
  /\ map pi_next_action (payment_intents (snd r)) = ["collect"].
Proof.
  intros now r.
  destruct (initiate_with_other_method 0 now "a1b2c3d4" (card_attempt_db now)
    {| ra_id := 0; ra_subscription := 0; ra_attempt_number := 1;
       ra_status := "pending"; ra_payment_intent := None; ra_order := Some 0%nat;
       ra_error_message := ""; ra_scheduled_at := now; ra_created_at := now |}
    {| sub_id := 0; sub_user := 0; sub_product := 0; sub_price := 0;
       sub_status := "active"; sub_current_period_start := now - 30 * day;
       sub_current_period_end := now; sub_grace_until := None;
       sub_ended_at := None |}
    {| order_id := 0; order_user := 0; order_status := "pending";
       order_subtotal := 500000; order_tax_amount := 0; order_total := 500000 |}
    card_method eq_refl eq_refl eq_refl eq_refl eq_refl eq_refl
    (provider_raises "never called") eq_refl)
    as (Hok & Hintents & _).
  split; [exact Hok|]. split.
  - exact (f_equal (map pi_provider) Hintents).
  - exact (f_equal (map pi_next_action) Hintents).
Defined.

Lemma initiate_accepted_witness :
  let now := 1000 * day in
  let r := initiate_subscription_payment 0 now "a1b2c3d4" stk_push_accepted
             (pending_attempt_db now) in
  fst r = Ok tt
  /\ map pi_status (payment_intents (snd r)) = ["requires_action"]
  /\ map pi_checkout_request_id (payment_intents (snd r)) = ["ws_CO_1"]
  /\ map pi_merchant_request_id (payment_intents (snd r)) = ["mr_1"]
  /\ map pi_expires_at (payment_intents (snd r)) = [now + 1 * hour].
Proof.
  intros now r.
  destruct (initiate_accepted 0 now "a1b2c3d4" (pending_attempt_db now)
    {| ra_id := 0; ra_subscription := 0; ra_attempt_number := 1;
       ra_status := "pending"; ra_payment_intent := None; ra_order := Some 0%nat;
       ra_error_message := ""; ra_scheduled_at := now; ra_created_at := now |}
    {| sub_id := 0; sub_user := 0; sub_product := 0; sub_price := 0;
       sub_status := "active"; sub_current_period_start := now - 30 * day;
       sub_current_period_end := now; sub_grace_until := None;
       sub_ended_at := None |}
    {| order_id := 0; order_user := 0; order_status := "pending";
       order_subtotal := 500000; order_tax_amount := 0; order_total := 500000 |}
    mpesa_method eq_refl eq_refl eq_refl eq_refl eq_refl eq_refl
    [("MerchantRequestID", JStr "mr_1");
     ("CheckoutRequestID", JStr "ws_CO_1");
     ("ResponseCode", JStr "0");
     ("ResponseDescription", JStr "Success. Request accepted for processing");
     ("CustomerMessage", JStr "Success. Request accepted for processing")]
    str_of_scalars
    (conj (NoDup_nil_2 (A:=string)) (Forall_nil_2 _)))
    as [Hmpesa _].
  destruct (Hmpesa eq_refl (JStr "ws_CO_1") (JStr "mr_1") eq_refl eq_refl
              ltac:(discriminate) ltac:(discriminate)
              ltac:(vm_compute; lia) ltac:(vm_compute; lia))
    as (Hok & Hintents & _).
  split; [exact Hok|]. split; [|split; [|split]].
  - exact (f_equal (map pi_status) Hintents).
  - exact (f_equal (map pi_checkout_request_id) Hintents).
  - exact (f_equal (map pi_merchant_request_id) Hintents).
  - exact (f_equal (map pi_expires_at) Hintents).
Defined.

Lemma initiate_reply_without_references_witness :
  let now := 1000 * day in
  let r := initiate_subscription_payment 0 now "a1b2c3d4" stk_push_without_ids
             (pending_attempt_db now) in
  (exists msg, fst r = Raise (IntegrityError msg))
  /\ map pi_status (payment_intents (snd r)) = ["created"]
  /\ option_map ra_status
       (List.find (fun a => Nat.eqb (ra_id a) 0) (renewal_attempts (snd r)))
     = Some "failed".
Proof.
  intros now r.
  destruct (initiate_reply_without_references 0 now "a1b2c3d4"
    (pending_attempt_db now)
    {| ra_id := 0; ra_subscription := 0; ra_attempt_number := 1;
       ra_status := "pending"; ra_payment_intent := None; ra_order := Some 0%nat;
       ra_error_message := ""; ra_scheduled_at := now; ra_created_at := now |}
    {| sub_id := 0; sub_user := 0; sub_product := 0; sub_price := 0;
       sub_status := "active"; sub_current_period_start := now - 30 * day;
       sub_current_period_end := now; sub_grace_until := None;
       sub_ended_at := None |}
    {| order_id := 0; order_user := 0; order_status := "pending";
       order_subtotal := 500000; order_tax_amount := 0; order_total := 500000 |}
    mpesa_method eq_refl eq_refl eq_refl eq_refl eq_refl eq_refl
    (JObj [("errorCode", JStr "500.001.1001");
           ("errorMessage", JStr "Unable to lock subscriber")])
    str_of_scalars)
    as [Hmpesa _].
  destruct (Hmpesa eq_refl) as [_ Hnull].
  destruct (Hnull _ eq_refl (or_introl eq_refl))
    as (msg & Hraise & Hintents & _ & Hfind & _).
  split; [by exists msg|]. split.
  - exact (f_equal (map pi_status) Hintents).
  - exact (f_equal (option_map ra_status) Hfind).
Defined.

(** ** Retried runs of initiate_subscription_payment *)

Lemma idempotency_key_of_inj subscription_id attempt_number u u' :
  idempotency_key_of subscription_id attempt_number u
  = idempotency_key_of subscription_id attempt_number u' -> u = u'.
Proof.
  unfold idempotency_key_of. intros H.
  by repeat apply (inj (String.append _)) in H.
Qed.

(** A run that draws a key already in the table: creating the intent raises
    IntegrityError, nothing is added to the intents, and the handler saves
    the attempt as failed. *)
Lemma initiate_replay id now uuid_hex8 provider s attempt subscription order
    payment_method :
  List.find (fun a => Nat.eqb (ra_id a) id) (renewal_attempts s) = Some attempt ->
  List.find (fun a => Nat.eqb (sub_id a) (ra_subscription attempt))
    (subscriptions s) = Some subscription ->
  ra_order attempt = Some (order_id order) ->
  List.find (fun a => Nat.eqb (order_id a) (order_id order)) (orders s)
  = Some order ->
  head (List.filter (fun m => Nat.eqb (pm_user m) (sub_user subscription)
                              && pm_is_default m && pm_is_active m)
          (payment_methods s)) = Some payment_method ->
  existsb (fun q => String.eqb (pi_idempotency_key q)
             (idempotency_key_of (sub_id subscription)
                (ra_attempt_number attempt) uuid_hex8))
    (payment_intents s) = true ->
  let msg := "UNIQUE constraint failed: payments_paymentintent.idempotency_key" in
  initiate_subscription_payment id now uuid_hex8 provider s =
    (Raise (IntegrityError msg),
     set_renewal_attempts
       (map (fun r => if Nat.eqb (ra_id r) (ra_id attempt)
                      then attempt_with "failed" msg (ra_payment_intent attempt)
                             attempt
                      else r) (renewal_attempts s)) s).
Proof.
  intros Hattempt Hsubscription Horder_id Horder Hmethod Hkey msg.
  unfold initiate_subscription_payment, try_exceptM,
    initiate_subscription_payment_body, bindM at 1, get_attempt.
  rewrite Hattempt. unfold bindM at 1, get_subscription. rewrite Hsubscription.
  unfold bindM at 1, get_order_opt. rewrite Horder_id.
  unfold bindM at 1, get_order. rewrite Horder. cbn [ret].
  unfold bindM at 1, gets. rewrite Hmethod.
  unfold bindM at 1, lift. unfold bindM at 1, PaymentIntent_create.
  cbn [pi_idempotency_key]. rewrite Hkey. cbn [is_Exception].
  unfold initiate_subscription_payment_handler, get_attempt.
  rewrite Hattempt. reflexivity.
Qed.

(** C1 (code). The key of an intent ends in a random suffix drawn by each
    run, and nothing looks an intent up by its key. So after a first run
    for a renewal attempt: a run that draws the same key again does not
    return the first intent, it raises IntegrityError, leaves the intents
    as they were and saves the attempt as failed with that error; and a
    retried run, which draws another suffix, creates a second intent for
    the same attempt and order, under another key, while the first is still
    live (created or requires_action). This holds whatever the provider
    answers in either run. *)
Theorem retried_run_creates_second_intent (id : nat) (now later : datetime)
    (uuid_hex8 uuid_hex8' : string) (provider provider' : provider_outcome)
    (s : db) (attempt : SubscriptionRenewalAttempt) (subscription : Subscription)
    (order : Order) (payment_method : PaymentMethod) :
  List.find (fun a => Nat.eqb (ra_id a) id) (renewal_attempts s) = Some attempt ->
  List.find (fun a => Nat.eqb (sub_id a) (ra_subscription attempt))
    (subscriptions s) = Some subscription ->
  ra_order attempt = Some (order_id order) ->
  List.find (fun a => Nat.eqb (order_id a) (order_id order)) (orders s)
  = Some order ->
  head (List.filter (fun m => Nat.eqb (pm_user m) (sub_user subscription)
                              && pm_is_default m && pm_is_active m)
          (payment_methods s)) = Some payment_method ->
  wf_intents s ->
  let key := idempotency_key_of (sub_id subscription)
               (ra_attempt_number attempt) in
  existsb (fun q => String.eqb (pi_idempotency_key q) (key uuid_hex8))
    (payment_intents s) = false ->
  existsb (fun q => String.eqb (pi_idempotency_key q) (key uuid_hex8'))
    (payment_intents s) = false ->
  uuid_hex8 <> uuid_hex8' ->
  let s1 := snd (initiate_subscription_payment id now uuid_hex8 provider s) in
  let replay := initiate_subscription_payment id later uuid_hex8 provider' s1 in
  let retry := initiate_subscription_payment id later uuid_hex8' provider' s1 in
  let live := fun p => pi_status p = "created" \/ pi_status p = "requires_action" in
  (exists msg,
     fst replay = Raise (IntegrityError msg)
     /\ payment_intents (snd replay) = payment_intents s1
     /\ option_map (fun a => (ra_status a, ra_error_message a))
          (List.find (fun a => Nat.eqb (ra_id a) id)
             (renewal_attempts (snd replay)))
        = Some ("failed", msg))
  /\ (exists p1 p2,
        payment_intents s1 = p1 :: payment_intents s
        /\ payment_intents (snd retry) = p2 :: p1 :: payment_intents s
        /\ pi_order p1 = order_id order /\ pi_order p2 = order_id order
        /\ pi_idempotency_key p1 = key uuid_hex8
        /\ pi_idempotency_key p2 = key uuid_hex8'
        /\ pi_idempotency_key p1 <> pi_idempotency_key p2
        /\ live p1 /\ live p2
        /\ option_map ra_attempt_number
             (List.find (fun a => Nat.eqb (ra_id a) id)
                (renewal_attempts (snd retry)))
           = Some (ra_attempt_number attempt)).
Proof.
  intros Hattempt Hsubscription Horder_id Horder Hmethod Hwf key Hkey Hkey' Hne
    s1 replay retry live.
  destruct (initiate_creates_intent id now uuid_hex8 s attempt subscription
              order payment_method Hattempt Hsubscription Horder_id Horder
              Hmethod Hkey provider Hwf)
    as (p1 & attempt1 & Hint1 & Hord1 & Hk1 & Hlive1 & Hfind1 & Hsub1 & Hnum1
        & Hao1 & Hsubs1 & Horders1 & Hmethods1 & Hwf1).
  fold s1 in Hint1, Hfind1, Hsubs1, Horders1, Hmethods1, Hwf1.
  assert (Hsubscription1 :
    List.find (fun a => Nat.eqb (sub_id a) (ra_subscription attempt1))
      (subscriptions s1) = Some subscription) by (by rewrite Hsub1, Hsubs1).
  assert (Horder_id1 : ra_order attempt1 = Some (order_id order))
    by (by rewrite Hao1).
  assert (Horder1 :
    List.find (fun a => Nat.eqb (order_id a) (order_id order)) (orders s1)
    = Some order) by (by rewrite Horders1).
  assert (Hmethod1 :
    head (List.filter (fun m => Nat.eqb (pm_user m) (sub_user subscription)
                                && pm_is_default m && pm_is_active m)
            (payment_methods s1)) = Some payment_method)
    by (by rewrite Hmethods1).
  split.
  - assert (Hused : existsb (fun q => String.eqb (pi_idempotency_key q)
                       (idempotency_key_of (sub_id subscription)
                          (ra_attempt_number attempt1) uuid_hex8))
                      (payment_intents s1) = true).
    { rewrite Hint1, Hnum1. cbn [existsb]. rewrite Hk1.
      by rewrite String.eqb_refl. }
    pose proof (initiate_replay id later uuid_hex8 provider' s1 attempt1
                  subscription order payment_method Hfind1 Hsubscription1
                  Horder_id1 Horder1 Hmethod1 Hused) as Hrun.
    cbv zeta in Hrun. fold replay in Hrun.
    exists "UNIQUE constraint failed: payments_paymentintent.idempotency_key".
    rewrite Hrun.
    cbn [fst snd payment_intents set_renewal_attempts renewal_attempts].
    split; [reflexivity|]. split; [reflexivity|].
    pose proof (find_saved ra_id (renewal_attempts s1) id attempt1
               (attempt_with "failed"
                  "UNIQUE constraint failed: payments_paymentintent.idempotency_key"
                  (ra_payment_intent attempt1) attempt1) Hfind1
               (find_key ra_id _ _ _ Hfind1)) as Hsaved.
    cbn [ra_id attempt_with] in Hsaved. rewrite Hsaved. reflexivity.
  - assert (Hfree : existsb (fun q => String.eqb (pi_idempotency_key q)
                       (idempotency_key_of (sub_id subscription)
                          (ra_attempt_number attempt1) uuid_hex8'))
                      (payment_intents s1) = false).
    { rewrite Hint1, Hnum1. cbn [existsb]. fold key. rewrite Hkey', Hk1.
      rewrite orb_false_r. apply String.eqb_neq. intros Heq.
      by apply idempotency_key_of_inj in Heq. }
    destruct (initiate_creates_intent id later uuid_hex8' s1 attempt1
                subscription order payment_method Hfind1 Hsubscription1
                Horder_id1 Horder1 Hmethod1 Hfree provider' Hwf1)
      as (p2 & attempt2 & Hint2 & Hord2 & Hk2 & Hlive2 & Hfind2 & _ & Hnum2 & _).
    fold retry in Hint2, Hfind2.
    exists p1, p2. rewrite Hint2, Hint1, Hfind2. cbn [option_map].
    split; [reflexivity|]. split; [reflexivity|].
    split; [exact Hord1|]. split; [exact Hord2|]. split; [exact Hk1|].
    split; [by rewrite Hk2, Hnum1|].
    split.
    { rewrite Hk1, Hk2, Hnum1. intros Heq.
      by apply idempotency_key_of_inj in Heq. }
    split; [exact Hlive1|]. split; [exact Hlive2|].
    by rewrite Hnum2, Hnum1.
Qed.

(** The renewal attempt of [pending_attempt_db], run twice by the worker:
    the replay of the first key raises, the retry leaves two intents for
    the one attempt. *)
Lemma retried_run_creates_second_intent_witness :
  let now := 1000 * day in
  let s1 := snd (initiate_subscription_payment 0 now "a1b2c3d4"
                   stk_push_accepted (pending_attempt_db now)) in
  let replay := initiate_subscription_payment 0 (now + 1 * hour) "a1b2c3d4"
                  stk_push_accepted s1 in
  let retry := initiate_subscription_payment 0 (now + 1 * hour) "e5f6a7b8"
                 stk_push_accepted s1 in
  (exists msg, fst replay = Raise (IntegrityError msg))
  /\ exists p1 p2,
       payment_intents (snd retry) = [p2; p1]
       /\ pi_order p1 = 0%nat /\ pi_order p2 = 0%nat
       /\ pi_idempotency_key p1 = "sub_0_1_a1b2c3d4"
       /\ pi_idempotency_key p2 = "sub_0_1_e5f6a7b8".
Proof.
  intros now s1 replay retry.
  destruct (retried_run_creates_second_intent 0 now (now + 1 * hour)
    "a1b2c3d4" "e5f6a7b8" stk_push_accepted stk_push_accepted
    (pending_attempt_db now)
    {| ra_id := 0; ra_subscription := 0; ra_attempt_number := 1;
       ra_status := "pending"; ra_payment_intent := None; ra_order := Some 0%nat;
       ra_error_message := ""; ra_scheduled_at := now; ra_created_at := now |}
    {| sub_id := 0; sub_user := 0; sub_product := 0; sub_price := 0;
       sub_status := "active"; sub_current_period_start := now - 30 * day;
       sub_current_period_end := now; sub_grace_until := None;
       sub_ended_at := None |}
    {| order_id := 0; order_user := 0; order_status := "pending";
       order_subtotal := 500000; order_tax_amount := 0; order_total := 500000 |}
    mpesa_method eq_refl eq_refl eq_refl eq_refl eq_refl
    (conj (NoDup_nil_2 (A:=string)) (Forall_nil_2 _)) eq_refl eq_refl
    ltac:(discriminate))
    as [(msg & Hraise & _) (p1 & p2 & _ & Hint & Ho1 & Ho2 & Hk1 & Hk2 & _)].
  split; [by exists msg|].
  exists p1, p2. by repeat split.
Defined.

(** ** More of reconcile_daily_payments *)

Lemma end_of_yesterday_eq now :
  end_of_yesterday now = start_of_yesterday now + day - 1.
Proof. unfold end_of_yesterday, day, hour. lia. Qed.

Lemma start_of_yesterday_eq now :
  start_of_yesterday now = (days now - 1) * day.
Proof.
  unfold start_of_yesterday, days. f_equal.
  replace (now - 1 * day) with (now + (-1) * day) by lia.
  rewrite Z.div_add by (unfold day, hour; lia). lia.
Qed.

(** X14. The window the job examines is the whole previous day and nothing
    else: a payment is examined exactly when it was created on the day
    before the day of the run. *)
Theorem reconcile_window_is_previous_day (now : datetime) (s : db)
    (payment : Payment) :
  In payment (payments_of_yesterday now s)
  <-> In payment (payments s) /\ days (pay_created_at payment) = days now - 1.
Proof.
  unfold payments_of_yesterday. rewrite List.filter_In.
  rewrite andb_true_iff, !Z.leb_le, end_of_yesterday_eq, start_of_yesterday_eq.
  unfold days, day, hour.
  pose proof (Z.div_mod (pay_created_at payment) (24 * 3600000000) ltac:(lia)).
  pose proof (Z.mod_pos_bound (pay_created_at payment) (24 * 3600000000)
                ltac:(lia)).
  split; intros [Hin H']; (split; [exact Hin|]); nia.
Qed.

Lemma reconcile_payment_run payment found s order :
  List.find (fun a => Nat.eqb (order_id a) (pay_order payment)) (orders s)
    = Some order ->
  exists more,
    reconcile_payment payment found s = (Ok (found ++ more)%list, s)
    /\ List.length more = findings s [payment].
Proof.
  intros Horder. unfold reconcile_payment, bindM, get_order, gets.
  rewrite Horder. unfold findings, order_not_paid. cbn [List.filter].
  rewrite Horder.
  destruct (negb (String.eqb (order_status order) "paid"));
    destruct (negb (has_processed_webhook payment s)); cbn [ret].
  - eexists. rewrite <- app_assoc. split; reflexivity.
  - eexists. split; reflexivity.
  - eexists. split; reflexivity.
  - exists []. rewrite app_nil_r. split; reflexivity.
Qed.

Lemma findings_cons s payment rest :
  findings s (payment :: rest) = (findings s [payment] + findings s rest)%nat.
Proof.
  unfold findings. cbn [List.filter].
  destruct (order_not_paid s payment);
    destruct (negb (has_processed_webhook payment s)); cbn; lia.
Qed.

Lemma reconcile_payments_count s ps : forall found,
  Forall (fun p => is_Some (List.find
            (fun a => Nat.eqb (order_id a) (pay_order p)) (orders s))) ps ->
  exists found',
    reconcile_payments ps found s = (Ok found', s)
    /\ List.length found' = (List.length found + findings s ps)%nat.
Proof.
  induction ps as [|payment rest IH]; intros found Hall.
  - exists found. split; [reflexivity|]. unfold findings. cbn. lia.
  - apply Forall_cons in Hall as [[order Horder] Hrest].
    destruct (reconcile_payment_run payment found s order Horder)
      as (more & Hstep & Hmore).
    destruct (IH (found ++ more)%list Hrest) as (found' & Hrun & Hlen).
    exists found'. split.
    + cbn [reconcile_payments]. unfold bindM. by rewrite Hstep.
    + rewrite Hlen, length_app, Hmore, (findings_cons s payment rest). lia.
Qed.

(** X15. When the orders of the window's payments are all stored, the job
    reports the number of payments in the window and, as mismatches, one
    for each payment whose order is not paid plus one for each payment
    without a processed webhook event. It queues one alert, naming that
    total, when the total is not zero, and nothing otherwise. *)
Theorem reconcile_reports_findings (now : datetime) (s : db) :
  Forall (fun p => is_Some (List.find
            (fun a => Nat.eqb (order_id a) (pay_order p)) (orders s)))
    (payments_of_yesterday now s) ->
  let n := findings s (payments_of_yesterday now s) in
  reconcile_daily_payments now s =
    (Ok {| total_payments := List.length (payments_of_yesterday now s);
           mismatches := n |},
     if Nat.eqb n 0 then s
     else set_queue (queue s ++ [send_admin_alert_msg "Payment Reconciliation Alert"
            ("Found " +:+ pretty n
               +:+ " payment mismatches during reconciliation")])%list s).
Proof.
  intros Hall n.
  destruct (reconcile_payments_count s _ [] Hall) as (found & Hrun & Hlen).
  rewrite (reconcile_daily_payments_run now s found Hrun).
  cbn [List.length Nat.add] in Hlen. fold n in Hlen. rewrite Hlen.
  by destruct (Nat.eqb n 0).
Qed.

Lemma reconcile_reports_findings_witness :
  let now := 1001 * day + 2 * hour in
  mismatches_of_run now (one_payment_db (1000 * day + 12 * hour) []) = Some 2%nat
  /\ mismatches_of_run now
       (one_payment_db (1000 * day + 12 * hour) [processed_event]) = Some 1%nat.
Proof.
  intros now. unfold mismatches_of_run. split.
  - rewrite (reconcile_reports_findings now
               (one_payment_db (1000 * day + 12 * hour) [])).
    + reflexivity.
    + repeat constructor. by eexists.
  - rewrite (reconcile_reports_findings now
               (one_payment_db (1000 * day + 12 * hour) [processed_event])).
    + reflexivity.
    + repeat constructor. by eexists.
Defined.

(** ** More of cleanup_expired_intents *)

Lemma not_expired_after_sweep now earlier p :
  earlier <= now ->
  is_expired earlier (if is_expired now p then cancel_expired p else p) = false.
Proof.
  intros Hle. destruct (is_expired now p) eqn:Hexp; [reflexivity|].
  unfold is_expired in *. apply andb_false_iff in Hexp as [Hst|Hlt].
  - by rewrite Hst.
  - apply andb_false_iff. right. apply Z.ltb_ge. apply Z.ltb_ge in Hlt. lia.
Qed.

(** X16. Running the expiry sweep again, at the same time or an earlier
    one, cleans nothing: it returns 0 and leaves the database as the first
    run left it. *)
Theorem cleanup_expired_intents_again (now earlier : datetime) (s : db) :
  earlier <= now ->
  cleanup_expired_intents earlier (snd (cleanup_expired_intents now s))
  = (Ok 0%nat, snd (cleanup_expired_intents now s)).
Proof.
  intros Hle. rewrite (cleanup_expired_intents_run now s). cbn [snd].
  rewrite cleanup_expired_intents_run.
  cbn [payment_intents set_payment_intents].
  assert (Hnone : forall l : list PaymentIntent,
    List.filter (is_expired earlier)
      (map (fun p => if is_expired now p then cancel_expired p else p) l) = []).
  { induction l as [|p l IH]; [reflexivity|]. cbn.
    by rewrite (not_expired_after_sweep now earlier p Hle). }
  assert (Hsame : forall l : list PaymentIntent,
    map (fun p => if is_expired earlier p then cancel_expired p else p)
      (map (fun p => if is_expired now p then cancel_expired p else p) l)
    = map (fun p => if is_expired now p then cancel_expired p else p) l).
  { induction l as [|p l IH]; [reflexivity|]. cbn.
    by rewrite (not_expired_after_sweep now earlier p Hle), IH. }
  rewrite Hnone, Hsame. reflexivity.
Qed.

Lemma cleanup_expired_intents_again_witness :
  let s := two_intents_db (1000 * day) in
  fst (cleanup_expired_intents (1000 * day + 3 * hour) s) = Ok 1%nat
  /\ fst (cleanup_expired_intents (1000 * day + 2 * hour)
            (snd (cleanup_expired_intents (1000 * day + 3 * hour) s)))
     = Ok 0%nat.
Proof.
  intros s. split; [reflexivity|].
  exact (f_equal fst (cleanup_expired_intents_again (1000 * day + 3 * hour)
                        (1000 * day + 2 * hour) s ltac:(discriminate))).
Defined.





(** ** More of process_dunning_schedule *)

Lemma dun_subscription_run dunning_schedule retry_days now subscription s :
  dun_subscription dunning_schedule retry_days now subscription s =
  match latest_failed_attempt (sub_id subscription) s with
  | None => (Ok false, s)
  | Some latest_attempt =>
      let retry := should_retry (days (now - ra_created_at latest_attempt))
                     retry_days in
      let attempt := retry_attempt now subscription latest_attempt s in
      let s1 :=
        if retry then
          set_queue
            ((queue s ++ [initiate_subscription_payment_msg (ra_id attempt)])
               ++ [send_dunning_notification_msg (sub_id subscription)
                     (ra_attempt_number attempt)])%list
            (set_renewal_attempts (attempt :: renewal_attempts s) s)
        else s in
      (Ok retry,
       if grace_expired now subscription then
         set_subscriptions
           (map (fun r => if Nat.eqb (sub_id r)
                               (sub_id (after_grace dunning_schedule now subscription))
                          then after_grace dunning_schedule now subscription
                          else r) (subscriptions s1)) s1
       else s1)
  end.
Proof.
  unfold dun_subscription, bindM at 1, gets.
  destruct (latest_failed_attempt (sub_id subscription) s) as [a|];
    [|reflexivity].
  cbv zeta. unfold grace_expired, apply_grace_expiry, after_grace.
  destruct (should_retry (days (now - ra_created_at a)) retry_days);
    destruct (sub_grace_until subscription) as [g|]; try reflexivity;
    destruct (Z.ltb g now); reflexivity.
Qed.

Lemma after_grace_id ds now subscription :
  sub_id (after_grace ds now subscription) = sub_id subscription.
Proof.
  unfold after_grace.
  by destruct (ds_cancel_subscription ds), (ds_downgrade_to_free ds).
Qed.

Lemma failed_attempts_pending x a l :
  ra_status a = "pending" -> failed_attempts x (a :: l) = failed_attempts x l.
Proof.
  intros H. unfold failed_attempts. cbn [List.filter]. rewrite H.
  by rewrite andb_false_r.
Qed.

Lemma numbered_cons a l :
  numbered l ->
  ra_attempt_number a
  = (List.length (List.filter
       (fun b => Nat.eqb (ra_subscription b) (ra_subscription a)) l) + 1)%nat ->
  numbered (a :: l).
Proof.
  intros Hl Ha x. cbn [List.filter].
  destruct (Nat.eqb_spec (ra_subscription a) x) as [Heq|Hne].
  - subst x. cbn [map List.length]. rewrite Ha, Nat.add_1_r. cbn [descending].
    f_equal. apply Hl.
  - apply Hl.
Qed.

Lemma find_subscription_saved (a' : Subscription) x l :
  List.find (fun r => Nat.eqb (sub_id r) x)
    (map (fun r => if Nat.eqb (sub_id r) (sub_id a') then a' else r) l)
  = if Nat.eqb (sub_id a') x
    then option_map (fun _ => a') (List.find (fun r => Nat.eqb (sub_id r) x) l)
    else List.find (fun r => Nat.eqb (sub_id r) x) l.
Proof.
  induction l as [|r l IH]; cbn [map List.find].
  - by destruct (Nat.eqb _ _).
  - rewrite IH.
    destruct (Nat.eqb_spec (sub_id r) (sub_id a')) as [Hr|Hr];
      destruct (Nat.eqb_spec (sub_id a') x) as [Hx|Hx];
      destruct (Nat.eqb_spec (sub_id r) x) as [Hrx|Hrx];
      cbn [option_map]; try reflexivity; congruence.
Qed.

Lemma find_subscription_absent x (l : list Subscription) :
  ~ In x (map sub_id l) ->
  List.find (fun r => Nat.eqb (sub_id r) x) l = None.
Proof.
  induction l as [|r l IH]; [done|]. cbn. intros Hx.
  destruct (Nat.eqb_spec (sub_id r) x) as [Heq|Hne]; [tauto|].
  apply IH. tauto.
Qed.

Lemma find_past_due (p : Subscription -> bool) l t :
  List.NoDup (map sub_id l) -> In t l ->
  List.find (fun r => Nat.eqb (sub_id r) (sub_id t)) (List.filter p l)
  = if p t then Some t else None.
Proof.
  induction l as [|a l IH]; [done|]. cbn [map List.filter].
  intros Hnd Hin. apply List.NoDup_cons_iff in Hnd as [Ha Hnd].
  assert (Habsent : forall q, ~ In (sub_id a) (map sub_id (List.filter q l))).
  { intros q Hq. apply Ha. apply List.in_map_iff in Hq as (r & Hr & Hrin).
    apply List.filter_In in Hrin as [Hrin _].
    rewrite <- Hr. by apply List.in_map. }
  destruct Hin as [Heq|Hin].
  - subst t. destruct (p a); cbn [List.find].
    + by rewrite Nat.eqb_refl.
    + apply find_subscription_absent, Habsent.
  - assert (Hne : sub_id a <> sub_id t).
    { intros Heq. apply Ha. rewrite Heq. by apply List.in_map. }
    destruct (p a); cbn [List.find].
    + destruct (Nat.eqb_spec (sub_id a) (sub_id t)); [done|]. by apply IH.
    + by apply IH.
Qed.

Lemma nodup_filter_ids (p : Subscription -> bool) l :
  List.NoDup (map sub_id l) -> List.NoDup (map sub_id (List.filter p l)).
Proof.
  induction l as [|a l IH]; [done|]. cbn [map List.filter].
  intros Hnd. apply List.NoDup_cons_iff in Hnd as [Ha Hnd].
  destruct (p a); [|by apply IH]. cbn [map]. apply List.NoDup_cons; [|by apply IH].
  intros Hq. apply Ha. apply List.in_map_iff in Hq as (r & Hr & Hrin).
  apply List.filter_In in Hrin as [Hrin _]. rewrite <- Hr. by apply List.in_map.
Qed.

(** One turn of the loop of the dunning sweep. *)
Lemma dun_subscription_effect ds retry_days now subscription s :
  exists s' newer msgs,
    dun_subscription ds retry_days now subscription s
    = (Ok (retry_due retry_days now s subscription), s')
    /\ outside_dunning s' = outside_dunning s
    /\ renewal_attempts s' = (newer ++ renewal_attempts s)%list
    /\ queue s' = (queue s ++ msgs)%list
    /\ List.length newer
       = (if retry_due retry_days now s subscription then 1 else 0)%nat
    /\ List.length msgs = (2 * List.length newer)%nat
    /\ Forall (dunning_attempt now) newer
    /\ (numbered (renewal_attempts s) -> numbered (renewal_attempts s'))
    /\ (forall x, failed_attempts x (renewal_attempts s')
                  = failed_attempts x (renewal_attempts s))
    /\ (forall x,
          List.find (fun r => Nat.eqb (sub_id r) x) (subscriptions s')
          = if bool_decide (is_Some (latest_failed_attempt (sub_id subscription) s))
               && grace_expired now subscription
               && Nat.eqb (sub_id subscription) x
            then option_map (fun _ => after_grace ds now subscription)
                   (List.find (fun r => Nat.eqb (sub_id r) x) (subscriptions s))
            else List.find (fun r => Nat.eqb (sub_id r) x) (subscriptions s)).
Proof.
  rewrite dun_subscription_run. unfold retry_due.
  destruct (latest_failed_attempt (sub_id subscription) s) as [a|] eqn:Hlatest.
  2: { exists s, [], []. rewrite app_nil_r. by repeat split. }
  cbv zeta.
  assert (Hgrace : forall s1 x,
    List.find (fun r => Nat.eqb (sub_id r) x)
      (subscriptions
         (if grace_expired now subscription then
            set_subscriptions
              (map (fun r => if Nat.eqb (sub_id r)
                                  (sub_id (after_grace ds now subscription))
                             then after_grace ds now subscription else r)
                 (subscriptions s1)) s1
          else s1))
    = if bool_decide (is_Some (Some a)) && grace_expired now subscription
         && Nat.eqb (sub_id subscription) x
      then option_map (fun _ => after_grace ds now subscription)
             (List.find (fun r => Nat.eqb (sub_id r) x) (subscriptions s1))
      else List.find (fun r => Nat.eqb (sub_id r) x) (subscriptions s1)).
  { intros s1 x. rewrite bool_decide_eq_true_2 by by eexists.
    destruct (grace_expired now subscription); [|reflexivity].
    cbn [andb]. destruct s1; cbn [subscriptions set_subscriptions].
    rewrite find_subscription_saved. by rewrite after_grace_id. }
  destruct (should_retry (days (now - ra_created_at a)) retry_days).
  - eexists _, [retry_attempt now subscription a s],
      [initiate_subscription_payment_msg
         (ra_id (retry_attempt now subscription a s));
       send_dunning_notification_msg (sub_id subscription)
         (ra_attempt_number (retry_attempt now subscription a s))].
    split; [reflexivity|].
    split; [by destruct (grace_expired now subscription), s|].
    split; [by destruct (grace_expired now subscription), s|].
    split; [destruct (grace_expired now subscription), s; cbn;
            by rewrite <- app_assoc|].
    split; [reflexivity|]. split; [reflexivity|].
    split; [by repeat constructor|].
    match goal with
    | |- (_ -> numbered (renewal_attempts ?s1)) /\ _ =>
        assert (Hattempts : renewal_attempts s1
          = retry_attempt now subscription a s :: renewal_attempts s)
          by (by destruct (grace_expired now subscription), s)
    end.
    split; [|split].
    + intros Hnum. rewrite Hattempts. by apply numbered_cons.
    + intros x. rewrite Hattempts. by apply failed_attempts_pending.
    + intros x. rewrite Hgrace. by destruct s.
  - eexists _, [], []. rewrite app_nil_r.
    split; [reflexivity|].
    split; [by destruct (grace_expired now subscription), s|].
    split; [by destruct (grace_expired now subscription), s|].
    split; [by destruct (grace_expired now subscription), s|].
    split; [reflexivity|]. split; [reflexivity|]. split; [constructor|].
    split; [|split].
    + by destruct (grace_expired now subscription), s.
    + by destruct (grace_expired now subscription), s.
    + intros x. apply Hgrace.
Qed.

Lemma latest_failed_attempt_ext x s s0 :
  failed_attempts x (renewal_attempts s) = failed_attempts x (renewal_attempts s0) ->
  latest_failed_attempt x s = latest_failed_attempt x s0.
Proof.
  intros H. unfold latest_failed_attempt.
  change (latest_created (failed_attempts x (renewal_attempts s))
          = latest_created (failed_attempts x (renewal_attempts s0))).
  by rewrite H.
Qed.

(** The loop of the dunning sweep, from a state [s] whose failed attempts
    are those of the state [s0] the sweep started in. *)
Lemma dunning_loop_effect ds retry_days now s0 past_due : forall n s,
  (forall x, failed_attempts x (renewal_attempts s)
             = failed_attempts x (renewal_attempts s0)) ->
  exists s' newer msgs,
    dunning_loop ds retry_days now past_due n s
    = (Ok (n + List.length newer)%nat, s')
    /\ outside_dunning s' = outside_dunning s
    /\ renewal_attempts s' = (newer ++ renewal_attempts s)%list
    /\ queue s' = (queue s ++ msgs)%list
    /\ List.length newer
       = List.length (List.filter (retry_due retry_days now s0) past_due)
    /\ List.length msgs = (2 * List.length newer)%nat
    /\ Forall (dunning_attempt now) newer
    /\ (numbered (renewal_attempts s) -> numbered (renewal_attempts s'))
    /\ (List.NoDup (map sub_id past_due) -> forall x,
          List.find (fun r => Nat.eqb (sub_id r) x) (subscriptions s')
          = match List.find (fun r => Nat.eqb (sub_id r) x) past_due with
            | Some r =>
                if bool_decide (is_Some (latest_failed_attempt (sub_id r) s0))
                   && grace_expired now r
                then option_map (fun _ => after_grace ds now r)
                       (List.find (fun r => Nat.eqb (sub_id r) x) (subscriptions s))
                else List.find (fun r => Nat.eqb (sub_id r) x) (subscriptions s)
            | None => List.find (fun r => Nat.eqb (sub_id r) x) (subscriptions s)
            end).
Proof.
  induction past_due as [|r rest IH]; intros n s Hinv.
  - exists s, [], []. cbn. rewrite Nat.add_0_r, app_nil_r.
    repeat split; done.
  - cbn [dunning_loop]. unfold bindM at 1, try_exceptM.
    destruct (dun_subscription_effect ds retry_days now r s)
      as (s1 & nw1 & ms1 & Hrun & Hout1 & Hatt1 & Hq1 & Hlen1 & Hm1 & Hall1
          & Hnum1 & Hfail1 & Hfind1).
    rewrite Hrun.
    assert (Hdue : retry_due retry_days now s r = retry_due retry_days now s0 r).
    { unfold retry_due. by rewrite (latest_failed_attempt_ext _ s s0). }
    assert (Hlatest : latest_failed_attempt (sub_id r) s
                      = latest_failed_attempt (sub_id r) s0)
      by (by apply latest_failed_attempt_ext).
    rewrite Hdue in *. rewrite Hlatest in Hfind1.
    assert (Hinv1 : forall x, failed_attempts x (renewal_attempts s1)
                              = failed_attempts x (renewal_attempts s0))
      by (intros x; by rewrite Hfail1).
    destruct (IH (if retry_due retry_days now s0 r then S n else n) s1 Hinv1)
      as (s' & nw2 & ms2 & Hrun2 & Hout2 & Hatt2 & Hq2 & Hlen2 & Hm2 & Hall2
          & Hnum2 & Hfind2).
    exists s', (nw2 ++ nw1)%list, (ms1 ++ ms2)%list.
    split.
    { rewrite Hrun2. do 2 f_equal. rewrite List.length_app, Hlen1.
      destruct (retry_due retry_days now s0 r); lia. }
    split; [by rewrite Hout2|].
    split; [by rewrite Hatt2, Hatt1, <- app_assoc|].
    split; [by rewrite Hq2, Hq1, <- app_assoc|].
    split.
    { cbn [List.filter]. rewrite List.length_app, Hlen1, Hlen2.
      destruct (retry_due retry_days now s0 r); cbn [List.length]; lia. }
    split; [rewrite !List.length_app; lia|].
    split; [by apply Forall_app|].
    split; [by intros Hnum; apply Hnum2, Hnum1|].
    intros Hnd x. cbn [map] in Hnd.
    apply List.NoDup_cons_iff in Hnd as [Hr Hnd].
    rewrite (Hfind2 Hnd x), !Hfind1. cbn [List.find].
    destruct (Nat.eqb_spec (sub_id r) x) as [Heq|Hne].
    + subst x. rewrite (find_subscription_absent _ _ Hr).
      by rewrite andb_true_r.
    + by rewrite andb_false_r.
Qed.

Lemma dunning_loop_idle ds retry_days now s past_due : forall n,
  (forall x, latest_failed_attempt x s = None) ->
  dunning_loop ds retry_days now past_due n s = (Ok n, s).
Proof.
  intros n Hnone. revert n.
  induction past_due as [|r rest IH]; intros n; [reflexivity|].
  cbn [dunning_loop]. unfold bindM at 1, try_exceptM.
  rewrite dun_subscription_run, Hnone. apply IH.
Qed.

Lemma filter_all {A : Type} (l : list A) : List.filter (fun _ => true) l = l.
Proof. induction l as [|a l IH]; [done|]. cbn. by rewrite IH. Qed.

(** X18 (process_dunning_schedule, idle). The dunning sweep does nothing at
    all - it returns 0 retries and leaves every table and the queue as they
    were - when there is no dunning schedule that is both active and
    default, and also when no renewal attempt in the table is failed. In
    both cases a past_due subscription stays past_due even once its grace
    period is over: the grace-period check is only reached for a
    subscription with a failed attempt. *)
Theorem dunning_sweep_idle (now : datetime) (s : db) :
  List.filter (fun d => ds_is_active d && ds_is_default d) (dunning_schedules s) = []
  \/ Forall (fun a => ra_status a <> "failed") (renewal_attempts s) ->
  process_dunning_schedule now s = (Ok 0%nat, s).
Proof.
  intros [Hnone|Hfailed]; unfold process_dunning_schedule, bindM, gets.
  - by rewrite Hnone.
  - destruct (head _) as [ds|]; [|reflexivity].
    apply dunning_loop_idle. intros x. unfold latest_failed_attempt.
    replace (List.filter _ (renewal_attempts s)) with (@nil SubscriptionRenewalAttempt);
      [reflexivity|].
    symmetry. induction Hfailed as [|a l Ha _ IH]; [reflexivity|].
    cbn [List.filter]. destruct (String.eqb_spec (ra_status a) "failed"); [done|].
    by rewrite andb_false_r.
Qed.

Lemma dunning_sweep_idle_witness :
  process_dunning_schedule (1008 * day)
    (set_renewal_attempts [] (failed_renewal_db (1000 * day) []))
  = (Ok 0%nat, set_renewal_attempts [] (failed_renewal_db (1000 * day) [])).
Proof. apply dunning_sweep_idle. right. constructor. Defined.






(** X20 (process_dunning_schedule, end of grace). When subscription ids are
    unique, the sweep leaves every subscription row in place, and changes a
    row only if the subscription is past_due, has a failed renewal attempt
    and its grace_until is set and lies before now. Such a row is saved as
    cancelled with ended_at = now when the schedule has cancel_subscription
    (which takes precedence), as unpaid when it only has downgrade_to_free,
    and unchanged (still past_due) when it has neither. *)
Theorem dunning_sweep_end_of_grace (now : datetime) (s : db)
    (ds : DunningSchedule) (t : Subscription) :
  head (List.filter (fun d => ds_is_active d && ds_is_default d)
          (dunning_schedules s)) = Some ds ->
  List.NoDup (map sub_id (subscriptions s)) ->
  In t (subscriptions s) ->
  List.find (fun r => Nat.eqb (sub_id r) (sub_id t))
    (subscriptions (snd (process_dunning_schedule now s)))
  = Some (if reaches_grace_check now s t then after_grace ds now t else t).
Proof.
  intros Hds Hnd Hin. unfold process_dunning_schedule, bindM, gets. rewrite Hds.
  destruct (dunning_loop_effect ds (get_retry_days ds) now s
              (List.filter (fun a => String.eqb (sub_status a) "past_due")
                 (subscriptions s)) 0 s (fun _ => eq_refl))
    as (s' & newer & msgs & Hrun & _ & _ & _ & _ & _ & _ & _ & Hfind).
  rewrite Hrun. cbn [snd].
  rewrite (Hfind (nodup_filter_ids _ _ Hnd)).
  rewrite (find_past_due _ _ _ Hnd Hin).
  pose proof (find_past_due (fun _ => true) _ _ Hnd Hin) as Hrow.
  rewrite filter_all in Hrow. rewrite Hrow. unfold reaches_grace_check.
  destruct (String.eqb (sub_status t) "past_due"); [|reflexivity].
  cbn [andb].
  by destruct (bool_decide _ && grace_expired now t).
Qed.

Lemma dunning_sweep_end_of_grace_witness :
  option_map sub_status
    (List.find (fun r => Nat.eqb (sub_id r) 0)
       (subscriptions (snd (process_dunning_schedule (1008 * day)
                              (failed_renewal_db (1000 * day) [])))))
  = Some "unpaid".
Proof.
  pose proof (dunning_sweep_end_of_grace (1008 * day)
                (failed_renewal_db (1000 * day) []) default_schedule
                {| sub_id := 0; sub_user := 0; sub_product := 0; sub_price := 0;
                   sub_status := "past_due";
                   sub_current_period_start := 1000 * day - 30 * day;
                   sub_current_period_end := 1000 * day;
                   sub_grace_until := Some (1000 * day + 7 * day);
                   sub_ended_at := None |}
                eq_refl) as H.
  exact (f_equal (option_map sub_status)
           (H ltac:(repeat constructor; cbn; tauto) ltac:(left; reflexivity))).
Defined.

(** X21 (process_dunning_schedule, attempt numbers). If the attempts of
    every subscription are numbered 1, 2, 3, ... in the order of their
    creation, they still are after the dunning sweep: the sweep numbers each
    attempt it creates with the count of the subscription's attempts plus
    one, so it never reuses or skips a number. *)
Theorem dunning_sweep_keeps_numbering (now : datetime) (s : db) :
  numbered (renewal_attempts s) ->
  numbered (renewal_attempts (snd (process_dunning_schedule now s))).
Proof.
  intros Hnum. unfold process_dunning_schedule, bindM, gets.
  destruct (head _) as [ds|]; [|exact Hnum].
  destruct (dunning_loop_effect ds (get_retry_days ds) now s
              (List.filter (fun a => String.eqb (sub_status a) "past_due")
                 (subscriptions s)) 0 s (fun _ => eq_refl))
    as (s' & newer & msgs & Hrun & _ & _ & _ & _ & _ & _ & Hkeep & _).
  rewrite Hrun. by apply Hkeep.
Qed.

Lemma two_failures_numbered : numbered (renewal_attempts (two_failures_db (1000 * day))).
Proof. intros [|x]; reflexivity. Qed.

Lemma dunning_sweep_keeps_numbering_witness :
  numbered (renewal_attempts
    (snd (process_dunning_schedule (1001 * day) (two_failures_db (1000 * day))))).
Proof. apply dunning_sweep_keeps_numbering, two_failures_numbered. Defined.

(** ** The footprint of initiate_subscription_payment *)

Lemma map_key_saved {A : Type} (key : A -> nat) (a : A) (l : list A) :
  map key (map (fun r => if Nat.eqb (key r) (key a) then a else r) l)
  = map key l.
Proof.
  induction l as [|r l IH]; [reflexivity|]. cbn. rewrite IH. f_equal.
  by destruct (Nat.eqb_spec (key r) (key a)).
Qed.

Ltac keeps_leaf :=
  match goal with
  | |- moves _ _ (get_attempt _) =>
      intros ?; unfold get_attempt; by destruct (List.find _ _)
  | |- moves _ _ (get_subscription _) =>
      intros ?; unfold get_subscription; by destruct (List.find _ _)
  | |- moves _ _ (get_order _) =>
      intros ?; unfold get_order; by destruct (List.find _ _)
  | |- moves _ _ (get_order_opt ?o) =>
      intros ?; unfold get_order_opt, get_order, bindM; destruct o;
      [by destruct (List.find _ _) | reflexivity]
  | |- moves _ _ (PaymentIntent_create _) =>
      intros ?; unfold PaymentIntent_create; by destruct (existsb _ _)
  | |- moves _ _ (call_provider ?o) => intros ?; by destruct o
  | |- moves _ _ (initiate_with_provider ?mt ?o ?p) =>
      let s := fresh "s" in
      let Hrun := fresh "Hrun" in
      intros s;
      destruct (initiate_with_provider_cases mt o p s)
        as [(? & _ & Hrun) | [Hrun | (? & ? & ? & Hrun)]]; by rewrite Hrun
  | |- moves _ _ (initiate_subscription_payment_handler _ _) =>
      intros ?; unfold initiate_subscription_payment_handler, get_attempt;
      destruct (List.find _ _); [|reflexivity];
      first [ reflexivity
            | symmetry; apply (f_equal2 pair);
              [apply (map_key_saved ra_id)|reflexivity] ]
  | |- moves _ _ (save_attempt ?a) =>
      intros ?; cbn; by rewrite ?(map_key_saved ra_id a)
  | |- moves _ _ (save_subscription ?a) =>
      intros ?; cbn; by rewrite ?(map_key_saved sub_id a)
  | |- moves _ _ (save_intent _) => intros ?; reflexivity
  end.

Lemma initiate_outside id now suffix outcome :
  keeps outside_initiate (initiate_subscription_payment id now suffix outcome).
Proof.
  unfold initiate_subscription_payment, initiate_subscription_payment_body.
  repeat first [ keeps_leaf | keeps_step ].
Qed.

Lemma initiate_row_keys id now suffix outcome :
  keeps (fun s => (map ra_id (renewal_attempts s), map sub_id (subscriptions s)))
    (initiate_subscription_payment id now suffix outcome).
Proof.
  unfold initiate_subscription_payment, initiate_subscription_payment_body.
  repeat first [ keeps_leaf | keeps_step ].
Qed.

(** X22 (initiate_subscription_payment, footprint). Whatever the renewal
    attempt id, the provider's answer and the outcome (return or raise), one
    run of the task leaves prices, orders, line items, payment methods,
    payments, webhook events, ledger entries and dunning schedules as they
    were and queues nothing: although it is declared with max_retries=3 it
    never re-queues itself, it re-raises. It creates or deletes no renewal
    attempt and no subscription (it only saves existing rows). On an intents
    table whose keys are the indices handed out so far, it adds at most one
    payment intent in front and leaves every earlier intent as it was. *)
Theorem initiate_footprint (id : nat) (now : datetime) (uuid_hex8 : string)
    (provider : provider_outcome) (s : db) :
  let s' := snd (initiate_subscription_payment id now uuid_hex8 provider s) in
  outside_initiate s' = outside_initiate s
  /\ map ra_id (renewal_attempts s') = map ra_id (renewal_attempts s)
  /\ map sub_id (subscriptions s') = map sub_id (subscriptions s)
  /\ (wf_intents s ->
      exists newer, payment_intents s' = (newer ++ payment_intents s)%list
                    /\ (List.length newer <= 1)%nat).
Proof.
  intros s'. split; [symmetry; apply initiate_outside|].
  pose proof (initiate_row_keys id now uuid_hex8 provider s) as Hkeys.
  cbn beta in Hkeys. fold s' in Hkeys.
  split; [by injection Hkeys|]. split; [by injection Hkeys|].
  intros [_ Hids]. subst s'. rewrite initiate_intents_of_body.
  destruct (body_intents id now uuid_hex8 provider s)
    as [Hsame|(p & p' & Hp & _ & Hid & Hkey & [Hnew|Hsaved])].
  - exists []. split; [exact Hsame | cbn; lia].
  - exists [p]. split; [exact Hnew | cbn; lia].
  - exists [p']. split; [|cbn; lia]. rewrite Hsaved.
    apply save_keeps_keys; [done | done |]. by rewrite Hp.
Qed.

Lemma initiate_footprint_witness :
  let s := pending_attempt_db (1000 * day) in
  let s' := snd (initiate_subscription_payment 0 (1000 * day) "a1b2c3d4"
                   (provider_raises "timeout") s) in
  exists newer, payment_intents s' = (newer ++ payment_intents s)%list
                /\ (List.length newer <= 1)%nat.
Proof.
  intros s s'.
  destruct (initiate_footprint 0 (1000 * day) "a1b2c3d4"
              (provider_raises "timeout") s) as (_ & _ & _ & H).
  apply H. exact (conj (NoDup_nil_2 (A:=string)) (Forall_nil_2 _)).
Defined.


Lemma reconcile_window_is_previous_day_witness :
  In {| pay_id := 0; pay_payment_intent := 0; pay_order := 0; pay_user := 0;
        pay_amount := 500000; pay_provider := "mpesa";
        pay_provider_transaction_id := "ABC123";
        pay_created_at := 1000 * day + 12 * hour |}
    (payments_of_yesterday (1001 * day + 2 * hour)
       (one_payment_db (1000 * day + 12 * hour) [])).
Proof.
  apply reconcile_window_is_previous_day.
  split; [left; reflexivity | reflexivity].
Defined.
